(** * app.py: a Flask e-commerce backend (catalog, cart, checkout, orders)

    The development follows the layout of [app.py]:

    - [Py]: the Python values that travel through the handlers (JSON
      scalars, arbitrary-precision integers, binary64 floats, strings) and
      the builtins the handlers call on them ([int], [float], [str],
      [round], truthiness, [dict] operations);
    - the database models ([Product], [User], [Order], [OrderItem]) and
      the tables;
    - the session, the helper functions and the route handlers:
      authentication, the catalog, the cart, checkout, the orders and the
      index page, and [init_db];
    - the properties of these routes. *)

From Stdlib Require Import ZArith List String Ascii Bool Floats Lia.
From Stdlib Require Import DecimalString.
From Stdlib Require Import DecimalPos.
#[local] Set Warnings "-inexact-float".
Import ListNotations.
Open Scope Z_scope.

(* ================================================================== *)
(** * Python values and builtins *)
(* ================================================================== *)

Module Py.

(** Exceptions that reach the handlers.  [NotFound] is werkzeug's 404
    exception raised by [get_or_404]; [DBFailure] stands for an error
    reported by the storage engine while a transaction is open. *)
Inductive exn : Type :=
| TypeError
| ValueError
| OverflowError
| AttributeError
| KeyError
| IntegrityError
| DBFailure
| NotFound.

Inductive result (A : Type) : Type :=
| Ok (a : A)
| Raise (e : exn).
Arguments Ok {A} a.
Arguments Raise {A} e.

Definition rbind {A B : Type} (r : result A) (k : A -> result B) : result B :=
  match r with
  | Ok a => k a
  | Raise e => Raise e
  end.

(** A JSON scalar once decoded by [request.get_json()]: [None] (null), a
    [bool], an [int] of any size, a [float] (binary64) or a [str].  Strings
    are sequences of 8-bit characters; the builtins below decide on the
    ASCII characters, so the non-ASCII digits and blanks that Python also
    accepts are read as ordinary characters. *)
Inductive value : Type :=
| PNone
| PBool (b : bool)
| PInt (z : Z)
| PFloat (f : float)
| PStr (s : string).

(** The numbers the cart total goes through: [total = 0] is an [int], and
    becomes a [float] at the first [total += price * quantity]. *)
Inductive num : Type :=
| NInt (z : Z)
| NFloat (f : float).

(** ** dict: insertion-ordered association lists *)

Section Dict.
Context {V : Type}.

(** [k in d] / [d.get(k)] *)
Fixpoint dict_get (k : string) (d : list (string * V)) : option V :=
  match d with
  | [] => None
  | (k', v) :: d' => if String.eqb k k' then Some v else dict_get k d'
  end.

Definition dict_mem (k : string) (d : list (string * V)) : bool :=
  match dict_get k d with Some _ => true | None => false end.

(** [d[k] = v]: an existing key keeps its position, a new key goes last. *)
Fixpoint dict_set (k : string) (v : V) (d : list (string * V))
  : list (string * V) :=
  match d with
  | [] => [(k, v)]
  | (k', v') :: d' =>
      if String.eqb k k' then (k', v) :: d' else (k', v') :: dict_set k v d'
  end.

(** [del d[k]] *)
Definition dict_del (k : string) (d : list (string * V)) : list (string * V) :=
  filter (fun kv => negb (String.eqb k (fst kv))) d.

(** [d.get(k, default)] *)
Definition dict_get_default (k : string) (default : V) (d : list (string * V)) : V :=
  match dict_get k d with Some v => v | None => default end.
End Dict.

(** ** Characters *)

Definition chars (s : string) : list ascii := list_ascii_of_string s.

Definition digit_of (c : ascii) : option Z :=
  let n := Z.of_N (N_of_ascii c) in
  if (48 <=? n) && (n <=? 57) then Some (n - 48) else None.

(** The blanks that [int] and [float] strip: tab, line feed, vertical tab,
    form feed, carriage return, the four separators 0x1c-0x1f and space. *)
Definition is_space (c : ascii) : bool :=
  let n := Z.of_N (N_of_ascii c) in
  ((9 <=? n) && (n <=? 13)) || ((28 <=? n) && (n <=? 32)).

Fixpoint lstrip (s : list ascii) : list ascii :=
  match s with
  | c :: s' => if is_space c then lstrip s' else s
  | [] => []
  end.

Definition strip (s : list ascii) : list ascii :=
  rev (lstrip (rev (lstrip s))).

Definition lower (c : ascii) : ascii :=
  let n := N_of_ascii c in
  if (65 <=? n)%N && (n <=? 90)%N then ascii_of_N (n + 32) else c.

(** A sign prefix: [true] for a leading minus. *)
Definition split_sign (s : list ascii) : bool * list ascii :=
  match s with
  | c :: s' =>
      if Ascii.eqb c "-" then (true, s')
      else if Ascii.eqb c "+" then (false, s')
      else (false, s)
  | [] => (false, [])
  end.

(** Digits after the first one: a digit, or one underscore followed by a
    digit.  Returns the digits read and what is left. *)
Fixpoint digits_tail (s : list ascii) : list Z * list ascii :=
  match s with
  | [] => ([], [])
  | c :: s' =>
      match digit_of c with
      | Some d => let (ds, r) := digits_tail s' in (d :: ds, r)
      | None =>
          if Ascii.eqb c "_" then
            match s' with
            | c2 :: s'' =>
                match digit_of c2 with
                | Some d => let (ds, r) := digits_tail s'' in (d :: ds, r)
                | None => ([], s)
                end
            | [] => ([], s)
            end
          else ([], s)
      end
  end.

(** digitpart ::= digit (["_"] digit)* *)
Definition digitpart (s : list ascii) : option (list Z * list ascii) :=
  match s with
  | c :: s' =>
      match digit_of c with
      | Some d => let (ds, r) := digits_tail s' in Some (d :: ds, r)
      | None => None
      end
  | [] => None
  end.

Definition Z_of_digits (ds : list Z) : Z :=
  fold_left (fun acc d => 10 * acc + d) ds 0.

Definition cond_opp (neg : bool) (z : Z) : Z := if neg then - z else z.

(** ** int(str) and str(int) *)

(** [int(s)] in base 10: blanks stripped, an optional sign, then digits.
    [None] is [ValueError].  The cap that recent interpreters put on the
    number of digits is not modelled. *)
Definition int_of_str (s : string) : option Z :=
  let (neg, body) := split_sign (strip (chars s)) in
  match digitpart body with
  | Some (ds, []) => Some (cond_opp neg (Z_of_digits ds))
  | _ => None
  end.

Definition str_of_int (z : Z) : string := NilZero.string_of_int (Z.to_int z).

(** ** Binary64 floats *)

(** The float nearest to [(-1)^neg * d * 10^e10], ties to even: what
    [float] makes of a decimal literal, and what the last step of [round]
    and the round-trip test of [repr] compute. *)
Definition float_of_decimal (neg : bool) (d : Z) (e10 : Z) : float :=
  match d with
  | Zpos m =>
      if 0 <=? e10 then
        SF2Prim (binary_normalize prec emax (cond_opp neg (d * 10 ^ e10)) 0 false)
      else
        SF2Prim (SFdiv prec emax (S754_finite neg m 0)
                   (S754_finite false (Z.to_pos (10 ^ (- e10))) 0))
  | _ => if neg then neg_zero else zero
  end.

(** [float(n)] for an [int]: nearest float, ties to even;
    "int too large to convert to float" past the largest finite float. *)
Definition float_of_int (z : Z) : result float :=
  match binary_normalize prec emax z 0 false with
  | S754_infinity _ => Raise OverflowError
  | sf => Ok (SF2Prim sf)
  end.

(** [int(x)] for a [float]: truncation towards zero. *)
Definition int_of_float (f : float) : result Z :=
  match Prim2SF f with
  | S754_nan => Raise ValueError
  | S754_infinity _ => Raise OverflowError
  | S754_zero _ => Ok 0
  | S754_finite s m e => Ok (cond_opp s (Z.shiftl (Zpos m) e))
  end.

Definition lower_chars (s : list ascii) : string :=
  string_of_list_ascii (map lower s).

(** exponent ::= ("e" | "E") ["+" | "-"] digitpart, or nothing *)
Definition exponent (s : list ascii) : option (Z * list ascii) :=
  match s with
  | c :: s' =>
      if Ascii.eqb (lower c) "e" then
        let (neg, s'') := split_sign s' in
        match digitpart s'' with
        | Some (ds, r) => Some (cond_opp neg (Z_of_digits ds), r)
        | None => None
        end
      else Some (0, s)
  | [] => Some (0, [])
  end.

(** The digits of a decimal literal before its exponent: integer part and
    fraction, one of which may be missing. *)
Definition mantissa (s : list ascii) : option (list Z * list Z * list ascii) :=
  match digitpart s with
  | Some (ip, r) =>
      match r with
      | c :: r' =>
          if Ascii.eqb c "." then
            match digitpart r' with
            | Some (fp, r'') => Some (ip, fp, r'')
            | None => Some (ip, [], r')
            end
          else Some (ip, [], r)
      | [] => Some (ip, [], [])
      end
  | None =>
      match s with
      | c :: r' =>
          if Ascii.eqb c "." then
            match digitpart r' with
            | Some (fp, r'') => Some ([], fp, r'')
            | None => None
            end
          else None
      | [] => None
      end
  end.

(** [float(s)]: blanks stripped, an optional sign, then [inf], [infinity],
    [nan] in any case, or a decimal literal.  [None] is [ValueError]. *)
Definition float_of_str (s : string) : option float :=
  let (neg, body) := split_sign (strip (chars s)) in
  let word := lower_chars body in
  if String.eqb word "inf" || String.eqb word "infinity" then
    Some (if neg then neg_infinity else infinity)
  else if String.eqb word "nan" then Some nan
  else
    match mantissa body with
    | Some (ip, fp, r) =>
        match exponent r with
        | Some (e, []) =>
            Some (float_of_decimal neg (Z_of_digits (ip ++ fp))
                    (e - Z.of_nat (List.length fp)))
        | _ => None
        end
    | None => None
    end.

(** Nearest integer to [n / d], ties to even ([0 <= n], [0 < d]). *)
Definition div_half_even (n d : Z) : Z :=
  let q := n / d in
  match 2 * (n mod d) ?= d with
  | Lt => q
  | Gt => q + 1
  | Eq => if Z.even q then q else q + 1
  end.

(** [round(x, 2)] for a [float]: the exact value of [x] is rounded to two
    decimals, ties to even, and the float nearest to that decimal is
    returned; infinities, NaN and zeros round to themselves. *)
Definition round2 (f : float) : float :=
  match Prim2SF f with
  | S754_finite s m e =>
      let n := if 0 <=? e then 100 * Zpos m * 2 ^ e
               else div_half_even (100 * Zpos m) (2 ^ (- e)) in
      float_of_decimal s n (-2)
  | _ => f
  end.

(** ** repr(float) *)

Definition ndigits (z : Z) : Z := Z.of_nat (String.length (str_of_int z)).

(** [floor (log10 (n / d))] for positive [n] and [d]. *)
Definition floor_log10 (n d : Z) : Z :=
  if d <=? n then ndigits (n / d) - 1
  else
    let j := ndigits d - ndigits n in
    if d <=? n * 10 ^ j then - j else - (j + 1).

(** The shortest decimal [c * 10^k] that reads back as [x = n / d], the
    nearest to [x] among the shortest: tried with [p], [p+1], ...
    significant digits. *)
Fixpoint shortest (fuel : nat) (p : Z) (x : float) (n d k10 : Z) : Z * Z :=
  let k := k10 - p + 1 in
  let n' := n * 10 ^ Z.max (- k) 0 in
  let d' := d * 10 ^ Z.max k 0 in
  let lo := n' / d' in
  let hi := lo + 1 in
  let lo_ok := PrimFloat.eqb (float_of_decimal false lo k) x in
  let hi_ok := PrimFloat.eqb (float_of_decimal false hi k) x in
  let nearest := if 2 * (n' mod d') <=? d' then lo else hi in
  match fuel with
  | O => (nearest, k)
  | S fuel' =>
      if lo_ok && hi_ok then (nearest, k)
      else if lo_ok then (lo, k)
      else if hi_ok then (hi, k)
      else shortest fuel' (p + 1) x n d k10
  end.

Fixpoint rstrip_zeros (rev_digits : list ascii) : list ascii :=
  match rev_digits with
  | c :: s' => if Ascii.eqb c "0" then rstrip_zeros s' else rev_digits
  | [] => []
  end.

Definition zeros (n : Z) : string :=
  string_of_list_ascii (repeat "0"%char (Z.to_nat n)).

(** Layout of the digits [ds] with the decimal point after [decpt] of
    them: exponent form when [decpt <= -4] or [decpt > 16]. *)
Definition float_layout (ds : string) (decpt : Z) : string :=
  let nd := Z.of_nat (String.length ds) in
  if (decpt <=? -4) || (16 <? decpt) then
    let e := decpt - 1 in
    let frac := substring 1 (String.length ds - 1) ds in
    let mant := if String.eqb frac "" then substring 0 1 ds
                else (substring 0 1 ds ++ "." ++ frac)%string in
    let es := str_of_int (Z.abs e) in
    let es := if Z.abs e <? 10 then ("0" ++ es)%string else es in
    let sign := if e <? 0 then "-"%string else "+"%string in
    (mant ++ "e" ++ sign ++ es)%string
  else if decpt <=? 0 then
    ("0." ++ zeros (- decpt) ++ ds)%string
  else if nd <=? decpt then
    (ds ++ zeros (decpt - nd) ++ ".0")%string
  else
    (substring 0 (Z.to_nat decpt) ds ++ "."
       ++ substring (Z.to_nat decpt) (String.length ds - Z.to_nat decpt) ds)%string.

(** [repr(x)] = [str(x)] for a [float]. *)
Definition float_repr (f : float) : string :=
  match Prim2SF f with
  | S754_nan => "nan"%string
  | S754_infinity s => if s then "-inf"%string else "inf"%string
  | S754_zero s => if s then "-0.0"%string else "0.0"%string
  | S754_finite s m e =>
      let n := Zpos m * 2 ^ Z.max e 0 in
      let d := 2 ^ Z.max (- e) 0 in
      let (c, k) := shortest 17 1 (abs f) n d (floor_log10 n d) in
      let all := chars (str_of_int c) in
      let ds := string_of_list_ascii (rev (rstrip_zeros (rev all))) in
      let body := float_layout ds (Z.of_nat (List.length all) + k) in
      if s then ("-" ++ body)%string else body
  end.

(** ** Builtins on values *)

(** [str(x)] *)
Definition py_str (v : value) : string :=
  match v with
  | PNone => "None"%string
  | PBool b => if b then "True"%string else "False"%string
  | PInt z => str_of_int z
  | PFloat f => float_repr f
  | PStr s => s
  end.

(** [int(x)] *)
Definition py_int (v : value) : result Z :=
  match v with
  | PNone => Raise TypeError
  | PBool b => Ok (if b then 1 else 0)
  | PInt z => Ok z
  | PFloat f => int_of_float f
  | PStr s => match int_of_str s with Some z => Ok z | None => Raise ValueError end
  end.

(** [float(x)] *)
Definition py_float (v : value) : result float :=
  match v with
  | PNone => Raise TypeError
  | PBool b => Ok (if b then one else zero)
  | PInt z => float_of_int z
  | PFloat f => Ok f
  | PStr s => match float_of_str s with Some f => Ok f | None => Raise ValueError end
  end.

(** Truth value, as tested by [if x] and [not x]. *)
Definition truthy (v : value) : bool :=
  match v with
  | PNone => false
  | PBool b => b
  | PInt z => negb (z =? 0)
  | PFloat f => negb (is_zero f)
  | PStr s => negb (String.eqb s "")
  end.

(** [price * quantity], a [float] times an [int]. *)
Definition float_mul_int (x : float) (n : Z) : result float :=
  rbind (float_of_int n) (fun y => Ok (x * y)%float).

(** [total + x] where [x] is a [float]. *)
Definition num_add_float (total : num) (x : float) : result num :=
  match total with
  | NInt z => rbind (float_of_int z) (fun t => Ok (NFloat (t + x)%float))
  | NFloat t => Ok (NFloat (t + x)%float)
  end.

(** [round(total, 2)]: an [int] is returned as it is. *)
Definition py_round (total : num) : num :=
  match total with
  | NInt z => NInt z
  | NFloat f => NFloat (round2 f)
  end.

Definition value_of_num (n : num) : value :=
  match n with
  | NInt z => PInt z
  | NFloat f => PFloat f
  end.

(** What [jsonify] is given: scalars, lists and dicts. *)
#[local] Unset Elimination Schemes.
Inductive json : Type :=
| JVal (v : value)
| JList (l : list json)
| JDict (d : list (string * json)).
#[local] Set Elimination Schemes.

Definition jstr (s : string) : json := JVal (PStr s).
Definition jint (z : Z) : json := JVal (PInt z).
Definition jfloat (f : float) : json := JVal (PFloat f).
Definition jnum (n : num) : json := JVal (value_of_num n).

(** An [int] or [None]. *)
Definition json_of_option (o : option Z) : json :=
  match o with
  | Some z => jint z
  | None => JVal PNone
  end.

End Py.

Import Py.

(* ================================================================== *)
(** * Database models *)
(* ================================================================== *)

(** Rows hold what the storage engine keeps of the Python values they
    were given (see the section on what the storage engine accepts); the
    clock is an input ([now] stands for [datetime.utcnow()]). *)

Module Product.
Record t : Type := mk {
  id : Z;
  name : value;
  description : value;
  price : float;
  stock : Z;
  category : value;
  image_url : value;
  created_at : Z;
  updated_at : Z
}.

Definition to_dict (self : t) : list (string * json) :=
  [ ("id"%string, jint (id self));
    ("name"%string, JVal (name self));
    ("description"%string, JVal (description self));
    ("price"%string, jfloat (price self));
    ("stock"%string, jint (stock self));
    ("category"%string, JVal (category self));
    ("image_url"%string, JVal (image_url self)) ].
End Product.

(** [nullable=False] on the three strings: a row holds a string in each. *)
Module User.
Record t : Type := mk {
  id : Z;
  username : string;
  email : string;
  password : string;
  created_at : Z
}.
End User.

Module Order.
Record t : Type := mk {
  id : Z;
  user_id : option Z;
  total_amount : num;
  status : string;
  shipping_address : value;
  created_at : Z;
  updated_at : Z
}.

Definition to_dict (self : t) : list (string * json) :=
  [ ("id"%string, jint (id self));
    ("user_id"%string, json_of_option (user_id self));
    ("total_amount"%string, jnum (total_amount self));
    ("status"%string, jstr (status self));
    ("shipping_address"%string, JVal (shipping_address self));
    ("created_at"%string, jint (created_at self)) ].
End Order.

Module OrderItem.
Record t : Type := mk {
  id : Z;
  order_id : Z;
  product_id : Z;
  quantity : Z;
  price : float
}.
End OrderItem.

Record tables : Type := mk_tables {
  products : list Product.t;
  orders : list Order.t;
  order_items : list OrderItem.t
}.

(** The integer primary key given to a new row: one more than the largest
    key in the table.  Keys are 64-bit integers: see [in_int64] and the
    INSERTs below for a table whose largest key is the largest of them. *)
Definition next_id (ids : list Z) : Z := 1 + fold_right Z.max 0 ids.

(** [Product.query.get(id)] *)
Definition get_product (pid : Z) (ps : list Product.t) : option Product.t :=
  find (fun p => Product.id p =? pid) ps.

(** [Order.query.get(id)] *)
Definition get_order (oid : Z) (os : list Order.t) : option Order.t :=
  find (fun o => Order.id o =? oid) os.

(** The row of [p] rewritten. *)
Definition put_product (p : Product.t) (ps : list Product.t) : list Product.t :=
  map (fun p' => if Product.id p' =? Product.id p then p else p') ps.

(** [order.items]: the line items of an order. *)
Definition items_of (oid : Z) (t : tables) : list OrderItem.t :=
  filter (fun it => OrderItem.order_id it =? oid) (order_items t).

Definition is_none (v : value) : bool :=
  match v with PNone => true | _ => false end.

(** [nullable=False] on [Product.name] and [Product.category]. *)
Definition product_not_null (p : Product.t) : bool :=
  negb (is_none (Product.name p)) && negb (is_none (Product.category p)).

(** ** What the storage engine accepts *)

(** SQLite keeps an integer in 64 bits: binding a Python [int] outside
    that range as a parameter of a statement raises [OverflowError]. *)
Definition in_int64 (z : Z) : bool :=
  (-9223372036854775808 <=? z) && (z <=? 9223372036854775807).

Definition bind_int (z : Z) : result Z :=
  if in_int64 z then Ok z else Raise OverflowError.

(** What a TEXT column keeps of a bound value: a [str] as it is, [None]
    and a NaN as NULL, an [int] and a [bool] (which is bound as an
    integer) as their decimal text.  The text that the engine makes of
    any other [float] is not modelled: the row keeps the float. *)
Definition bind_text (v : value) : result value :=
  match v with
  | PNone => Ok PNone
  | PBool b => Ok (PStr (if b then "1" else "0"))
  | PInt z => rbind (bind_int z) (fun z => Ok (PStr (str_of_int z)))
  | PFloat f => Ok (if is_nan f then PNone else PFloat f)
  | PStr s => Ok (PStr s)
  end.

(** What a REAL column keeps of a bound [float]: NULL of a NaN, and a
    zero without its sign, as the engine stores a float that is a small
    integer as that integer; any other float as it is. *)
Definition bind_real (x : float) : option float :=
  if is_nan x then None
  else Some (if PrimFloat.eqb x 0 then 0%float else x).

(** [nullable=False] *)
Definition not_null {A : Type} (v : option A) : result A :=
  match v with
  | Some x => Ok x
  | None => Raise IntegrityError
  end.

(** Python's [==] between an [int] and a [float]: the two are compared
    as numbers, exactly. *)
Definition int_eq_float (z : Z) (f : float) : bool :=
  match Prim2SF f with
  | S754_zero _ => z =? 0
  | S754_finite s m e =>
      let n := if s then Z.neg m else Z.pos m in
      if 0 <=? e then z =? n * 2 ^ e else z * 2 ^ (- e) =? n
  | _ => false
  end.

Definition int_of_bool (b : bool) : Z := if b then 1 else 0.

(** Python's [==] on the values of a JSON object: numbers of any kind,
    [bool] included, compare as numbers. *)
Definition py_eq (a b : value) : bool :=
  match a, b with
  | PNone, PNone => true
  | PStr x, PStr y => String.eqb x y
  | PBool x, PBool y => Bool.eqb x y
  | PBool x, PInt y => int_of_bool x =? y
  | PInt x, PBool y => x =? int_of_bool y
  | PInt x, PInt y => x =? y
  | PFloat x, PFloat y => PrimFloat.eqb x y
  | PInt z, PFloat f => int_eq_float z f
  | PFloat f, PInt z => int_eq_float z f
  | PBool b, PFloat f => int_eq_float (int_of_bool b) f
  | PFloat f, PBool b => int_eq_float (int_of_bool b) f
  | _, _ => false
  end.

(** An attribute that is assigned a value equal to the one it was loaded
    with is left out of the UPDATE, and the column keeps what it holds. *)
Definition rebind_text (old new : value) : result value :=
  if py_eq new old then Ok old else bind_text new.

(** The row that the INSERT of [p] stores: every column is bound.
    [nullable=False] on [Product.price]. *)
Definition stored_product (p : Product.t) : result Product.t :=
  rbind (bind_text (Product.name p)) (fun name =>
  rbind (bind_text (Product.description p)) (fun description =>
  rbind (not_null (bind_real (Product.price p))) (fun price =>
  rbind (bind_int (Product.stock p)) (fun stock =>
  rbind (bind_text (Product.category p)) (fun category =>
  rbind (bind_text (Product.image_url p)) (fun image_url =>
  Ok (Product.mk (Product.id p) name description price stock
        category image_url (Product.created_at p) (Product.updated_at p)))))))).

(** The row that the UPDATE of [old] to [p] stores: the columns whose
    value changes are bound, the other ones keep what they hold. *)
Definition stored_update (old p : Product.t) : result Product.t :=
  rbind (rebind_text (Product.name old) (Product.name p)) (fun name =>
  rbind (rebind_text (Product.description old) (Product.description p))
    (fun description =>
  rbind (if PrimFloat.eqb (Product.price p) (Product.price old)
         then Ok (Product.price old)
         else not_null (bind_real (Product.price p))) (fun price =>
  rbind (if Product.stock p =? Product.stock old then Ok (Product.stock old)
         else bind_int (Product.stock p)) (fun stock =>
  rbind (rebind_text (Product.category old) (Product.category p)) (fun category =>
  rbind (rebind_text (Product.image_url old) (Product.image_url p))
    (fun image_url =>
  Ok (Product.mk (Product.id p) name description price stock
        category image_url (Product.created_at p) (Product.updated_at p)))))))).

(** A line item can be stored: its quantity is bound, and so is the
    stock that it leaves when the stock changes. *)
Definition item_fits (quantity stock : Z) : bool :=
  in_int64 quantity && ((quantity =? 0) || in_int64 (stock - quantity)).

(** What a REAL column keeps of a number: an [int] is bound as an integer
    and stored as the float nearest to it. *)
Definition bind_real_num (n : num) : result num :=
  match n with
  | NInt z => rbind (bind_int z) (fun z =>
              rbind (float_of_int z) (fun x => Ok (NFloat x)))
  | NFloat x => rbind (not_null (bind_real x)) (fun x => Ok (NFloat x))
  end.

(** What an INTEGER column that may be NULL keeps. *)
Definition bind_key (k : option Z) : result (option Z) :=
  match k with
  | Some z => rbind (bind_int z) (fun z => Ok (Some z))
  | None => Ok None
  end.

(** The row that the flush of the order [o] stores.  [nullable=False] on
    [Order.shipping_address] and [Order.total_amount]. *)
Definition stored_order (o : Order.t) : result Order.t :=
  rbind (bind_key (Order.user_id o)) (fun user_id =>
  rbind (bind_real_num (Order.total_amount o)) (fun total_amount =>
  rbind (bind_text (Order.shipping_address o)) (fun shipping_address =>
  if is_none shipping_address then Raise IntegrityError
  else Ok (Order.mk (Order.id o) user_id total_amount
             (Order.status o) shipping_address (Order.created_at o)
             (Order.updated_at o))))).

(* ================================================================== *)
(** * Requests: session, database handle, responses *)
(* ================================================================== *)

(** The Flask session: [session['user_id']] when logged in, and
    [session['cart']], a dict from product id (as a string) to quantity. *)
Module Session.
Record t : Type := mk {
  user_id : option Z;
  cart : option (list (string * Z));
  modified : bool
}.
End Session.

(** What a request runs against: the committed tables and the session.
    Changes to the tables are made on a working copy and reach [db] only
    through [commit]; a request that ends in an exception leaves [db] as it
    was, while [session] is the session object as the handler left it,
    which Flask saves with the response, the error handler's included. *)
Record world : Type := mk_world {
  db : tables;
  session : Session.t
}.

Inductive response : Type :=
| Json (body : json) (code : Z)
| Redirect (location : string).

Definition status (r : response) : Z :=
  match r with
  | Json _ code => code
  | Redirect _ => 302
  end.

(** Handlers run in a state-and-exception monad over [world]. *)
Definition M (A : Type) : Type := world -> result A * world.

Definition ret {A : Type} (a : A) : M A := fun w => (Ok a, w).

Definition bind {A B : Type} (m : M A) (k : A -> M B) : M B :=
  fun w =>
    match m w with
    | (Ok a, w') => k a w'
    | (Raise e, w') => (Raise e, w')
    end.

Definition lift {A : Type} (r : result A) : M A := fun w => (r, w).

Declare Scope handler_scope.
Delimit Scope handler_scope with handler.
Notation "x <- m ;; k" := (bind m (fun x => k))
  (at level 61, m at next level, right associativity) : handler_scope.
Notation "m ;; k" := (bind m (fun _ => k))
  (at level 61, right associativity) : handler_scope.
Open Scope handler_scope.

Definition get_db : M tables := fun w => (Ok (db w), w).

(** [db.session.commit()] of the working copy [tx]. *)
Definition commit (tx : tables) : M unit :=
  fun w => (Ok tt, mk_world tx (session w)).

Definition get_session : M Session.t := fun w => (Ok (session w), w).

Definition set_session (s : Session.t) : M unit :=
  fun w => (Ok tt, mk_world (db w) s).

Definition error (msg : string) (code : Z) : response :=
  Json (JDict [("error"%string, jstr msg)]) code.

(** The handlers registered for 404 and 500. *)
Definition not_found : response := error "Resource not found" 404.
Definition server_error : response := error "Internal server error" 500.

(** The response of a request: the handler's, or the error handler's when
    the handler raises. *)
Definition handle_exception (r : result response) : response :=
  match r with
  | Ok r => r
  | Raise NotFound => not_found
  | Raise _ => server_error
  end.

(** One request. *)
Definition serve (h : M response) (w : world) : response * world :=
  let (r, w') := h w in (handle_exception r, w').

(** The session travels in a cookie, which Flask writes with
    [json.dumps(..., sort_keys=True)]: the next request finds the cart
    with its keys in order, whatever the order of insertion. *)
Fixpoint insert_key {V : Type} (kv : string * V) (d : list (string * V))
  : list (string * V) :=
  match d with
  | [] => [kv]
  | kv' :: d' =>
      if String.leb (fst kv) (fst kv') then kv :: d else kv' :: insert_key kv d'
  end.

Definition sort_keys {V : Type} (d : list (string * V)) : list (string * V) :=
  fold_right insert_key [] d.

(** What the next request of the session runs against. *)
Definition persist (w : world) : world :=
  mk_world (db w)
    (Session.mk (Session.user_id (session w))
       (option_map sort_keys (Session.cart (session w))) false).

(** The users table and [session['username']].  Only the authentication
    routes use them, so they stand beside the [world] of the other
    routes, which [shop] holds. *)
Module Site.
Record t : Type := mk {
  users : list User.t;
  username : option string;
  shop : world
}.
End Site.

(** A handler of the whole site. *)
Definition handler : Type := Site.t -> result response * Site.t.

(** A handler that uses neither the users table nor [session['username']]. *)
Definition on_shop (h : M response) : handler :=
  fun s =>
    let (r, w) := h (Site.shop s) in
    (r, Site.mk (Site.users s) (Site.username s) w).

(* ================================================================== *)
(** * Helper functions *)
(* ================================================================== *)

(** [login_required]: redirect to the login page unless ['user_id'] is in
    the session. *)
Definition login_required (f : M response) : M response :=
  s <- get_session ;;
  match Session.user_id s with
  | None => ret (Redirect "/login")
  | Some _ => f
  end.

Definition get_cart : M (list (string * Z)) :=
  s <- get_session ;;
  match Session.cart s with
  | Some cart => ret cart
  | None =>
      set_session (Session.mk (Session.user_id s) (Some []) true) ;;
      ret []
  end.

Definition save_cart (cart : list (string * Z)) : M unit :=
  s <- get_session ;;
  set_session (Session.mk (Session.user_id s) (Some cart) true).

(** The loop of [calculate_cart_total] over [cart.items()], on the
    products [ps]. *)
Fixpoint cart_sum (ps : list Product.t) (cart : list (string * Z)) (total : num)
  : result num :=
  match cart with
  | [] => Ok total
  | (product_id, quantity) :: rest =>
      rbind (py_int (PStr product_id)) (fun pid =>
      match get_product pid ps with
      | Some product =>
          rbind (float_mul_int (Product.price product) quantity) (fun x =>
          rbind (num_add_float total x) (fun total' =>
          cart_sum ps rest total'))
      | None => cart_sum ps rest total
      end)
  end.

Definition calculate_cart_total (cart : list (string * Z)) : M num :=
  t <- get_db ;;
  total <- lift (cart_sum (products t) cart (NInt 0)) ;;
  ret (py_round total).

(** [Product.query.get_or_404(id)]: the key is bound as the parameter of
    the SELECT. *)
Definition get_product_or_404 (pid : Z) : M Product.t :=
  t <- get_db ;;
  pid <- lift (bind_int pid) ;;
  match get_product pid (products t) with
  | Some p => ret p
  | None => lift (Raise NotFound)
  end.

(** [Order.query.get_or_404(id)] *)
Definition get_order_or_404 (oid : Z) : M Order.t :=
  t <- get_db ;;
  oid <- lift (bind_int oid) ;;
  match get_order oid (orders t) with
  | Some o => ret o
  | None => lift (Raise NotFound)
  end.

(* ================================================================== *)
(** * Routes - Authentication *)
(* ================================================================== *)

(** The fields of a registration or login request are strings: those of
    the form, or of a JSON object of strings.  [data.get(k)] is [None] for
    a field that is absent. *)

(** [column = v] in a [filter_by]: [None] is compared with [IS NULL],
    which no row of a [nullable=False] column satisfies. *)
Definition column_is (v : option string) (stored : string) : bool :=
  match v with
  | Some s => String.eqb stored s
  | None => false
  end.

(** [db.session.add(user)] then the INSERT of the commit, under
    [nullable=False] on the three fields and [unique=True] on [username]
    and [email]. *)
Definition insert_user (now : Z) (username email password : option string)
    (us : list User.t) : result (list User.t) :=
  match username, email, password with
  | Some u, Some e, Some p =>
      if existsb (fun x => String.eqb (User.username x) u
                           || String.eqb (User.email x) e) us
      then Raise IntegrityError
      else Ok (us ++ [User.mk (next_id (map User.id us)) u e p now])
  | _, _, _ => Raise IntegrityError
  end.

(** POST /register *)
Definition register_POST (now : Z) (data : list (string * string)) : handler :=
  fun s =>
    let username := dict_get "username" data in
    let email := dict_get "email" data in
    let password := dict_get "password" data in
    match find (fun u => column_is username (User.username u)) (Site.users s) with
    | Some _ => (Ok (error "Username already exists" 400), s)
    | None =>
        match find (fun u => column_is email (User.email u)) (Site.users s) with
        | Some _ => (Ok (error "Email already exists" 400), s)
        | None =>
            match insert_user now username email password (Site.users s) with
            | Raise e => (Raise e, s)
            | Ok users =>
                (Ok (Json (JDict [("message"%string,
                                   jstr "Registration successful")]) 201),
                 Site.mk users (Site.username s) (Site.shop s))
            end
        end
    end.

(** GET /register *)
Definition register_GET : handler :=
  fun s =>
    (Ok (Json (JDict [("message"%string,
                       jstr "Send POST request with username, email, password")])
           200), s).

(** POST /login *)
Definition login_POST (data : list (string * string)) : handler :=
  fun s =>
    let username := dict_get "username" data in
    let password := dict_get "password" data in
    match find (fun u => column_is username (User.username u)
                         && column_is password (User.password u))
               (Site.users s) with
    | Some user =>
        let w := Site.shop s in
        (Ok (Json (JDict [("message"%string, jstr "Login successful");
                          ("user_id"%string, jint (User.id user))]) 200),
         Site.mk (Site.users s) (Some (User.username user))
           (mk_world (db w)
              (Session.mk (Some (User.id user)) (Session.cart (session w)) true)))
    | None => (Ok (error "Invalid credentials" 401), s)
    end.

(** GET /login *)
Definition login_GET : handler :=
  fun s =>
    (Ok (Json (JDict [("message"%string,
                       jstr "Send POST request with username and password")])
           200), s).

(** GET /logout: [session.clear()], then the redirect to [home]. *)
Definition logout : handler :=
  fun s =>
    (Ok (Redirect "/"),
     Site.mk (Site.users s) None
       (mk_world (db (Site.shop s)) (Session.mk None None true))).

(* ================================================================== *)
(** * Routes - Products *)
(* ================================================================== *)

(** [Product.category == category] for the string of the query.  A row
    created with a category that is not a string is taken not to match:
    the text that the storage engine makes of such a value is not
    recorded in the rows. *)
Definition has_category (category : string) (p : Product.t) : bool :=
  match Product.category p with
  | PStr c => String.eqb c category
  | _ => false
  end.

(** GET /api/products; [category] is [request.args.get('category')]. *)
Definition products_GET (category : option string) : M response :=
  t <- get_db ;;
  let query :=
    match category with
    | Some c =>
        if truthy (PStr c) then filter (has_category c) (products t)
        else products t
    | None => products t
    end in
  ret (Json (JList (map (fun product => JDict (Product.to_dict product)) query))
         200).

(** [data[k]] *)
Definition getitem (k : string) (data : list (string * value)) : result value :=
  match dict_get k data with
  | Some v => Ok v
  | None => Raise KeyError
  end.

(** [data.get(k)] *)
Definition get (k : string) (data : list (string * value)) : value :=
  dict_get_default k PNone data.

(** [db.session.add(product)] then the INSERT of the next flush, of the
    row [p] as stored.  When the largest key of the table is the largest
    64-bit integer the engine looks for an unused key at random and gives
    up after some attempts: the model lets the INSERT fail there. *)
Definition insert_product (p : Product.t) (t : tables) : result tables :=
  if product_not_null p then
    if in_int64 (Product.id p)
    then Ok (mk_tables (products t ++ [p]) (orders t) (order_items t))
    else Raise DBFailure
  else Raise IntegrityError.

(** The UPDATE of a modified product at the next flush, of the row [p] as
    stored. *)
Definition update_product (p : Product.t) (t : tables) : result tables :=
  if product_not_null p
  then Ok (mk_tables (put_product p (products t)) (orders t) (order_items t))
  else Raise IntegrityError.

Definition required_fields : list string :=
  ["name"; "price"; "category"]%string.

(** POST /api/products; [data] is the JSON object of the request. *)
Definition products_POST (now : Z) (data : list (string * value)) : M response :=
  if negb (forallb (fun field => dict_mem field data) required_fields) then
    ret (error "Missing required fields" 400)
  else
    name <- lift (getitem "name" data) ;;
    let description := get "description" data in
    price_in <- lift (getitem "price" data) ;;
    price <- lift (py_float price_in) ;;
    stock <- lift (py_int (dict_get_default "stock" (PInt 0) data)) ;;
    category <- lift (getitem "category" data) ;;
    let image_url := get "image_url" data in
    t <- get_db ;;
    let product :=
      Product.mk (next_id (map Product.id (products t)))
        name description price stock category image_url now now in
    product <- lift (stored_product product) ;;
    tx <- lift (insert_product product t) ;;
    commit tx ;;
    ret (Json (JDict [("message"%string, jstr "Product created successfully");
                      ("product"%string, JDict (Product.to_dict product))]) 201).

(** GET /api/products/<int:product_id> *)
Definition product_detail_GET (product_id : Z) : M response :=
  product <- get_product_or_404 product_id ;;
  ret (Json (JDict (Product.to_dict product)) 200).

(** PUT /api/products/<int:product_id> *)
Definition product_detail_PUT (now : Z) (product_id : Z)
    (data : list (string * value)) : M response :=
  product <- get_product_or_404 product_id ;;
  let name := dict_get_default "name" (Product.name product) data in
  let description :=
    dict_get_default "description" (Product.description product) data in
  price <- lift (py_float
             (dict_get_default "price" (PFloat (Product.price product)) data)) ;;
  stock <- lift (py_int
             (dict_get_default "stock" (PInt (Product.stock product)) data)) ;;
  let category := dict_get_default "category" (Product.category product) data in
  let image_url :=
    dict_get_default "image_url" (Product.image_url product) data in
  let product' :=
    Product.mk (Product.id product) name description price stock category
      image_url (Product.created_at product) now in
  t <- get_db ;;
  product' <- lift (stored_update product product') ;;
  tx <- lift (update_product product' t) ;;
  commit tx ;;
  ret (Json (JDict [("message"%string, jstr "Product updated successfully");
                    ("product"%string, JDict (Product.to_dict product'))]) 200).

(** [db.session.delete(product)] then the flush: the relationship
    [Product.order_items] has no delete cascade, so the line items of the
    product would get a NULL [product_id], which [nullable=False]
    rejects. *)
Definition delete_product (p : Product.t) (t : tables) : result tables :=
  if existsb (fun it => OrderItem.product_id it =? Product.id p) (order_items t)
  then Raise IntegrityError
  else Ok (mk_tables
             (filter (fun p' => negb (Product.id p' =? Product.id p)) (products t))
             (orders t) (order_items t)).

(** DELETE /api/products/<int:product_id> *)
Definition product_detail_DELETE (product_id : Z) : M response :=
  product <- get_product_or_404 product_id ;;
  t <- get_db ;;
  tx <- lift (delete_product product t) ;;
  commit tx ;;
  ret (Json (JDict [("message"%string, jstr "Product deleted successfully")]) 200).

(* ================================================================== *)
(** * Routes - Shopping Cart *)
(* ================================================================== *)

(** The loop of the cart view: one row per entry whose product exists. *)
Fixpoint cart_rows (ps : list Product.t) (cart : list (string * Z))
  : result (list json) :=
  match cart with
  | [] => Ok []
  | (product_id, quantity) :: rest =>
      rbind (py_int (PStr product_id)) (fun pid =>
      match get_product pid ps with
      | Some product =>
          rbind (float_mul_int (Product.price product) quantity) (fun subtotal =>
          rbind (cart_rows ps rest) (fun rows =>
          Ok (JDict [("product_id"%string, jstr product_id);
                     ("product_name"%string, JVal (Product.name product));
                     ("price"%string, jfloat (Product.price product));
                     ("quantity"%string, jint quantity);
                     ("subtotal"%string, jfloat subtotal)] :: rows)))
      | None => cart_rows ps rest
      end)
  end.

Definition cart_json (cart : list (string * Z)) : json :=
  JDict (map (fun kv => (fst kv, jint (snd kv))) cart).

(** GET /api/cart *)
Definition cart_GET : M response :=
  cart_items <- get_cart ;;
  t <- get_db ;;
  cart_data <- lift (cart_rows (products t) cart_items) ;;
  total <- calculate_cart_total cart_items ;;
  ret (Json (JDict [("items"%string, JList cart_data);
                    ("total"%string, jnum total);
                    ("item_count"%string,
                     jint (Z.of_nat (List.length cart_items)))]) 200).

(** POST /api/cart *)
Definition cart_POST (data : list (string * value)) : M response :=
  let product_id := py_str (get "product_id" data) in
  quantity <- lift (py_int (dict_get_default "quantity" (PInt 1) data)) ;;
  pid <- lift (py_int (PStr product_id)) ;;
  product <- get_product_or_404 pid ;;
  if Product.stock product <? quantity then
    ret (error "Insufficient stock" 400)
  else
    cart_items <- get_cart ;;
    let cart_items :=
      match dict_get product_id cart_items with
      | Some q => dict_set product_id (q + quantity) cart_items
      | None => dict_set product_id quantity cart_items
      end in
    save_cart cart_items ;;
    cart_now <- get_cart ;;
    total <- calculate_cart_total cart_items ;;
    ret (Json (JDict [("message"%string, jstr "Product added to cart");
                      ("cart"%string, cart_json cart_now);
                      ("total"%string, jnum total)]) 200).

(** DELETE /api/cart?product_id=...; [product_id] is
    [request.args.get('product_id')]. *)
Definition cart_DELETE (product_id : option string) : M response :=
  let key := py_str (match product_id with Some s => PStr s | None => PNone end) in
  cart_items <- get_cart ;;
  cart_items <- (if dict_mem key cart_items
                 then save_cart (dict_del key cart_items) ;;
                      ret (dict_del key cart_items)
                 else ret cart_items) ;;
  total <- calculate_cart_total cart_items ;;
  ret (Json (JDict [("message"%string, jstr "Product removed from cart");
                    ("total"%string, jnum total)]) 200).

(** PUT /api/cart/update *)
Definition update_cart (data : list (string * value)) : M response :=
  let product_id := py_str (get "product_id" data) in
  quantity <- lift (py_int (dict_get_default "quantity" (PInt 1) data)) ;;
  cart_items <- get_cart ;;
  if negb (dict_mem product_id cart_items) then
    ret (error "Product not in cart" 404)
  else
    let finish (cart_items : list (string * Z)) : M response :=
      save_cart cart_items ;;
      total <- calculate_cart_total cart_items ;;
      ret (Json (JDict [("message"%string, jstr "Cart updated");
                        ("total"%string, jnum total)]) 200) in
    if quantity <=? 0 then
      finish (dict_del product_id cart_items)
    else
      pid <- lift (py_int (PStr product_id)) ;;
      product <- get_product_or_404 pid ;;
      if Product.stock product <? quantity then
        ret (error "Insufficient stock" 400)
      else
        finish (dict_set product_id quantity cart_items).

(** POST /api/cart/clear *)
Definition clear_cart : M response :=
  s <- get_session ;;
  set_session (Session.mk (Session.user_id s) (Some []) true) ;;
  ret (Json (JDict [("message"%string, jstr "Cart cleared")]) 200).

(* ================================================================== *)
(** * Routes - Checkout *)
(* ================================================================== *)

(** The stock check of checkout: the key of the first entry whose product
    is missing or short of stock, if any. *)
Fixpoint check_stock (ps : list Product.t) (cart : list (string * Z))
  : result (option string) :=
  match cart with
  | [] => Ok None
  | (product_id, quantity) :: rest =>
      rbind (py_int (PStr product_id)) (fun pid =>
      match get_product pid ps with
      | Some product =>
          if Product.stock product <? quantity then Ok (Some product_id)
          else check_stock ps rest
      | None => Ok (Some product_id)
      end)
  end.

(** [fault] names the database operation of the write phase, if any, that
    the storage engine rejects: 0 is the flush of the order, [i + 1] the
    [db.session.add] of the item of entry [i], and the operation after the
    last item is the commit.  The flush of the order also fails when the
    table has no key left for it (see [insert_product]); the keys of the
    line items are taken to fit. *)
Definition fails (fault : option nat) (op : nat) : bool :=
  match fault with
  | Some k => Nat.eqb k op
  | None => false
  end.

(** [product.stock -= quantity]; the rewritten row gets a new [updated_at]
    ([onupdate]) when the stock differs. *)
Definition decrement (now quantity : Z) (product : Product.t) : Product.t :=
  Product.mk (Product.id product) (Product.name product)
    (Product.description product) (Product.price product)
    (Product.stock product - quantity) (Product.category product)
    (Product.image_url product) (Product.created_at product)
    (if quantity =? 0 then Product.updated_at product else now).

(** The loop that creates the order items and updates the stock, on the
    working copy [tx].  The quantity of an item and the stock that it
    leaves are bound when the item and the row are flushed, which is no
    later than the commit: the loop places both at the entry. *)
Fixpoint place_items (fault : option nat) (op : nat) (now order_id : Z)
    (cart : list (string * Z)) (tx : tables) : result tables :=
  match cart with
  | [] => Ok tx
  | (product_id, quantity) :: rest =>
      rbind (py_int (PStr product_id)) (fun pid =>
      match get_product pid (products tx) with
      | None => Raise AttributeError
      | Some product =>
          let order_item :=
            OrderItem.mk (next_id (map OrderItem.id (order_items tx)))
              order_id (Product.id product) quantity (Product.price product) in
          let stock := Product.stock product in
          let product := decrement now quantity product in
          if fails fault op then Raise DBFailure
          else if negb (item_fits quantity stock) then Raise OverflowError
          else
            place_items fault (S op) now order_id rest
              (mk_tables (put_product product (products tx)) (orders tx)
                 (order_items tx ++ [order_item]))
      end)
  end.

(** The line items of a response, each with the name of its product. *)
Fixpoint item_rows (ps : list Product.t) (items : list OrderItem.t)
  : result (list json) :=
  match items with
  | [] => Ok []
  | item :: rest =>
      match get_product (OrderItem.product_id item) ps with
      | None => Raise AttributeError
      | Some product =>
          rbind (item_rows ps rest) (fun rows =>
          Ok (JDict [("product_id"%string, jint (OrderItem.product_id item));
                     ("product_name"%string, JVal (Product.name product));
                     ("quantity"%string, jint (OrderItem.quantity item));
                     ("price"%string, jfloat (OrderItem.price item))] :: rows))
      end
  end.

(** The body of [checkout], under its decorator. *)
Definition checkout_body (fault : option nat) (now : Z)
    (data : list (string * value)) : M response :=
  cart_items <- get_cart ;;
  match cart_items with
  | [] => ret (error "Cart is empty" 400)
  | _ :: _ =>
      let shipping_address := get "shipping_address" data in
      if negb (truthy shipping_address) then
        ret (error "Shipping address is required" 400)
      else
        t <- get_db ;;
        short <- lift (check_stock (products t) cart_items) ;;
        match short with
        | Some product_id =>
            ret (error ("Insufficient stock for product " ++ product_id) 400)
        | None =>
            total_amount <- calculate_cart_total cart_items ;;
            s <- get_session ;;
            let order :=
              Order.mk (next_id (map Order.id (orders t))) (Session.user_id s)
                total_amount "completed" shipping_address now now in
            order <- lift (stored_order order) ;;
            tx <- lift (if fails fault 0 || negb (in_int64 (Order.id order))
                        then Raise DBFailure
                        else Ok (mk_tables (products t) (orders t ++ [order])
                                   (order_items t))) ;;
            tx <- lift (place_items fault 1 now (Order.id order) cart_items tx) ;;
            (if fails fault (S (List.length cart_items))
             then lift (Raise DBFailure)
             else commit tx) ;;
            set_session (Session.mk (Session.user_id s) (Some []) true) ;;
            t' <- get_db ;;
            items <- lift (item_rows (products t')
                             (items_of (Order.id order) t')) ;;
            ret (Json (JDict [("message"%string, jstr "Order placed successfully");
                              ("order"%string, JDict (Order.to_dict order));
                              ("items"%string, JList items)]) 201)
        end
  end.

(** POST /api/checkout *)
Definition checkout (fault : option nat) (now : Z)
    (data : list (string * value)) : M response :=
  login_required (checkout_body fault now data).

Definition option_Z_eqb (a b : option Z) : bool :=
  match a, b with
  | Some x, Some y => x =? y
  | None, None => true
  | _, _ => false
  end.

(** The line items of an order in the list of orders. *)
Fixpoint item_summaries (ps : list Product.t) (items : list OrderItem.t)
  : result (list json) :=
  match items with
  | [] => Ok []
  | item :: rest =>
      match get_product (OrderItem.product_id item) ps with
      | None => Raise AttributeError
      | Some product =>
          rbind (item_summaries ps rest) (fun rows =>
          Ok (JDict [("product_name"%string, JVal (Product.name product));
                     ("quantity"%string, jint (OrderItem.quantity item));
                     ("price"%string, jfloat (OrderItem.price item))] :: rows))
      end
  end.

(** One row per order of [os], each with its line items. *)
Fixpoint order_summaries (t : tables) (os : list Order.t) : result (list json) :=
  match os with
  | [] => Ok []
  | order :: rest =>
      rbind (item_summaries (products t) (items_of (Order.id order) t))
        (fun items =>
      rbind (order_summaries t rest) (fun rows =>
      Ok (JDict [("id"%string, jint (Order.id order));
                 ("total_amount"%string, jnum (Order.total_amount order));
                 ("status"%string, jstr (Order.status order));
                 ("created_at"%string, jint (Order.created_at order));
                 ("items"%string, JList items)] :: rows)))
  end.

(** The body of [get_orders], under its decorator. *)
Definition get_orders_body : M response :=
  s <- get_session ;;
  let user_id := Session.user_id s in
  t <- get_db ;;
  let orders_list :=
    filter (fun o => option_Z_eqb (Order.user_id o) user_id) (orders t) in
  rows <- lift (order_summaries t orders_list) ;;
  ret (Json (JList rows) 200).

(** GET /api/orders *)
Definition get_orders : M response := login_required get_orders_body.

(** The body of [get_order_detail], under its decorator. *)
Definition get_order_detail_body (order_id : Z) : M response :=
  order <- get_order_or_404 order_id ;;
  s <- get_session ;;
  if negb (option_Z_eqb (Order.user_id order) (Session.user_id s)) then
    ret (error "Unauthorized" 403)
  else
    t <- get_db ;;
    items <- lift (item_rows (products t) (items_of (Order.id order) t)) ;;
    ret (Json (JDict [("id"%string, jint (Order.id order));
                      ("total_amount"%string, jnum (Order.total_amount order));
                      ("status"%string, jstr (Order.status order));
                      ("shipping_address"%string,
                       JVal (Order.shipping_address order));
                      ("created_at"%string, jint (Order.created_at order));
                      ("items"%string, JList items)]) 200).

(** GET /api/orders/<int:order_id> *)
Definition get_order_detail (order_id : Z) : M response :=
  login_required (get_order_detail_body order_id).

(* ================================================================== *)
(** * Routes - Home *)
(* ================================================================== *)

(** GET / *)
Definition home : M response :=
  ret (Json (JDict
    [("message", jstr "Welcome to Flask E-commerce API");
     ("version", jstr "1.0.0");
     ("endpoints", JDict
        [("authentication", JDict
            [("register", jstr "/register");
             ("login", jstr "/login");
             ("logout", jstr "/logout")]);
         ("products", JDict
            [("list_all", jstr "GET /api/products");
             ("create", jstr "POST /api/products");
             ("get_detail", jstr "GET /api/products/<id>");
             ("update", jstr "PUT /api/products/<id>");
             ("delete", jstr "DELETE /api/products/<id>")]);
         ("cart", JDict
            [("view", jstr "GET /api/cart");
             ("add_item", jstr "POST /api/cart");
             ("update_item", jstr "PUT /api/cart/update");
             ("remove_item", jstr "DELETE /api/cart?product_id=<id>");
             ("clear", jstr "POST /api/cart/clear")]);
         ("checkout", JDict
            [("checkout", jstr "POST /api/checkout");
             ("orders", jstr "GET /api/orders");
             ("order_detail", jstr "GET /api/orders/<id>")])])]%string) 200).

(* ================================================================== *)
(** * Initialize Database *)
(* ================================================================== *)

(** The sample products: name, description, price, stock and category. *)
Definition samples : list (string * string * float * Z * string) :=
  [ ("Laptop", "High-performance laptop", 999.99%float, 10, "Electronics");
    ("Smartphone", "Latest smartphone model", 699.99%float, 20, "Electronics");
    ("Headphones", "Wireless headphones", 199.99%float, 30, "Electronics");
    ("T-Shirt", "Cotton t-shirt", 29.99%float, 50, "Clothing");
    ("Jeans", "Denim jeans", 79.99%float, 25, "Clothing");
    ("Running Shoes", "Sports running shoes", 149.99%float, 15, "Footwear")
  ]%string.

(** [db.session.add(product)] of a sample, with the key it gets at the
    commit. *)
Definition add_sample (now : Z) (ps : list Product.t)
    (sample : string * string * float * Z * string) : list Product.t :=
  let '(name, description, price, stock, category) := sample in
  ps ++ [Product.mk (next_id (map Product.id ps)) (PStr name) (PStr description)
           price stock (PStr category) PNone now now].

(** [init_db]: the samples are added when the products table is empty. *)
Definition init_db (now : Z) (t : tables) : tables :=
  match products t with
  | [] =>
      mk_tables (fold_left (add_sample now) samples (products t))
        (orders t) (order_items t)
  | _ :: _ => t
  end.

(* ================================================================== *)
(** * Vocabulary of the properties *)
(* ================================================================== *)

(** The definitions that the statements below are written with: views of
    the stored state, the results that the handlers build, and the
    requests and states of the examples. *)

(** ** The stored state *)

(** The cart a session stores; a session without ['cart'] stores the
    empty one. *)
Definition stored_cart (s : Session.t) : list (string * Z) :=
  match Session.cart s with
  | Some cart => cart
  | None => []
  end.

(** The world after [save_cart(cart)]. *)
Definition with_cart (w : world) (cart : list (string * Z)) : world :=
  mk_world (db w) (Session.mk (Session.user_id (session w)) (Some cart) true).

(** The world after [get_cart]: a session without a cart gets the empty one. *)
Definition touched (w : world) : world :=
  match Session.cart (session w) with
  | Some _ => w
  | None => with_cart w []
  end.

(** Every key of the cart reads as an integer, as the keys that
    [cart_POST] inserts do. *)
Definition cart_wf (cart : list (string * Z)) : Prop :=
  Forall (fun kv => exists pid, py_int (PStr (fst kv)) = Ok pid) cart.

(** Every line item belongs to an order of the table ([ForeignKey] on
    [OrderItem.order_id]). *)
Definition orders_fk (t : tables) : Prop :=
  Forall (fun it =>
            exists o, get_order (OrderItem.order_id it) (orders t) = Some o)
         (order_items t).

(** Every line item refers to a product of the catalog. *)
Definition items_resolved (t : tables) : Prop :=
  Forall (fun it =>
            exists p, get_product (OrderItem.product_id it) (products t) = Some p)
         (order_items t).

(** No product has a negative stock. *)
Definition stock_nonneg (t : tables) : Prop :=
  Forall (fun p => 0 <= Product.stock p) (products t).

(** ** Cart *)

(** The cart after [cart_POST] has added [quantity] of [key]. *)
Definition cart_added (key : string) (quantity : Z) (cart : list (string * Z))
  : list (string * Z) :=
  match dict_get key cart with
  | Some q => dict_set key (q + quantity) cart
  | None => dict_set key quantity cart
  end.

(** The end of [update_cart]: save the cart and answer with the total. *)
Definition cart_updated (w : world) (cart : list (string * Z)) : response * world :=
  (handle_exception
     (rbind (cart_sum (products (db w)) cart (NInt 0)) (fun total =>
      Ok (Json (JDict [("message"%string, jstr "Cart updated");
                       ("total"%string, jnum (py_round total))]) 200))),
   with_cart w cart).

(** The entry's key reads as the id of a product of [ps]. *)
Definition in_catalog (ps : list Product.t) (kv : string * Z) : bool :=
  match py_int (PStr (fst kv)) with
  | Ok pid =>
      match get_product pid ps with
      | Some _ => true
      | None => false
      end
  | Raise _ => false
  end.

(** Every quantity of the cart converts to a float. *)
Definition priceable (cart : list (string * Z)) : Prop :=
  Forall (fun kv => exists f, float_of_int (snd kv) = Ok f) cart.

(** The running total of [calculate_cart_total]: the [int] 0 it starts
    from, or a float. *)
Definition running (total : num) : Prop :=
  match total with
  | NInt z => z = 0
  | NFloat _ => True
  end.

(** The row of the cart view for an entry. *)
Definition cart_row (ps : list Product.t) (kv : string * Z) (row : json) : Prop :=
  exists pid product subtotal,
    py_int (PStr (fst kv)) = Ok pid /\
    get_product pid ps = Some product /\
    float_mul_int (Product.price product) (snd kv) = Ok subtotal /\
    row = JDict [("product_id"%string, jstr (fst kv));
                 ("product_name"%string, JVal (Product.name product));
                 ("price"%string, jfloat (Product.price product));
                 ("quantity"%string, jint (snd kv));
                 ("subtotal"%string, jfloat subtotal)].

(** ** Catalog *)

(** The row that [products_POST] builds. *)
Definition new_product (now : Z) (t : tables) (data : list (string * value))
    (name : value) (price : float) (stock : Z) (category : value) : Product.t :=
  Product.mk (next_id (map Product.id (products t))) name
    (get "description" data) price stock category (get "image_url" data) now now.

(** The row that [product_detail_PUT] writes. *)
Definition updated_product (now : Z) (product : Product.t)
    (data : list (string * value)) (price : float) (stock : Z) : Product.t :=
  Product.mk (Product.id product)
    (dict_get_default "name" (Product.name product) data)
    (dict_get_default "description" (Product.description product) data)
    price stock
    (dict_get_default "category" (Product.category product) data)
    (dict_get_default "image_url" (Product.image_url product) data)
    (Product.created_at product) now.

(** [p] with another price. *)
Definition with_price (x : float) (p : Product.t) : Product.t :=
  Product.mk (Product.id p) (Product.name p) (Product.description p) x
    (Product.stock p) (Product.category p) (Product.image_url p)
    (Product.created_at p) (Product.updated_at p).

(** A value that a TEXT column holds: a text, or NULL. *)
Definition text_held (v : value) : bool :=
  match v with
  | PNone | PStr _ => true
  | _ => false
  end.

(** A row whose TEXT columns hold such values. *)
Definition product_held (p : Product.t) : bool :=
  text_held (Product.name p) && text_held (Product.description p) &&
  text_held (Product.category p) && text_held (Product.image_url p).

(** The price that an update to [x] leaves in a row of price [old]. *)
Definition updated_price (old x : float) : float :=
  if PrimFloat.eqb x old then old
  else if PrimFloat.eqb x 0 then 0%float else x.

(** ** Checkout and orders *)

(** The order that checkout creates. *)
Definition new_order (now : Z) (w : world) (data : list (string * value))
    (total_amount : num) : Order.t :=
  Order.mk (next_id (map Order.id (orders (db w)))) (Session.user_id (session w))
    total_amount "completed" (get "shipping_address" data) now now.

(** The response of a successful checkout. *)
Definition order_placed (order : Order.t) (items : list json) : response :=
  Json (JDict [("message"%string, jstr "Order placed successfully");
               ("order"%string, JDict (Order.to_dict order));
               ("items"%string, JList items)]) 201.

(** The write phase of checkout for the order [order] as stored: the
    tables to commit, or the exception that ends the request before the
    commit. *)
Definition write_phase (fault : option nat) (now : Z) (order : Order.t)
    (cart : list (string * Z)) (t : tables) : result tables :=
  if fails fault 0 || negb (in_int64 (Order.id order)) then Raise DBFailure
  else
    rbind (place_items fault 1 now (Order.id order) cart
             (mk_tables (products t) (orders t ++ [order]) (order_items t)))
      (fun tx =>
         if fails fault (S (List.length cart)) then Raise DBFailure else Ok tx).

(** [it] is the line item of order [oid] for the cart entry [kv]: its
    product, its quantity, and the price of the product in [ps]. *)
Definition item_of_entry (ps : list Product.t) (oid : Z) (kv : string * Z)
    (it : OrderItem.t) : Prop :=
  exists pid p,
    py_int (PStr (fst kv)) = Ok pid /\
    get_product pid ps = Some p /\
    OrderItem.order_id it = oid /\
    OrderItem.product_id it = pid /\
    OrderItem.quantity it = snd kv /\
    OrderItem.price it = Product.price p.

(** The quantity of product [pid] that the cart orders, over all the
    entries whose key reads as [pid]. *)
Fixpoint ordered (pid : Z) (cart : list (string * Z)) : Z :=
  match cart with
  | [] => 0
  | (k, q) :: rest =>
      match py_int (PStr k) with
      | Ok pid' => if pid' =? pid then q + ordered pid rest else ordered pid rest
      | Raise _ => ordered pid rest
      end
  end.

(** [p'] is [p] with [delta] units less in stock; [updated_at] is free. *)
Definition restocked (delta : Z) (p p' : Product.t) : Prop :=
  Product.id p' = Product.id p /\
  Product.name p' = Product.name p /\
  Product.description p' = Product.description p /\
  Product.price p' = Product.price p /\
  Product.stock p' = Product.stock p - delta /\
  Product.category p' = Product.category p /\
  Product.image_url p' = Product.image_url p /\
  Product.created_at p' = Product.created_at p.

(** [sum(item.price * item.quantity for item in items)], accumulated as
    [calculate_cart_total] accumulates the cart. *)
Fixpoint line_sum (items : list OrderItem.t) (total : num) : result num :=
  match items with
  | [] => Ok total
  | item :: rest =>
      rbind (float_mul_int (OrderItem.price item) (OrderItem.quantity item))
        (fun x =>
      rbind (num_add_float total x) (fun total' => line_sum rest total'))
  end.

(** The entry's product is missing, or has less in stock than the entry
    asks for. *)
Definition short_of_stock (ps : list Product.t) (kv : string * Z) : bool :=
  match py_int (PStr (fst kv)) with
  | Ok pid =>
      match get_product pid ps with
      | Some p => Product.stock p <? snd kv
      | None => true
      end
  | Raise _ => false
  end.

(** A precondition of checkout is violated: the cart is empty, the
    shipping address is empty or absent, or an entry is short of stock. *)
Definition violated (ps : list Product.t) (cart : list (string * Z))
    (data : list (string * value)) : Prop :=
  cart = [] \/
  truthy (get "shipping_address" data) = false \/
  Exists (fun kv => short_of_stock ps kv = true) cart.

(** The quantity of the entry, and the stock that it leaves of its
    product, fit in 64 bits. *)
Definition fits (ps : list Product.t) (kv : string * Z) : bool :=
  match py_int (PStr (fst kv)) with
  | Ok pid =>
      match get_product pid ps with
      | Some p => item_fits (snd kv) (Product.stock p)
      | None => true
      end
  | Raise _ => true
  end.

(** [v] can be stored in a TEXT column that is [nullable=False]. *)
Definition text_fits (v : value) : bool :=
  match bind_text v with
  | Ok a => negb (is_none a)
  | Raise _ => false
  end.

(** The keys of the cart read as pairwise distinct product ids. *)
Definition distinct_products (cart : list (string * Z)) : Prop :=
  NoDup (map (fun kv => py_int (PStr (fst kv))) cart).

(** The entry's product exists and has the quantity in stock. *)
Definition covered (ps : list Product.t) (kv : string * Z) : Prop :=
  exists pid p,
    py_int (PStr (fst kv)) = Ok pid /\
    get_product pid ps = Some p /\
    snd kv <= Product.stock p.

(** The response of [get_order_detail] for the order [o]. *)
Definition order_detail (o : Order.t) (items : list json) : response :=
  Json (JDict [("id"%string, jint (Order.id o));
               ("total_amount"%string, jnum (Order.total_amount o));
               ("status"%string, jstr (Order.status o));
               ("shipping_address"%string, JVal (Order.shipping_address o));
               ("created_at"%string, jint (Order.created_at o));
               ("items"%string, JList items)]) 200.

(** ** Requests *)

(** The handler never changes the committed tables. *)
Definition keeps_db {A : Type} (m : M A) : Prop :=
  forall w, db (snd (m w)) = db w.

(** The requests of the modelled routes, and the handler of each. *)
Inductive request : Type :=
| ProductsPOST (now : Z) (data : list (string * value))
| ProductGET (product_id : Z)
| ProductPUT (now product_id : Z) (data : list (string * value))
| ProductDELETE (product_id : Z)
| CartGET
| CartPOST (data : list (string * value))
| CartDELETE (product_id : option string)
| CartUpdate (data : list (string * value))
| CartClear
| Checkout (fault : option nat) (now : Z) (data : list (string * value))
| OrderDetail (order_id : Z).

Definition route (req : request) : M response :=
  match req with
  | ProductsPOST now data => products_POST now data
  | ProductGET product_id => product_detail_GET product_id
  | ProductPUT now product_id data => product_detail_PUT now product_id data
  | ProductDELETE product_id => product_detail_DELETE product_id
  | CartGET => cart_GET
  | CartPOST data => cart_POST data
  | CartDELETE product_id => cart_DELETE product_id
  | CartUpdate data => update_cart data
  | CartClear => clear_cart
  | Checkout fault now data => checkout fault now data
  | OrderDetail order_id => get_order_detail order_id
  end.

(** The requests of one session, one after the other, each on the
    session that the cookie of the one before stores. *)
Fixpoint run (reqs : list request) (w : world) : world :=
  match reqs with
  | [] => w
  | req :: rest => run rest (persist (snd (serve (route req) w)))
  end.

(** What the stored state satisfies between requests: the rows of
    products have a name and a category, the line items refer to an order
    and to a product of the tables, and the keys of the cart read as
    integers. *)
Definition wf (w : world) : Prop :=
  Forall (fun p => product_not_null p = true) (products (db w)) /\
  orders_fk (db w) /\
  items_resolved (db w) /\
  cart_wf (stored_cart (session w)).

(** ** Scenarios *)

(** The catalog that [init_db] creates. *)
Definition sample_products : list Product.t :=
  [ Product.mk 1 (PStr "Laptop") (PStr "High-performance laptop") 999.99 10
      (PStr "Electronics") PNone 0 0;
    Product.mk 2 (PStr "Smartphone") (PStr "Latest smartphone model") 699.99 20
      (PStr "Electronics") PNone 0 0;
    Product.mk 3 (PStr "Headphones") (PStr "Wireless headphones") 199.99 30
      (PStr "Electronics") PNone 0 0;
    Product.mk 4 (PStr "T-Shirt") (PStr "Cotton t-shirt") 29.99 50
      (PStr "Clothing") PNone 0 0;
    Product.mk 5 (PStr "Jeans") (PStr "Denim jeans") 79.99 25
      (PStr "Clothing") PNone 0 0;
    Product.mk 6 (PStr "Running Shoes") (PStr "Sports running shoes") 149.99 15
      (PStr "Footwear") PNone 0 0 ].

(** The database after [init_db], and a session that has just logged in. *)
Definition fresh (user : Z) : world :=
  mk_world (mk_tables sample_products [] []) (Session.mk (Some user) None true).

(** User 7 with two laptops and three T-shirts in the cart. *)
Definition shopper : world :=
  mk_world (mk_tables sample_products [] [])
    (Session.mk (Some 7) (Some [("1"%string, 2); ("4"%string, 3)]) true).

(** A checkout request body. *)
Definition main_street : list (string * value) :=
  [("shipping_address"%string, PStr "123 Main St")].

(** A cart with an entry whose product has been deleted since. *)
Definition stale_world : world :=
  run [CartPOST [("product_id"%string, PInt 1); ("quantity"%string, PInt 2)];
       CartPOST [("product_id"%string, PInt 4); ("quantity"%string, PInt 1)];
       ProductDELETE 4]
      (fresh 7).

(** The order of [shopper], seen from a session that is not logged in. *)
Definition guest_world : world :=
  mk_world (db (run [Checkout None 5 main_street] shopper))
    (Session.mk None None false).

(** A catalog with a product priced 0.001 and one of it returned. *)
Definition pennies : world :=
  mk_world
    (mk_tables [Product.mk 1 (PStr "Washer") PNone 0.001 10 (PStr "Hardware") PNone 0 0]
       [] [])
    (Session.mk (Some 7) (Some [("1"%string, -1)]) true).

(** A catalog with a product that costs nothing. *)
Definition giveaway : world :=
  mk_world
    (mk_tables [Product.mk 1 (PStr "Sticker") PNone 0 10 (PStr "Gifts") PNone 0 0]
       [] [])
    (Session.mk None None false).

(** A catalog with a product priced 0.125 and three of it in the cart. *)
Definition eighths : world :=
  mk_world
    (mk_tables [Product.mk 1 (PStr "Washer") PNone 0.125 10 (PStr "Hardware") PNone 0 0]
       [] [])
    (Session.mk (Some 7) (Some [("1"%string, 3)]) true).

(** A cart that asks for minus 2^1024 laptops: [cart_POST] accepts the
    quantity, which is below the stock, and saves the cart before the
    total of its response fails to compute. *)
Definition huge_refund : world :=
  run [CartPOST [("product_id"%string, PInt 1);
                 ("quantity"%string, PInt (- 2 ^ 1024))]]
      (fresh 7).

(** A cart that asks for minus 2^70 laptops. *)
Definition big_refund : world :=
  run [CartPOST [("product_id"%string, PInt 1);
                 ("quantity"%string, PInt (- 2 ^ 70))]]
      (fresh 7).

(** Three products whose prices sum to 3.455 in one order and to
    3.4550000000000005 in another, the first two in the cart. *)
Definition odd_prices : world :=
  mk_world
    (mk_tables
       [Product.mk 2 (PStr "Bolt") PNone 1.305 10 (PStr "Hardware") PNone 0 0;
        Product.mk 3 (PStr "Nut") PNone 1.705 10 (PStr "Hardware") PNone 0 0;
        Product.mk 10 (PStr "Washer") PNone 0.445 10 (PStr "Hardware") PNone 0 0]
       [] [])
    (Session.mk (Some 7) (Some [("2"%string, 1); ("3"%string, 1)]) false).

(** A session that is not logged in, with an empty cart. *)
Definition guest_empty : world :=
  mk_world (mk_tables sample_products [] []) (Session.mk None (Some []) false).

(** ** The whole site *)

(** The requests of all the routes, as the views receive them: each has
    a method of its route, and its body, where the view reads one, is the
    JSON object or the form that the request decodes to.  A request with
    another method, which the framework answers 405, and a request whose
    body does not decode to a JSON object, on which [request.get_json]
    answers 415 or 400, are not modelled. *)
Inductive site_request : Type :=
| RegisterGET
| Register (now : Z) (data : list (string * string))
| LoginGET
| Login (data : list (string * string))
| Logout
| ProductsGET (category : option string)
| OrdersGET
| Shop (req : request)
| Home.

Definition site_route (req : site_request) : handler :=
  match req with
  | RegisterGET => register_GET
  | Register now data => register_POST now data
  | LoginGET => login_GET
  | Login data => login_POST data
  | Logout => logout
  | ProductsGET category => on_shop (products_GET category)
  | OrdersGET => on_shop get_orders
  | Shop req => on_shop (route req)
  | Home => on_shop home
  end.

Definition site_serve (req : site_request) (s : Site.t) : response * Site.t :=
  let (r, s') := site_route req s in (handle_exception r, s').

(** The site that the next request finds. *)
Definition site_persist (s : Site.t) : Site.t :=
  Site.mk (Site.users s) (Site.username s) (persist (Site.shop s)).

Fixpoint site_run (reqs : list site_request) (s : Site.t) : Site.t :=
  match reqs with
  | [] => s
  | req :: rest => site_run rest (site_persist (snd (site_serve req s)))
  end.

(** The site before its first request: the tables after [init_db], no
    user, an empty session. *)
Definition opening (now : Z) : Site.t :=
  Site.mk [] None
    (mk_world (init_db now (mk_tables [] [] [])) (Session.mk None None false)).

(** The keys and the unique columns of the users table hold no value
    twice. *)
Definition users_unique (us : list User.t) : Prop :=
  NoDup (map User.id us) /\
  NoDup (map User.username us) /\
  NoDup (map User.email us).

(** [uid] is the key of a user. *)
Definition registered (us : list User.t) (uid : Z) : Prop :=
  exists user, In user us /\ User.id user = uid.

(** The session is logged in as a user of the table, under the name of
    that user. *)
Definition session_of_user (s : Site.t) : Prop :=
  forall uid,
    Session.user_id (session (Site.shop s)) = Some uid ->
    exists user,
      In user (Site.users s) /\ User.id user = uid /\
      Site.username s = Some (User.username user).

(** Every order belongs to a user of the table ([ForeignKey] on
    [Order.user_id]). *)
Definition orders_owned (s : Site.t) : Prop :=
  Forall (fun o => exists uid, Order.user_id o = Some uid /\
                               registered (Site.users s) uid)
         (orders (db (Site.shop s))).

(** What the site satisfies between requests. *)
Definition site_wf (s : Site.t) : Prop :=
  wf (Site.shop s) /\
  users_unique (Site.users s) /\
  session_of_user s /\
  orders_owned s.

(** The credentials of a request are those of [user]. *)
Definition credentials_of (user : User.t) (data : list (string * string)) : Prop :=
  dict_get "username" data = Some (User.username user) /\
  dict_get "password" data = Some (User.password user).

(** The session after a login as [user]. *)
Definition logged_in (user : User.t) (s : Site.t) : Site.t :=
  Site.mk (Site.users s) (Some (User.username user))
    (mk_world (db (Site.shop s))
       (Session.mk (Some (User.id user))
          (Session.cart (session (Site.shop s))) true)).

(** ** Orders of a user *)

(** [o] is an order of user [u]. *)
Definition owned (u : Z) (o : Order.t) : bool :=
  option_Z_eqb (Order.user_id o) (Some u).

(** [row] is the row of [o] in the list of orders, with one entry per
    line item. *)
Definition summary_of (t : tables) (o : Order.t) (row : json) : Prop :=
  exists items,
    row = JDict [("id"%string, jint (Order.id o));
                 ("total_amount"%string, jnum (Order.total_amount o));
                 ("status"%string, jstr (Order.status o));
                 ("created_at"%string, jint (Order.created_at o));
                 ("items"%string, JList items)] /\
    List.length items = List.length (items_of (Order.id o) t).

(** The listing of [ps]. *)
Definition listing (ps : list Product.t) : response :=
  Json (JList (map (fun product => JDict (Product.to_dict product)) ps)) 200.

(** A registered user and a site to log in to. *)
Definition alice : User.t := User.mk 1 "alice" "alice@example.com" "wonderland" 0.

Definition alice_form : list (string * string) :=
  [("username", "alice"); ("email", "alice@example.com");
   ("password", "wonderland")]%string.

(** ** Responses *)

(** The field [k] of a response whose body is an object. *)
Definition field (k : string) (r : response) : option json :=
  match r with
  | Json (JDict d) _ => dict_get k d
  | _ => None
  end.

(** The requests that change the cart and answer with its total. *)
Definition changes_cart (req : request) : bool :=
  match req with
  | CartPOST _ | CartDELETE _ | CartUpdate _ => true
  | _ => false
  end.

(** The status codes of the site. *)
Definition status_codes : list Z := [200; 201; 302; 400; 401; 403; 404; 500].

(** A response of the site: one of the status codes, with the body of
    the error handler when the status is 500. *)
Definition expected (r : response) : Prop :=
  In (status r) status_codes /\ (status r = 500 -> r = server_error).

(** No primary key of the shop occurs twice in its table. *)
Definition keys_unique (t : tables) : Prop :=
  NoDup (map Product.id (products t)) /\
  NoDup (map Order.id (orders t)) /\
  NoDup (map OrderItem.id (order_items t)).

(* ================================================================== *)
(** * Properties *)
(* ================================================================== *)

(** Each handler is first given an equation ([..._run]) that spells out
    its response and final world; the builtins and the loops stay folded
    while the handler is unfolded. *)

#[local] Arguments py_int : simpl never.
#[local] Arguments py_float : simpl never.
#[local] Arguments py_str : simpl never.
#[local] Arguments py_round : simpl never.
#[local] Arguments float_mul_int : simpl never.
#[local] Arguments num_add_float : simpl never.
#[local] Arguments truthy : simpl never.
#[local] Arguments next_id : simpl never.
#[local] Arguments cart_sum : simpl never.
#[local] Arguments cart_rows : simpl never.
#[local] Arguments check_stock : simpl never.
#[local] Arguments place_items : simpl never.
#[local] Arguments item_rows : simpl never.
#[local] Arguments in_int64 : simpl never.
#[local] Arguments bind_text : simpl never.
#[local] Arguments stored_product : simpl never.
#[local] Arguments stored_update : simpl never.
#[local] Arguments stored_order : simpl never.
#[local] Arguments bind_real : simpl never.
#[local] Arguments py_eq : simpl never.
#[local] Arguments item_fits : simpl never.
#[local] Arguments sort_keys : simpl never.

Ltac step_handler :=
  unfold serve, login_required, get_product_or_404, get_order_or_404,
    calculate_cart_total, save_cart, get_cart, bind, lift, ret, get_db,
    commit, get_session, set_session, bind_int; simpl.

(** ** dict *)

Section DictFacts.
Context {V : Type}.
Implicit Types (k : string) (v : V) (d : list (string * V)).

Lemma dict_get_set_same k v d : dict_get k (dict_set k v d) = Some v.
Proof.
  induction d as [|[k' v'] d IH]; simpl.
  - now rewrite String.eqb_refl.
  - destruct (String.eqb k k') eqn:E; simpl; rewrite E; auto.
Qed.

Lemma dict_get_set_other k k' v d :
  k' <> k -> dict_get k' (dict_set k v d) = dict_get k' d.
Proof.
  intros Hne. induction d as [|[k0 v0] d IH]; simpl.
  - destruct (String.eqb k' k) eqn:E; auto.
    apply String.eqb_eq in E. contradiction.
  - destruct (String.eqb k k0) eqn:E; simpl.
    + apply String.eqb_eq in E. subst k0.
      apply String.eqb_neq in Hne. now rewrite Hne.
    + now rewrite IH.
Qed.

Lemma dict_set_absent k v d :
  dict_get k d = None -> dict_set k v d = d ++ [(k, v)].
Proof.
  induction d as [|[k' v'] d IH]; simpl; auto.
  destruct (String.eqb k k'); [discriminate|].
  intros H. now rewrite IH.
Qed.

Lemma dict_set_keys k v v0 d :
  dict_get k d = Some v0 -> map fst (dict_set k v d) = map fst d.
Proof.
  induction d as [|[k' v'] d IH]; simpl; [discriminate|].
  destruct (String.eqb k k'); simpl; auto.
  intros H. now rewrite IH.
Qed.

Lemma dict_get_del_same k d : dict_get k (dict_del k d) = None.
Proof.
  unfold dict_del. induction d as [|[k' v'] d IH]; simpl; auto.
  destruct (String.eqb k k') eqn:E; simpl; auto. now rewrite E.
Qed.

Lemma dict_get_del_other k k' d :
  k' <> k -> dict_get k' (dict_del k d) = dict_get k' d.
Proof.
  intros Hne. unfold dict_del.
  induction d as [|[k0 v0] d IH]; simpl; auto.
  destruct (String.eqb k k0) eqn:E; simpl.
  - apply String.eqb_eq in E. subst k0.
    destruct (String.eqb k' k) eqn:E'; auto.
    apply String.eqb_eq in E'. contradiction.
  - now rewrite IH.
Qed.

End DictFacts.

(** ** Add to cart and update cart *)

Lemma cart_POST_run (data : list (string * value)) (w : world) :
  let key := py_str (get "product_id" data) in
  serve (cart_POST data) w =
  match py_int (dict_get_default "quantity" (PInt 1) data) with
  | Raise e => (handle_exception (Raise e), w)
  | Ok quantity =>
      match py_int (PStr key) with
      | Raise e => (handle_exception (Raise e), w)
      | Ok pid =>
          if in_int64 pid then
            match get_product pid (products (db w)) with
            | None => (not_found, w)
            | Some product =>
                if Product.stock product <? quantity then
                  (error "Insufficient stock" 400, w)
                else
                  let cart := cart_added key quantity (stored_cart (session w)) in
                  (handle_exception
                     (rbind (cart_sum (products (db w)) cart (NInt 0)) (fun total =>
                      Ok (Json (JDict [("message"%string,
                                        jstr "Product added to cart");
                                       ("cart"%string, cart_json cart);
                                       ("total"%string, jnum (py_round total))])
                            200))),
                   with_cart w cart)
            end
          else (server_error, w)
      end
  end.
Proof.
  intros key. subst key.
  destruct w as [t [u c m]].
  unfold cart_POST, cart_added, with_cart, stored_cart. step_handler.
  destruct (py_int (dict_get_default _ _ _)) as [quantity|]; simpl; [|reflexivity].
  destruct (py_int (PStr _)) as [pid|]; simpl; [|reflexivity].
  destruct (in_int64 pid); simpl; [|reflexivity].
  destruct (get_product pid (products t)) as [product|]; simpl; auto.
  destruct (Product.stock product <? quantity); simpl; auto.
  destruct c as [c|]; simpl; [destruct (dict_get _ c); simpl|];
    destruct (cart_sum _ _ _); reflexivity.
Qed.

(** C5, as stated, fails for a product id that the storage engine
    cannot bind: no product has the id 2^63, and the request is answered
    500, not 404. *)
Lemma cart_POST_unbound_id :
  let data := [("product_id"%string, PInt 9223372036854775808)] in
  let r := serve (cart_POST data) (fresh 7) in
  get_product 9223372036854775808 (products (db (fresh 7))) = None /\
  status (fst r) = 500 /\
  status (fst r) <> 404.
Proof.
  split; [reflexivity|]. split; vm_compute; [reflexivity | discriminate].
Qed.

(** C5, amended. Add to cart, for an integer [quantity] and a product id
    [pid] that fits in a signed 64-bit integer: a missing product is
    answered 404; a quantity above the stock of the product is answered
    400 and the session is untouched; otherwise the quantity is summed
    into the entry of the key, or a new entry is appended.  The stock is
    compared with [quantity] alone, whatever the cart already holds.  An
    id outside 64 bits ends in the unhandled error of the lookup (500),
    and the session is untouched. *)
Theorem cart_POST_cases (data : list (string * value)) (w : world)
    (pid quantity : Z) :
  let product_id := py_str (get "product_id" data) in
  let cart := stored_cart (session w) in
  let r := serve (cart_POST data) w in
  py_int (PStr product_id) = Ok pid ->
  py_int (dict_get_default "quantity" (PInt 1) data) = Ok quantity ->
  if in_int64 pid then
    match get_product pid (products (db w)) with
    | None => fst r = not_found /\ snd r = w
    | Some product =>
        if Product.stock product <? quantity then
          fst r = error "Insufficient stock" 400 /\ snd r = w
        else
          let cart' := stored_cart (session (snd r)) in
          db (snd r) = db w /\
          match dict_get product_id cart with
          | Some q =>
              dict_get product_id cart' = Some (q + quantity) /\
              map fst cart' = map fst cart
          | None => cart' = cart ++ [(product_id, quantity)]
          end /\
          (forall k, k <> product_id -> dict_get k cart' = dict_get k cart) /\
          (forall total,
              cart_sum (products (db w)) cart' (NInt 0) = Ok total ->
              fst r = Json (JDict [("message"%string, jstr "Product added to cart");
                                   ("cart"%string, cart_json cart');
                                   ("total"%string, jnum (py_round total))]) 200)
    end
  else fst r = server_error /\ snd r = w.
Proof.
  intros product_id cart r Hpid Hq. subst r.
  rewrite cart_POST_run, Hq. fold product_id. rewrite Hpid. fold cart.
  destruct (in_int64 pid); [|now split].
  destruct (get_product pid (products (db w))) as [product|]; [|now split].
  destruct (Product.stock product <? quantity); [now split|].
  cbn [fst snd with_cart db session stored_cart Session.cart].
  split; [reflexivity|]. unfold cart_added. split; [|split].
  - destruct (dict_get product_id cart) as [q|] eqn:Hget.
    + split; [apply dict_get_set_same | eapply dict_set_keys; eauto].
    + now apply dict_set_absent.
  - intros k Hk. destruct (dict_get product_id cart); now apply dict_get_set_other.
  - intros total Hsum. now rewrite Hsum.
Qed.

Lemma stored_cart_touched (w : world) :
  stored_cart (session (touched w)) = stored_cart (session w).
Proof.
  destruct w as [t [u [c|] m]]; reflexivity.
Qed.

Lemma db_touched (w : world) : db (touched w) = db w.
Proof.
  destruct w as [t [u [c|] m]]; reflexivity.
Qed.

Lemma update_cart_run (data : list (string * value)) (w : world) :
  let key := py_str (get "product_id" data) in
  let cart := stored_cart (session w) in
  serve (update_cart data) w =
  match py_int (dict_get_default "quantity" (PInt 1) data) with
  | Raise e => (handle_exception (Raise e), w)
  | Ok quantity =>
      if negb (dict_mem key cart) then
        (error "Product not in cart" 404, touched w)
      else if quantity <=? 0 then cart_updated w (dict_del key cart)
      else
        match py_int (PStr key) with
        | Raise e => (handle_exception (Raise e), touched w)
        | Ok pid =>
            if in_int64 pid then
              match get_product pid (products (db w)) with
              | None => (not_found, touched w)
              | Some product =>
                  if Product.stock product <? quantity then
                    (error "Insufficient stock" 400, touched w)
                  else cart_updated w (dict_set key quantity cart)
              end
            else (server_error, touched w)
        end
  end.
Proof.
  intros key cart. subst key cart.
  destruct w as [t [u c m]].
  unfold update_cart, cart_updated, with_cart, touched, stored_cart.
  step_handler.
  destruct (py_int (dict_get_default _ _ _)) as [quantity|]; simpl; [|reflexivity].
  destruct c as [c|]; simpl.
  - destruct (dict_mem _ c); simpl; [|reflexivity].
    destruct (quantity <=? 0); simpl.
    + destruct (cart_sum _ _ _); reflexivity.
    + destruct (py_int (PStr _)) as [pid|e]; simpl; [|reflexivity].
      destruct (in_int64 pid); simpl; [|reflexivity].
      destruct (get_product pid (products t)) as [product|]; simpl; [|reflexivity].
      destruct (Product.stock product <? quantity); simpl; [reflexivity|].
      destruct (cart_sum _ _ _); reflexivity.
  - reflexivity.
Qed.

(** C6, as stated, fails on an entry whose product has been deleted: the
    key is in the cart and the quantity is positive, yet the request is
    answered 404 and the quantity stays as it was. *)
Lemma update_cart_stale_entry :
  let deleted := serve (product_detail_DELETE 4) shopper in
  let r := serve (update_cart [("product_id"%string, PInt 4);
                               ("quantity"%string, PInt 1)]) (snd deleted) in
  status (fst deleted) = 200 /\
  dict_get "4" (stored_cart (session (snd deleted))) = Some 3 /\
  status (fst r) = 404 /\
  dict_get "4" (stored_cart (session (snd r))) = Some 3.
Proof.
  repeat split.
Qed.

(** C6, amended. Update cart, for an integer [quantity]: a key that is
    not in the stored cart is answered 404; otherwise a quantity [<= 0]
    removes the entry; otherwise a key whose product does not exist is
    answered 404, a quantity above the stock of the product is answered
    400, both with the session untouched, and any other quantity replaces
    the one of the entry.  The keys that add-to-cart stores read as ids
    that fit in 64 bits; on any other key the lookup of the product ends
    in its unhandled error, and the session is untouched. *)
Theorem update_cart_cases (data : list (string * value)) (w : world)
    (quantity : Z) :
  let product_id := py_str (get "product_id" data) in
  let cart := stored_cart (session w) in
  let r := serve (update_cart data) w in
  let cart' := stored_cart (session (snd r)) in
  py_int (dict_get_default "quantity" (PInt 1) data) = Ok quantity ->
  match dict_get product_id cart with
  | None =>
      fst r = error "Product not in cart" 404 /\ cart' = cart /\ db (snd r) = db w
  | Some q =>
      if quantity <=? 0 then
        dict_get product_id cart' = None /\
        (forall k, k <> product_id -> dict_get k cart' = dict_get k cart) /\
        db (snd r) = db w
      else
        forall pid,
          py_int (PStr product_id) = Ok pid ->
          if in_int64 pid then
            match get_product pid (products (db w)) with
            | None => fst r = not_found /\ snd r = w
            | Some product =>
                if Product.stock product <? quantity then
                  fst r = error "Insufficient stock" 400 /\ snd r = w
                else
                  dict_get product_id cart' = Some quantity /\
                  map fst cart' = map fst cart /\
                  (forall k, k <> product_id ->
                             dict_get k cart' = dict_get k cart) /\
                  db (snd r) = db w /\
                  (forall total,
                      cart_sum (products (db w)) cart' (NInt 0) = Ok total ->
                      fst r = Json (JDict [("message"%string, jstr "Cart updated");
                                           ("total"%string,
                                            jnum (py_round total))])
                                200)
            end
          else fst r = server_error /\ snd r = w
  end.
Proof.
  intros product_id cart r cart' Hq. subst cart' r.
  rewrite update_cart_run, Hq.
  fold product_id. fold cart. unfold dict_mem.
  destruct (dict_get product_id cart) as [q|] eqn:Hget; cbn [negb].
  - assert (Hw : touched w = w).
    { unfold touched. subst cart. unfold stored_cart in Hget.
      destruct (Session.cart (session w)); [reflexivity | discriminate]. }
    destruct (quantity <=? 0).
    + cbn [cart_updated fst snd with_cart db session stored_cart Session.cart].
      split; [apply dict_get_del_same|]. split; [|reflexivity].
      intros k Hk. now apply dict_get_del_other.
    + intros pid Hpid. rewrite Hpid.
      destruct (in_int64 pid); [|rewrite Hw; now split].
      destruct (get_product pid (products (db w))) as [product|].
      * destruct (Product.stock product <? quantity).
        -- rewrite Hw. now split.
        -- cbn [cart_updated fst snd with_cart db session stored_cart Session.cart].
           split; [apply dict_get_set_same|].
           split; [eapply dict_set_keys; eauto|].
           split; [intros k Hk; now apply dict_get_set_other|].
           split; [reflexivity|].
           intros total Hsum. now rewrite Hsum.
      * rewrite Hw. now split.
  - cbn [fst snd]. rewrite stored_cart_touched, db_touched. now repeat split.
Qed.

(** ** Cart totals and the cart view *)

Lemma float_of_int_0 : float_of_int 0 = Ok zero.
Proof. reflexivity. Qed.

Lemma num_add_float_running total x :
  running total -> exists t, num_add_float total x = Ok (NFloat t).
Proof.
  destruct total as [z|f]; simpl; intros H.
  - subst z. unfold num_add_float. rewrite float_of_int_0. simpl. eauto.
  - unfold num_add_float. eauto.
Qed.

Lemma cart_sum_cons ps product_id quantity rest total :
  cart_sum ps ((product_id, quantity) :: rest) total =
  rbind (py_int (PStr product_id)) (fun pid =>
    match get_product pid ps with
    | Some product =>
        rbind (float_mul_int (Product.price product) quantity) (fun x =>
        rbind (num_add_float total x) (fun total' => cart_sum ps rest total'))
    | None => cart_sum ps rest total
    end).
Proof. reflexivity. Qed.

Lemma cart_rows_cons ps product_id quantity rest :
  cart_rows ps ((product_id, quantity) :: rest) =
  rbind (py_int (PStr product_id)) (fun pid =>
    match get_product pid ps with
    | Some product =>
        rbind (float_mul_int (Product.price product) quantity) (fun subtotal =>
        rbind (cart_rows ps rest) (fun rows =>
        Ok (JDict [("product_id"%string, jstr product_id);
                   ("product_name"%string, JVal (Product.name product));
                   ("price"%string, jfloat (Product.price product));
                   ("quantity"%string, jint quantity);
                   ("subtotal"%string, jfloat subtotal)] :: rows)))
    | None => cart_rows ps rest
    end).
Proof. reflexivity. Qed.

(** The total is computed whenever the keys read as integers and the
    quantities convert to floats. *)
Lemma cart_sum_defined ps cart :
  cart_wf cart -> priceable cart ->
  forall total, running total -> exists t, cart_sum ps cart total = Ok t.
Proof.
  induction cart as [|[k q] cart IH]; intros Hwf Hp total Hrun.
  - now exists total.
  - inversion Hwf as [|? ? [pid Hpid] Hwf']; subst.
    inversion Hp as [|? ? [f Hf] Hp']; subst.
    rewrite cart_sum_cons. simpl in Hpid, Hf. rewrite Hpid. simpl.
    destruct (get_product pid ps) as [product|]; [|now apply IH].
    unfold float_mul_int. rewrite Hf. simpl.
    destruct (num_add_float_running total (Product.price product * f)%float Hrun)
      as [t Ht].
    rewrite Ht. simpl. now apply IH.
Qed.

Lemma cart_rows_defined ps cart :
  cart_wf cart -> priceable cart -> exists rows, cart_rows ps cart = Ok rows.
Proof.
  induction cart as [|[k q] cart IH]; intros Hwf Hp.
  - now exists [].
  - inversion Hwf as [|? ? [pid Hpid] Hwf']; subst.
    inversion Hp as [|? ? [f Hf] Hp']; subst.
    rewrite cart_rows_cons. simpl in Hpid, Hf. rewrite Hpid. simpl.
    destruct (get_product pid ps) as [product|]; [|now apply IH].
    unfold float_mul_int. rewrite Hf. simpl.
    destruct (IH Hwf' Hp') as [rows Hrows]. rewrite Hrows. simpl. eauto.
Qed.

(** Entries without a product do not count in the total. *)
Lemma cart_sum_in_catalog ps cart :
  forall total t,
    cart_sum ps cart total = Ok t ->
    cart_sum ps (filter (in_catalog ps) cart) total = Ok t.
Proof.
  induction cart as [|[k q] cart IH]; intros total t H; [exact H|].
  rewrite cart_sum_cons in H. simpl. unfold in_catalog at 1. simpl.
  destruct (py_int (PStr k)) as [pid|e] eqn:Hpid; simpl in H; [|discriminate].
  destruct (get_product pid ps) as [product|] eqn:Hprod; [|now apply IH].
  rewrite cart_sum_cons, Hpid. simpl. rewrite Hprod.
  destruct (float_mul_int _ _) as [x|]; simpl in *; [|discriminate].
  destruct (num_add_float _ _) as [total'|]; simpl in *; [|discriminate].
  now apply IH.
Qed.

Lemma cart_rows_in_catalog ps cart :
  forall rows,
    cart_rows ps cart = Ok rows ->
    Forall2 (cart_row ps) (filter (in_catalog ps) cart) rows.
Proof.
  induction cart as [|[k q] cart IH]; intros rows H.
  - injection H as <-. constructor.
  - rewrite cart_rows_cons in H. simpl. unfold in_catalog at 1. simpl.
    destruct (py_int (PStr k)) as [pid|e] eqn:Hpid; simpl in H; [|discriminate].
    destruct (get_product pid ps) as [product|] eqn:Hprod; [|now apply IH].
    destruct (float_mul_int _ _) as [x|] eqn:Hx; simpl in H; [|discriminate].
    destruct (cart_rows ps cart) as [rows'|]; simpl in H; [|discriminate].
    injection H as <-. constructor; [|now apply IH].
    exists pid, product, x. simpl. auto.
Qed.

Lemma cart_GET_run (w : world) :
  let cart := stored_cart (session w) in
  serve cart_GET w =
  (handle_exception
     (rbind (cart_rows (products (db w)) cart) (fun rows =>
      rbind (cart_sum (products (db w)) cart (NInt 0)) (fun total =>
      Ok (Json (JDict [("items"%string, JList rows);
                       ("total"%string, jnum (py_round total));
                       ("item_count"%string,
                        jint (Z.of_nat (List.length cart)))]) 200)))),
   touched w).
Proof.
  destruct w as [t [u c m]].
  unfold cart_GET, touched, with_cart, stored_cart. step_handler.
  destruct c as [c|]; simpl.
  - destruct (cart_rows _ _); simpl; [|reflexivity].
    destruct (cart_sum _ _ _); reflexivity.
  - reflexivity.
Qed.

Lemma status_handle_raise (e : exn) (code : Z) :
  code <> 404 -> code <> 500 -> status (handle_exception (Raise e)) <> code.
Proof.
  intros H4 H5. destruct e; simpl; congruence.
Qed.

(** C10. The cart view counts the entries of the stored cart, while its
    rows and its total are those of the entries whose product exists; the
    view leaves the stored cart and the tables as they are, and the count
    can be larger than the number of rows. *)
Theorem cart_GET_item_count :
  (forall w : world,
      let cart := stored_cart (session w) in
      let ps := products (db w) in
      let r := serve cart_GET w in
      stored_cart (session (snd r)) = cart /\
      db (snd r) = db w /\
      (status (fst r) = 200 ->
       exists rows total,
         fst r = Json (JDict [("items"%string, JList rows);
                              ("total"%string, jnum (py_round total));
                              ("item_count"%string,
                               jint (Z.of_nat (List.length cart)))]) 200 /\
         Forall2 (cart_row ps) (filter (in_catalog ps) cart) rows /\
         cart_sum ps (filter (in_catalog ps) cart) (NInt 0) = Ok total) /\
      (cart_wf cart -> priceable cart -> status (fst r) = 200)) /\
  (exists rows total,
      fst (serve cart_GET stale_world) =
        Json (JDict [("items"%string, JList rows);
                     ("total"%string, total);
                     ("item_count"%string, jint 2)]) 200 /\
      List.length rows = 1%nat /\
      snd (serve cart_GET stale_world) = stale_world).
Proof.
  split.
  - intros w cart ps r. subst r. rewrite cart_GET_run. fold cart. fold ps.
    cbn [fst snd]. rewrite stored_cart_touched, db_touched.
    split; [reflexivity|]. split; [reflexivity|]. split.
    + destruct (cart_rows ps cart) as [rows|e] eqn:Hrows; simpl;
        [|intros H; now apply status_handle_raise in H].
      destruct (cart_sum ps cart (NInt 0)) as [total|e] eqn:Hsum; simpl;
        [|intros H; now apply status_handle_raise in H].
      intros _. exists rows, total. split; [reflexivity|]. split.
      * now apply cart_rows_in_catalog.
      * now apply cart_sum_in_catalog.
    + intros Hwf Hp.
      destruct (cart_rows_defined ps cart Hwf Hp) as [rows Hrows].
      destruct (cart_sum_defined ps cart Hwf Hp (NInt 0) eq_refl) as [t Ht].
      rewrite Hrows, Ht. reflexivity.
  - eexists. eexists. vm_compute. repeat split.
Qed.

(** ** Order detail *)

Lemma item_rows_cons ps item rest :
  item_rows ps (item :: rest) =
  match get_product (OrderItem.product_id item) ps with
  | None => Raise AttributeError
  | Some product =>
      rbind (item_rows ps rest) (fun rows =>
      Ok (JDict [("product_id"%string, jint (OrderItem.product_id item));
                 ("product_name"%string, JVal (Product.name product));
                 ("quantity"%string, jint (OrderItem.quantity item));
                 ("price"%string, jfloat (OrderItem.price item))] :: rows))
  end.
Proof. reflexivity. Qed.

Lemma item_rows_defined ps items :
  Forall (fun it => exists p, get_product (OrderItem.product_id it) ps = Some p)
         items ->
  exists rows,
    item_rows ps items = Ok rows /\ List.length rows = List.length items.
Proof.
  induction items as [|item items IH]; intros H.
  - now exists [].
  - inversion H as [|? ? [p Hp] H']; subst.
    destruct (IH H') as [rows [Hrows Hlen]].
    rewrite item_rows_cons, Hp, Hrows. simpl. eexists; split; [reflexivity|].
    simpl. now rewrite Hlen.
Qed.

Lemma option_Z_eqb_eq (a b : option Z) : option_Z_eqb a b = true <-> a = b.
Proof.
  destruct a as [x|], b as [y|]; simpl; split; try congruence.
  - intros H. apply Z.eqb_eq in H. now subst.
  - intros H. injection H as ->. apply Z.eqb_refl.
Qed.

Lemma get_order_detail_run (order_id : Z) (w : world) :
  serve (get_order_detail order_id) w =
  (match Session.user_id (session w) with
   | None => Redirect "/login"
   | Some u =>
       if in_int64 order_id then
         match get_order order_id (orders (db w)) with
         | None => not_found
         | Some o =>
             if option_Z_eqb (Order.user_id o) (Some u) then
               handle_exception
                 (rbind (item_rows (products (db w)) (items_of (Order.id o) (db w)))
                    (fun items => Ok (order_detail o items)))
             else error "Unauthorized" 403
         end
       else server_error
   end, w).
Proof.
  destruct w as [t [u c m]].
  unfold get_order_detail, get_order_detail_body, order_detail. step_handler.
  destruct u as [u|]; simpl; [|reflexivity].
  destruct (in_int64 order_id); simpl; [|reflexivity].
  destruct (get_order order_id (orders t)) as [o|]; simpl; [|reflexivity].
  destruct (option_Z_eqb (Order.user_id o) (Some u)); simpl; [|reflexivity].
  destruct (item_rows _ _); reflexivity.
Qed.

(** C7, as stated, fails for a session that is not logged in: the order of
    another user is answered 302, not 403, and a missing order 302, not
    404.  It also fails, under a session that is logged in, for an order
    id that the storage engine cannot bind: no order has the id 2^63, and
    the request is answered 500, not 404. *)
Lemma get_order_detail_departures :
  (exists o, get_order 1 (orders (db guest_world)) = Some o /\
             Order.user_id o <> Session.user_id (session guest_world)) /\
  status (fst (serve (get_order_detail 1) guest_world)) <> 403 /\
  get_order 2 (orders (db guest_world)) = None /\
  status (fst (serve (get_order_detail 2) guest_world)) <> 404 /\
  get_order 9223372036854775808 (orders (db shopper)) = None /\
  status (fst (serve (get_order_detail 9223372036854775808) shopper)) = 500.
Proof.
  split; [|split; [|split; [|split; [|split]]]].
  - eexists. split; [reflexivity | discriminate].
  - vm_compute. discriminate.
  - reflexivity.
  - vm_compute. discriminate.
  - reflexivity.
  - vm_compute. reflexivity.
Qed.

(** C7, amended. Under a logged-in session and for an order id that
    fits in a signed 64-bit integer: a missing order is answered 404, an
    order of another owner (a guest order included) 403, and the own order
    is returned with one row per line item.  An id outside 64 bits ends in
    the unhandled error of the lookup (500).  A session that is not logged
    in is redirected to the login page.  Nothing is written. *)
Theorem get_order_detail_cases (order_id : Z) (w : world) :
  let r := serve (get_order_detail order_id) w in
  snd r = w /\
  match Session.user_id (session w) with
  | None => fst r = Redirect "/login"
  | Some u =>
      if in_int64 order_id then
        match get_order order_id (orders (db w)) with
        | None => fst r = not_found
        | Some o =>
            (Order.user_id o <> Some u -> fst r = error "Unauthorized" 403) /\
            (Order.user_id o = Some u -> items_resolved (db w) ->
             exists items,
               fst r = order_detail o items /\
               List.length items = List.length (items_of (Order.id o) (db w)))
        end
      else fst r = server_error
  end.
Proof.
  intros r. subst r. rewrite get_order_detail_run. cbn [fst snd].
  split; [reflexivity|].
  destruct (Session.user_id (session w)) as [u|]; [|reflexivity].
  destruct (in_int64 order_id); [|reflexivity].
  destruct (get_order order_id (orders (db w))) as [o|]; [|reflexivity].
  split.
  - intros Hne. destruct (option_Z_eqb _ _) eqn:E; [|reflexivity].
    apply option_Z_eqb_eq in E. contradiction.
  - intros Heq Hres. apply option_Z_eqb_eq in Heq. rewrite Heq.
    destruct (item_rows_defined (products (db w)) (items_of (Order.id o) (db w)))
      as [rows [Hrows Hlen]].
    { unfold items_of. apply Forall_forall. intros it Hin.
      apply filter_In in Hin. destruct Hin as [Hin _].
      unfold items_resolved in Hres. rewrite Forall_forall in Hres. now apply Hres. }
    rewrite Hrows. simpl. eauto.
Qed.

(** User 7 reads the order of [guest_world]. *)
Lemma get_order_detail_cases_witness :
  let w := mk_world (db guest_world) (Session.mk (Some 7) None false) in
  exists o items,
    get_order 1 (orders (db w)) = Some o /\
    fst (serve (get_order_detail 1) w) = order_detail o items /\
    List.length items = List.length (items_of (Order.id o) (db w)).
Proof.
  intros w.
  destruct (get_order_detail_cases 1 w) as [_ H].
  change (Session.user_id (session w)) with (Some 7) in H. cbv iota in H.
  change (in_int64 1) with true in H. cbv iota in H.
  destruct (get_order 1 (orders (db w))) as [o|] eqn:Ho; [|discriminate Ho].
  assert (Hu : Order.user_id o = Some 7).
  { vm_compute in Ho. injection Ho as <-. reflexivity. }
  destruct H as [_ H]. destruct (H Hu) as [items [H1 H2]].
  - repeat constructor; eexists; reflexivity.
  - exists o, items. auto.
Defined.

(** ** Catalog: create and update *)

Lemma float_of_int_raises z e : float_of_int z = Raise e -> e = OverflowError.
Proof.
  unfold float_of_int. destruct (binary_normalize _ _ _ _ _); congruence.
Qed.

Lemma py_float_raises v e : py_float v = Raise e -> e <> NotFound.
Proof.
  destruct v as [|b|z|f|s]; unfold py_float; try congruence.
  - intros H. apply float_of_int_raises in H. congruence.
  - destruct (float_of_str s); congruence.
Qed.

Lemma py_int_raises v e : py_int v = Raise e -> e <> NotFound.
Proof.
  destruct v as [|b|z|f|s]; unfold py_int; try congruence.
  - unfold int_of_float. destruct (Prim2SF f); congruence.
  - destruct (int_of_str s); congruence.
Qed.

Lemma handle_raise e : e <> NotFound -> handle_exception (Raise e) = server_error.
Proof. destruct e; simpl; congruence. Qed.

Lemma bind_text_raises v e : bind_text v = Raise e -> e = OverflowError.
Proof.
  unfold bind_text, bind_int. destruct v as [|b|z|f|s]; try discriminate.
  destruct (in_int64 z); simpl; congruence.
Qed.

Lemma rebind_text_raises old v e : rebind_text old v = Raise e -> e = OverflowError.
Proof.
  unfold rebind_text. destruct (py_eq v old); [discriminate|].
  apply bind_text_raises.
Qed.

Lemma not_null_raises {A : Type} (v : option A) e :
  not_null v = Raise e -> e = IntegrityError.
Proof. destruct v; simpl; congruence. Qed.

Lemma bind_int_raises z e : bind_int z = Raise e -> e = OverflowError.
Proof. unfold bind_int. destruct (in_int64 z); congruence. Qed.

Lemma rbind_raises {A B : Type} (x : result A) (f : A -> result B) e :
  rbind x f = Raise e -> x = Raise e \/ exists a, x = Ok a /\ f a = Raise e.
Proof.
  destruct x as [a|e']; simpl; intros H; [right; eauto | left; congruence].
Qed.

Lemma rbind_ok {A B : Type} (x : result A) (f : A -> result B) b :
  rbind x f = Ok b -> exists a, x = Ok a /\ f a = Ok b.
Proof.
  destruct x as [a|e']; simpl; intros H; [eauto | discriminate].
Qed.

Lemma stored_product_raises p e : stored_product p = Raise e -> e <> NotFound.
Proof.
  unfold stored_product. intros H.
  repeat (apply rbind_raises in H;
          destruct H as [H|[? [_ H]]];
          [first [apply bind_text_raises in H | apply not_null_raises in H
                 | apply bind_int_raises in H]; congruence|]).
  discriminate.
Qed.

Lemma stored_update_raises old p e :
  stored_update old p = Raise e -> e <> NotFound.
Proof.
  unfold stored_update. intros H.
  apply rbind_raises in H.
  destruct H as [H|[? [_ H]]]; [apply rebind_text_raises in H; congruence|].
  apply rbind_raises in H.
  destruct H as [H|[? [_ H]]]; [apply rebind_text_raises in H; congruence|].
  apply rbind_raises in H. destruct H as [H|[? [_ H]]].
  { destruct (PrimFloat.eqb _ _); [discriminate|].
    apply not_null_raises in H. congruence. }
  apply rbind_raises in H. destruct H as [H|[? [_ H]]].
  { destruct (_ =? _); [discriminate|].
    apply bind_int_raises in H. congruence. }
  apply rbind_raises in H.
  destruct H as [H|[? [_ H]]]; [apply rebind_text_raises in H; congruence|].
  apply rbind_raises in H.
  destruct H as [H|[? [_ H]]]; [apply rebind_text_raises in H; congruence|].
  discriminate.
Qed.

Lemma bind_int_ok z z' : bind_int z = Ok z' -> z' = z /\ in_int64 z = true.
Proof.
  unfold bind_int. destruct (in_int64 z); [|discriminate].
  intros H. injection H as <-. auto.
Qed.

Lemma bind_real_ok x y :
  not_null (bind_real x) = Ok y ->
  is_nan x = false /\ y = (if PrimFloat.eqb x 0 then 0%float else x).
Proof.
  unfold bind_real. destruct (is_nan x); simpl; [discriminate|].
  intros H. injection H as <-. auto.
Qed.

(** What the stored row keeps of the row that is inserted. *)
Lemma stored_product_fields p p' :
  stored_product p = Ok p' ->
  Product.id p' = Product.id p /\
  is_nan (Product.price p) = false /\
  Product.price p'
    = (if PrimFloat.eqb (Product.price p) 0 then 0%float else Product.price p) /\
  Product.stock p' = Product.stock p /\
  in_int64 (Product.stock p') = true /\
  Product.created_at p' = Product.created_at p /\
  Product.updated_at p' = Product.updated_at p /\
  bind_text (Product.name p) = Ok (Product.name p') /\
  bind_text (Product.description p) = Ok (Product.description p') /\
  bind_text (Product.category p) = Ok (Product.category p') /\
  bind_text (Product.image_url p) = Ok (Product.image_url p').
Proof.
  unfold stored_product. intros H.
  apply rbind_ok in H. destruct H as (name & Hname & H).
  apply rbind_ok in H. destruct H as (description & Hdescription & H).
  apply rbind_ok in H. destruct H as (price & Hprice & H).
  apply rbind_ok in H. destruct H as (stock & Hstock & H).
  apply rbind_ok in H. destruct H as (category & Hcategory & H).
  apply rbind_ok in H. destruct H as (image_url & Himage_url & H).
  injection H as <-. simpl.
  apply bind_real_ok in Hprice. destruct Hprice as [Hnan ->].
  apply bind_int_ok in Hstock. destruct Hstock as [-> Hstock].
  repeat split; auto.
Qed.

Lemma is_nan_eqb (x : float) : is_nan x = negb (PrimFloat.eqb x x).
Proof. reflexivity. Qed.

(** What the stored row keeps of the row that is updated. *)
Lemma stored_update_fields old p p' :
  stored_update old p = Ok p' ->
  Product.id p' = Product.id p /\
  Product.price p' = updated_price (Product.price old) (Product.price p) /\
  (Product.price p = Product.price old -> Product.price p' = Product.price old) /\
  Product.stock p' = Product.stock p /\
  Product.created_at p' = Product.created_at p /\
  Product.updated_at p' = Product.updated_at p /\
  rebind_text (Product.name old) (Product.name p) = Ok (Product.name p') /\
  rebind_text (Product.description old) (Product.description p)
    = Ok (Product.description p') /\
  rebind_text (Product.category old) (Product.category p)
    = Ok (Product.category p') /\
  rebind_text (Product.image_url old) (Product.image_url p)
    = Ok (Product.image_url p').
Proof.
  unfold stored_update. intros H.
  apply rbind_ok in H. destruct H as (name & Hname & H).
  apply rbind_ok in H. destruct H as (description & Hdescription & H).
  apply rbind_ok in H. destruct H as (price & Hprice & H).
  apply rbind_ok in H. destruct H as (stock & Hstock & H).
  apply rbind_ok in H. destruct H as (category & Hcategory & H).
  apply rbind_ok in H. destruct H as (image_url & Himage_url & H).
  injection H as <-. simpl.
  assert (Hs : stock = Product.stock p).
  { destruct (Product.stock p =? Product.stock old) eqn:E.
    - apply Z.eqb_eq in E. congruence.
    - now apply bind_int_ok in Hstock. }
  unfold updated_price.
  destruct (PrimFloat.eqb (Product.price p) (Product.price old)) eqn:E.
  - injection Hprice as <-. repeat split; auto.
  - apply bind_real_ok in Hprice. destruct Hprice as [Hnan ->].
    repeat split; auto.
    intros Heq. rewrite Heq in E, Hnan. rewrite is_nan_eqb, E in Hnan.
    discriminate.
Qed.

Lemma py_eq_held (v : value) : text_held v = true -> py_eq v v = true.
Proof.
  destruct v as [|b|z|f|s]; try discriminate; intros _; unfold py_eq.
  - reflexivity.
  - apply String.eqb_refl.
Qed.

Lemma rebind_text_held (v v' : value) :
  text_held v = true -> rebind_text v v = Ok v' -> v' = v.
Proof.
  intros H. unfold rebind_text. rewrite (py_eq_held v H). congruence.
Qed.

Lemma rebind_text_str (old v : value) (s : string) :
  rebind_text old (PStr s) = Ok v -> v = PStr s.
Proof.
  unfold rebind_text, py_eq.
  destruct old as [|b|z|f|s']; unfold bind_text; try congruence.
  destruct (String.eqb s s') eqn:E; [|congruence].
  apply String.eqb_eq in E. congruence.
Qed.

Lemma insert_product_ok p t tx :
  insert_product p t = Ok tx ->
  tx = mk_tables (products t ++ [p]) (orders t) (order_items t) /\
  product_not_null p = true /\ in_int64 (Product.id p) = true.
Proof.
  unfold insert_product.
  destruct (product_not_null p); [|discriminate].
  destruct (in_int64 (Product.id p)); [|discriminate].
  intros H. injection H as <-. auto.
Qed.

Lemma insert_product_raises p t e : insert_product p t = Raise e -> e <> NotFound.
Proof.
  unfold insert_product.
  destruct (product_not_null p); [destruct (in_int64 _)|]; congruence.
Qed.

Lemma update_product_ok p t tx :
  update_product p t = Ok tx ->
  tx = mk_tables (put_product p (products t)) (orders t) (order_items t) /\
  product_not_null p = true.
Proof.
  unfold update_product.
  destruct (product_not_null p); [|discriminate].
  intros H. injection H as <-. auto.
Qed.

Lemma update_product_raises p t e : update_product p t = Raise e -> e <> NotFound.
Proof.
  unfold update_product. destruct (product_not_null p); congruence.
Qed.

Lemma products_POST_run (now : Z) (data : list (string * value)) (w : world) :
  serve (products_POST now data) w =
  match dict_get "name" data, dict_get "price" data, dict_get "category" data with
  | Some name, Some price_in, Some category =>
      match py_float price_in with
      | Raise e => (handle_exception (Raise e), w)
      | Ok price =>
          match py_int (dict_get_default "stock" (PInt 0) data) with
          | Raise e => (handle_exception (Raise e), w)
          | Ok stock =>
              match stored_product
                      (new_product now (db w) data name price stock category)
              with
              | Raise e => (handle_exception (Raise e), w)
              | Ok product =>
                  match insert_product product (db w) with
                  | Raise e => (handle_exception (Raise e), w)
                  | Ok tx =>
                      (Json (JDict [("message"%string,
                                     jstr "Product created successfully");
                                    ("product"%string,
                                     JDict (Product.to_dict product))]) 201,
                       mk_world tx (session w))
                  end
              end
          end
      end
  | _, _, _ => (error "Missing required fields" 400, w)
  end.
Proof.
  destruct w as [t s].
  unfold products_POST, required_fields, dict_mem, getitem, new_product.
  cbn [forallb].
  destruct (dict_get "name" data) as [name|]; [|reflexivity].
  destruct (dict_get "price" data) as [price_in|]; [|reflexivity].
  destruct (dict_get "category" data) as [category|]; [|reflexivity].
  step_handler.
  destruct (py_float price_in) as [price|]; simpl; [|reflexivity].
  destruct (py_int _) as [stock|]; simpl; [|reflexivity].
  destruct (stored_product _) as [product|]; simpl; [|reflexivity].
  destruct (insert_product product t); reflexivity.
Qed.

(** The outcomes of a create request: nothing is written and the answer
    is 400 or 500, or the row as stored is appended to the table. *)
Lemma products_POST_outcome (now : Z) (data : list (string * value)) (w : world) :
  let r := serve (products_POST now data) w in
  (snd r = w /\
   (fst r = error "Missing required fields" 400 \/ fst r = server_error)) \/
  (exists name price_in category price stock product,
      dict_get "name" data = Some name /\
      dict_get "price" data = Some price_in /\
      dict_get "category" data = Some category /\
      py_float price_in = Ok price /\
      py_int (dict_get_default "stock" (PInt 0) data) = Ok stock /\
      stored_product (new_product now (db w) data name price stock category)
        = Ok product /\
      product_not_null product = true /\
      in_int64 (Product.id product) = true /\
      r = (Json (JDict [("message"%string, jstr "Product created successfully");
                        ("product"%string, JDict (Product.to_dict product))]) 201,
           mk_world (mk_tables (products (db w) ++ [product]) (orders (db w))
                       (order_items (db w))) (session w))).
Proof.
  cbv zeta. rewrite products_POST_run.
  assert (Hfail : forall e, e <> NotFound ->
             (snd (handle_exception (Raise e), w) = w /\
              (fst (handle_exception (Raise e), w)
                 = error "Missing required fields" 400 \/
               fst (handle_exception (Raise e), w) = server_error))).
  { intros e He. rewrite (handle_raise e He). cbn [fst snd]. auto. }
  destruct (dict_get "name" data) as [name|]; [|left; cbn [fst snd]; auto].
  destruct (dict_get "price" data) as [price_in|]; [|left; cbn [fst snd]; auto].
  destruct (dict_get "category" data) as [category|];
    [|left; cbn [fst snd]; auto].
  destruct (py_float price_in) as [price|e] eqn:Hprice;
    [|left; apply Hfail; eapply py_float_raises; eauto].
  destruct (py_int _) as [stock|e] eqn:Hstock;
    [|left; apply Hfail; eapply py_int_raises; eauto].
  destruct (stored_product _) as [product|e] eqn:Hstored;
    [|left; apply Hfail; eapply stored_product_raises; eauto].
  destruct (insert_product product (db w)) as [tx|e] eqn:Hins;
    [|left; apply Hfail; eapply insert_product_raises; eauto].
  apply insert_product_ok in Hins. destruct Hins as (-> & Hnn & Hid).
  right. exists name, price_in, category, price, stock, product.
  repeat split; auto.
Qed.

(** C8, as stated, fails: a price or a stock that is not numeric is
    answered 500, not 400. *)
Lemma products_POST_non_numeric :
  let w := mk_world (mk_tables [] [] []) (Session.mk None None false) in
  status (fst (serve (products_POST 0
            [("name"%string, PStr "Widget"); ("price"%string, PStr "abc");
             ("category"%string, PStr "Tools")]) w)) <> 400 /\
  status (fst (serve (products_POST 0
            [("name"%string, PStr "Widget"); ("price"%string, PFloat 9.5);
             ("category"%string, PStr "Tools"); ("stock"%string, PStr "many")]) w))
    <> 400.
Proof.
  split; vm_compute; discriminate.
Qed.

(** C8, amended. A create request without [name], [price] or [category]
    is answered 400; one whose price does not convert with [float], or
    whose stock does not convert with [int], ends in the unhandled
    exception of the conversion and is answered 500.  Neither writes
    anything. *)
Theorem products_POST_validation (now : Z) (data : list (string * value))
    (w : world) :
  let r := serve (products_POST now data) w in
  (dict_get "name" data = None \/ dict_get "price" data = None \/
   dict_get "category" data = None ->
   fst r = error "Missing required fields" 400 /\ snd r = w) /\
  (forall name price_in category,
      dict_get "name" data = Some name ->
      dict_get "price" data = Some price_in ->
      dict_get "category" data = Some category ->
      (exists e, py_float price_in = Raise e) \/
      (exists e, py_int (dict_get_default "stock" (PInt 0) data) = Raise e) ->
      fst r = server_error /\ snd r = w).
Proof.
  intros r. subst r. rewrite products_POST_run. split.
  - intros [H|[H|H]]; rewrite H.
    + now split.
    + destruct (dict_get "name" data); now split.
    + destruct (dict_get "name" data); [destruct (dict_get "price" data)|];
        now split.
  - intros name price_in category Hn Hp Hc Hbad. rewrite Hn, Hp, Hc.
    destruct (py_float price_in) as [price|e] eqn:Hprice.
    + destruct Hbad as [[e He]|[e He]]; [discriminate|].
      rewrite He. cbn [fst snd]. split; [|reflexivity].
      apply handle_raise. eapply py_int_raises; eauto.
    + cbn [fst snd]. split; [|reflexivity].
      apply handle_raise. eapply py_float_raises; eauto.
Qed.

Lemma products_POST_validation_witness :
  let w := mk_world (mk_tables [] [] []) (Session.mk None None false) in
  (fst (serve (products_POST 0 [("name"%string, PStr "Widget")]) w)
     = error "Missing required fields" 400) /\
  (fst (serve (products_POST 0
          [("name"%string, PStr "Widget"); ("price"%string, PStr "abc");
           ("category"%string, PStr "Tools")]) w) = server_error).
Proof.
  intros w. split.
  - apply (products_POST_validation 0 [("name"%string, PStr "Widget")] w).
    right. left. reflexivity.
  - eapply (products_POST_validation 0
              [("name"%string, PStr "Widget"); ("price"%string, PStr "abc");
               ("category"%string, PStr "Tools")] w); try reflexivity.
    left. exists ValueError. reflexivity.
Defined.

(** *** Tables *)

Lemma get_product_id pid ps p : get_product pid ps = Some p -> Product.id p = pid.
Proof.
  unfold get_product. intros H. apply find_some in H.
  destruct H as [_ H]. now apply Z.eqb_eq in H.
Qed.

Lemma get_product_put pid p ps :
  get_product pid (put_product p ps) =
  if Product.id p =? pid
  then match get_product pid ps with Some _ => Some p | None => None end
  else get_product pid ps.
Proof.
  unfold get_product, put_product.
  induction ps as [|p0 ps IH]; simpl.
  - now destruct (Product.id p =? pid).
  - destruct (Product.id p0 =? Product.id p) eqn:E0; simpl.
    + apply Z.eqb_eq in E0. rewrite E0.
      destruct (Product.id p =? pid) eqn:E; [reflexivity|].
      rewrite IH. reflexivity.
    + destruct (Product.id p0 =? pid) eqn:E1.
      * destruct (Product.id p =? pid) eqn:E; [|reflexivity].
        apply Z.eqb_eq in E, E1. apply Z.eqb_neq in E0. congruence.
      * exact IH.
Qed.

Lemma product_detail_PUT_run (now product_id : Z) (data : list (string * value))
    (w : world) :
  serve (product_detail_PUT now product_id data) w =
  if in_int64 product_id then
    match get_product product_id (products (db w)) with
    | None => (not_found, w)
    | Some product =>
        match py_float
                (dict_get_default "price" (PFloat (Product.price product)) data)
        with
        | Raise e => (handle_exception (Raise e), w)
        | Ok price =>
            match py_int
                    (dict_get_default "stock" (PInt (Product.stock product)) data)
            with
            | Raise e => (handle_exception (Raise e), w)
            | Ok stock =>
                match stored_update product
                        (updated_product now product data price stock)
                with
                | Raise e => (handle_exception (Raise e), w)
                | Ok product' =>
                    match update_product product' (db w) with
                    | Raise e => (handle_exception (Raise e), w)
                    | Ok tx =>
                        (Json (JDict [("message"%string,
                                       jstr "Product updated successfully");
                                      ("product"%string,
                                       JDict (Product.to_dict product'))]) 200,
                         mk_world tx (session w))
                    end
                end
            end
        end
    end
  else (server_error, w).
Proof.
  destruct w as [t s].
  unfold product_detail_PUT, updated_product. step_handler.
  destruct (in_int64 product_id); simpl; [|reflexivity].
  destruct (get_product product_id (products t)) as [product|]; simpl;
    [|reflexivity].
  destruct (py_float _) as [price|]; simpl; [|reflexivity].
  destruct (py_int _) as [stock|]; simpl; [|reflexivity].
  destruct (stored_update _ _) as [product'|]; simpl; [|reflexivity].
  destruct (update_product product' t); reflexivity.
Qed.

(** The outcomes of an update request: nothing is written and the answer
    is 404 or 500, or the row as stored replaces the row of the key. *)
Lemma product_detail_PUT_outcome (now product_id : Z)
    (data : list (string * value)) (w : world) :
  let r := serve (product_detail_PUT now product_id data) w in
  (snd r = w /\ (fst r = not_found \/ fst r = server_error)) \/
  (exists p price stock p',
      in_int64 product_id = true /\
      get_product product_id (products (db w)) = Some p /\
      py_float (dict_get_default "price" (PFloat (Product.price p)) data)
        = Ok price /\
      py_int (dict_get_default "stock" (PInt (Product.stock p)) data)
        = Ok stock /\
      stored_update p (updated_product now p data price stock) = Ok p' /\
      product_not_null p' = true /\
      r = (Json (JDict [("message"%string, jstr "Product updated successfully");
                        ("product"%string, JDict (Product.to_dict p'))]) 200,
           mk_world (mk_tables (put_product p' (products (db w))) (orders (db w))
                       (order_items (db w))) (session w))).
Proof.
  cbv zeta. rewrite product_detail_PUT_run.
  assert (Hfail : forall e, e <> NotFound ->
             (snd (handle_exception (Raise e), w) = w /\
              (fst (handle_exception (Raise e), w) = not_found \/
               fst (handle_exception (Raise e), w) = server_error))).
  { intros e He. rewrite (handle_raise e He). cbn [fst snd]. auto. }
  destruct (in_int64 product_id) eqn:Hid; [|left; cbn [fst snd]; auto].
  destruct (get_product product_id (products (db w))) as [p|] eqn:Hp;
    [|left; cbn [fst snd]; auto].
  destruct (py_float _) as [price|e] eqn:Hprice;
    [|left; apply Hfail; eapply py_float_raises; eauto].
  destruct (py_int _) as [stock|e] eqn:Hstock;
    [|left; apply Hfail; eapply py_int_raises; eauto].
  destruct (stored_update _ _) as [p'|e] eqn:Hstored;
    [|left; apply Hfail; eapply stored_update_raises; eauto].
  destruct (update_product p' (db w)) as [tx|e] eqn:Hup;
    [|left; apply Hfail; eapply update_product_raises; eauto].
  apply update_product_ok in Hup. destruct Hup as (-> & Hnn).
  right. exists p, price, stock, p'. repeat split; auto.
Qed.

Lemma product_detail_GET_run (product_id : Z) (w : world) :
  serve (product_detail_GET product_id) w =
  (if in_int64 product_id then
     match get_product product_id (products (db w)) with
     | Some product => Json (JDict (Product.to_dict product)) 200
     | None => not_found
     end
   else server_error, w).
Proof.
  destruct w as [t s]. unfold product_detail_GET. step_handler.
  destruct (in_int64 product_id); simpl; [|reflexivity].
  destruct (get_product product_id (products t)); reflexivity.
Qed.

Lemma float_neq (x y : float) : Prim2SF x <> Prim2SF y -> x <> y.
Proof. intros H E. apply H. now rewrite E. Qed.

(** C9, as stated, fails in three places.  An update of a key that is
    absent and does not fit in 64 bits ends in the error of the lookup
    and is answered 500, not 404.  An update of the price to a NaN is
    bound as NULL, which the column refuses: the answer is 500 and the
    price stays.  An update of a price of zero to the negative zero
    leaves the price as it is. *)
Lemma product_detail_PUT_departures :
  (get_product 9223372036854775808 (products (db shopper)) = None /\
   status (fst (serve (product_detail_PUT 9 9223372036854775808
                         [("price"%string, PFloat 5)]) shopper)) = 500) /\
  (exists x, py_float (PStr "nan") = Ok x /\
   let r := serve (product_detail_PUT 9 1 [("price"%string, PStr "nan")])
              shopper in
   status (fst r) = 500 /\ snd r = shopper) /\
  (let r := serve (product_detail_PUT 9 1 [("price"%string, PFloat (-0))])
              giveaway in
   status (fst r) = 200 /\
   field "price" (fst (serve (product_detail_GET 1) (snd r)))
     = Some (jfloat 0) /\
   jfloat 0 <> jfloat (-0)).
Proof.
  split; [|split].
  - split; [reflexivity|]. vm_compute. reflexivity.
  - eexists. split; [vm_compute; reflexivity|].
    split; vm_compute; reflexivity.
  - cbv zeta. split; [vm_compute; reflexivity|].
    split; [vm_compute; reflexivity|].
    intros H.
    apply (f_equal (fun j => match j with
                             | JVal (PFloat x) => Prim2SF x
                             | _ => S754_nan
                             end)) in H.
    vm_compute in H. discriminate H.
Qed.

(** C9, amended. For a product [p] whose key fits in 64 bits and a price
    [x] that is not a NaN, the update of the price alone is answered 200,
    and reading the product then returns the price that the update
    leaves, which is [x] unless [x] compares equal to the price of [p] or
    to zero, with every other field as before.  A successful partial
    update keeps the fields that were not supplied, stores the texts, the
    price and the stock that were supplied, sets [updated_at] to the
    current time, and leaves every other row alone.  An update of an
    absent key writes nothing and is answered 404 when the key fits in
    64 bits, 500 when it does not; and an update with any answer other
    than 200 writes nothing. *)
Theorem product_detail_PUT_frame (now product_id : Z) (w : world) :
  (forall p v x,
      get_product product_id (products (db w)) = Some p ->
      in_int64 product_id = true ->
      product_not_null p = true ->
      product_held p = true ->
      py_float v = Ok x ->
      is_nan x = false ->
      let r := serve (product_detail_PUT now product_id [("price"%string, v)]) w in
      let price := updated_price (Product.price p) x in
      status (fst r) = 200 /\
      get_product product_id (products (db (snd r)))
        = Some (Product.mk (Product.id p) (Product.name p) (Product.description p)
                  price (Product.stock p) (Product.category p)
                  (Product.image_url p) (Product.created_at p) now) /\
      serve (product_detail_GET product_id) (snd r)
        = (Json (JDict (Product.to_dict (with_price price p))) 200, snd r) /\
      field "price" (fst (serve (product_detail_GET product_id) (snd r)))
        = Some (jfloat price)) /\
  (forall p data,
      get_product product_id (products (db w)) = Some p ->
      product_held p = true ->
      let r := serve (product_detail_PUT now product_id data) w in
      status (fst r) = 200 ->
      exists p',
        get_product product_id (products (db (snd r))) = Some p' /\
        fst r = Json (JDict [("message"%string,
                              jstr "Product updated successfully");
                             ("product"%string, JDict (Product.to_dict p'))]) 200 /\
        Product.id p' = Product.id p /\
        Product.created_at p' = Product.created_at p /\
        Product.updated_at p' = now /\
        (dict_get "name" data = None -> Product.name p' = Product.name p) /\
        (dict_get "description" data = None ->
         Product.description p' = Product.description p) /\
        (dict_get "price" data = None -> Product.price p' = Product.price p) /\
        (dict_get "stock" data = None -> Product.stock p' = Product.stock p) /\
        (dict_get "category" data = None ->
         Product.category p' = Product.category p) /\
        (dict_get "image_url" data = None ->
         Product.image_url p' = Product.image_url p) /\
        (forall s, dict_get "name" data = Some (PStr s) ->
                   Product.name p' = PStr s) /\
        (forall s, dict_get "description" data = Some (PStr s) ->
                   Product.description p' = PStr s) /\
        (forall v x, dict_get "price" data = Some v -> py_float v = Ok x ->
                     Product.price p' = updated_price (Product.price p) x) /\
        (forall v z, dict_get "stock" data = Some v -> py_int v = Ok z ->
                     Product.stock p' = z) /\
        (forall s, dict_get "category" data = Some (PStr s) ->
                   Product.category p' = PStr s) /\
        (forall s, dict_get "image_url" data = Some (PStr s) ->
                   Product.image_url p' = PStr s) /\
        (forall pid, pid <> product_id ->
           get_product pid (products (db (snd r)))
             = get_product pid (products (db w))) /\
        orders (db (snd r)) = orders (db w) /\
        order_items (db (snd r)) = order_items (db w) /\
        session (snd r) = session w) /\
  (forall data,
      get_product product_id (products (db w)) = None ->
      let r := serve (product_detail_PUT now product_id data) w in
      fst r = (if in_int64 product_id then not_found else server_error) /\
      snd r = w) /\
  (forall data,
      let r := serve (product_detail_PUT now product_id data) w in
      status (fst r) <> 200 -> snd r = w).
Proof.
  split; [|split; [|split]].
  - intros p v x Hp Hid Hnn Hheld Hx Hnan r price.
    apply andb_prop in Hheld. destruct Hheld as [Hheld Himage].
    apply andb_prop in Hheld. destruct Hheld as [Hheld Hcategory].
    apply andb_prop in Hheld. destruct Hheld as [Hname Hdescription].
    assert (Hstored :
      stored_update p (updated_product now p [("price"%string, v)] x
                         (Product.stock p))
      = Ok (Product.mk (Product.id p) (Product.name p) (Product.description p)
              price (Product.stock p) (Product.category p)
              (Product.image_url p) (Product.created_at p) now)).
    { unfold stored_update, updated_product, rebind_text, dict_get_default.
      cbn [dict_get String.eqb Ascii.eqb Bool.eqb Product.name
           Product.description Product.price Product.stock Product.category
           Product.image_url Product.id Product.created_at Product.updated_at].
      rewrite !py_eq_held by assumption. rewrite Z.eqb_refl.
      subst price. unfold updated_price, bind_real. rewrite Hnan.
      destruct (PrimFloat.eqb x (Product.price p)); reflexivity. }
    assert (Hrun : r = (Json (JDict [("message"%string,
                                      jstr "Product updated successfully");
                                     ("product"%string,
                                      JDict (Product.to_dict
                                        (Product.mk (Product.id p) (Product.name p)
                                           (Product.description p) price
                                           (Product.stock p) (Product.category p)
                                           (Product.image_url p)
                                           (Product.created_at p) now)))]) 200,
                        mk_world (mk_tables
                                    (put_product
                                       (Product.mk (Product.id p) (Product.name p)
                                          (Product.description p) price
                                          (Product.stock p) (Product.category p)
                                          (Product.image_url p)
                                          (Product.created_at p) now)
                                       (products (db w)))
                                    (orders (db w)) (order_items (db w)))
                          (session w))).
    { subst r. rewrite product_detail_PUT_run, Hid, Hp.
      unfold dict_get_default at 1 2.
      cbn [dict_get String.eqb Ascii.eqb Bool.eqb].
      rewrite Hx. unfold py_int. rewrite Hstored.
      unfold update_product. cbn [product_not_null Product.name Product.category]
        in Hnn |- *.
      unfold product_not_null. cbn [Product.name Product.category].
      unfold product_not_null in Hnn. rewrite Hnn. reflexivity. }
    assert (Hget : get_product product_id (products (db (snd r)))
                   = Some (Product.mk (Product.id p) (Product.name p)
                             (Product.description p) price (Product.stock p)
                             (Product.category p) (Product.image_url p)
                             (Product.created_at p) now)).
    { rewrite Hrun. cbn [snd db products]. rewrite get_product_put.
      cbn [Product.id]. rewrite (get_product_id _ _ _ Hp), Z.eqb_refl, Hp.
      reflexivity. }
    split; [now rewrite Hrun|]. split; [exact Hget|].
    rewrite product_detail_GET_run, Hid, Hget. split; reflexivity.
  - intros p data Hp Hheld r.
    apply andb_prop in Hheld. destruct Hheld as [Hheld Himage].
    apply andb_prop in Hheld. destruct Hheld as [Hheld Hcategory].
    apply andb_prop in Hheld. destruct Hheld as [Hname Hdescription].
    destruct (product_detail_PUT_outcome now product_id data w)
      as [[_ [H|H]]|(p0 & price & stock & p' & Hid & Hp0 & Hprice & Hstock
                     & Hstored & Hnn & Hrun)].
    + fold r in H. rewrite H. discriminate.
    + fold r in H. rewrite H. discriminate.
    + fold r in Hrun. intros _. rewrite Hp in Hp0. injection Hp0 as <-.
      rewrite Hrun. cbn [fst snd db products orders order_items session].
      exists p'.
      apply stored_update_fields in Hstored.
      destruct Hstored as (Fid & Fprice & Fsame & Fstock & Fcreated & Fupdated
                           & Fname & Fdescription & Fcategory & Fimage).
      cbn [updated_product Product.id Product.name Product.description
           Product.price Product.stock Product.category Product.image_url
           Product.created_at Product.updated_at] in *.
      unfold dict_get_default in *.
      rewrite get_product_put, Fid, (get_product_id _ _ _ Hp), Z.eqb_refl, Hp.
      split; [reflexivity|]. split; [reflexivity|]. split; [reflexivity|].
      split; [exact Fcreated|]. split; [exact Fupdated|].
      split; [intros H; rewrite H in Fname; now apply rebind_text_held in Fname|].
      split; [intros H; rewrite H in Fdescription;
              now apply rebind_text_held in Fdescription|].
      split; [intros H; rewrite H in Hprice; unfold py_float in Hprice;
              apply Fsame; congruence|].
      split; [intros H; rewrite H in Hstock; unfold py_int in Hstock;
              congruence|].
      split; [intros H; rewrite H in Fcategory;
              now apply rebind_text_held in Fcategory|].
      split; [intros H; rewrite H in Fimage;
              now apply rebind_text_held in Fimage|].
      split; [intros s H; rewrite H in Fname; now apply rebind_text_str in Fname|].
      split; [intros s H; rewrite H in Fdescription;
              now apply rebind_text_str in Fdescription|].
      split; [intros v x H Hx; rewrite H in Hprice; congruence|].
      split; [intros v z H Hz; rewrite H in Hstock; congruence|].
      split; [intros s H; rewrite H in Fcategory;
              now apply rebind_text_str in Fcategory|].
      split; [intros s H; rewrite H in Fimage;
              now apply rebind_text_str in Fimage|].
      split; [|auto].
      intros pid Hne. rewrite get_product_put, Fid.
      rewrite (get_product_id _ _ _ Hp).
      apply not_eq_sym in Hne. apply Z.eqb_neq in Hne. now rewrite Hne.
  - intros data Hp r. subst r. rewrite product_detail_PUT_run, Hp.
    destruct (in_int64 product_id); now split.
  - intros data r.
    destruct (product_detail_PUT_outcome now product_id data w)
      as [[H _]|(p0 & price & stock & p' & _ & _ & _ & _ & _ & _ & Hrun)].
    + intros _. exact H.
    + fold r in Hrun. rewrite Hrun. cbn [fst status]. congruence.
Qed.

(** ** Checkout *)

Lemma checkout_run (fault : option nat) (now : Z) (data : list (string * value))
    (w : world) :
  let cart := stored_cart (session w) in
  let ps := products (db w) in
  serve (checkout fault now data) w =
  match Session.user_id (session w) with
  | None => (Redirect "/login", w)
  | Some _ =>
      match cart with
      | [] => (error "Cart is empty" 400, touched w)
      | _ :: _ =>
          if negb (truthy (get "shipping_address" data)) then
            (error "Shipping address is required" 400, w)
          else
            match check_stock ps cart with
            | Raise e => (handle_exception (Raise e), w)
            | Ok (Some product_id) =>
                (error ("Insufficient stock for product " ++ product_id) 400, w)
            | Ok None =>
                match cart_sum ps cart (NInt 0) with
                | Raise e => (handle_exception (Raise e), w)
                | Ok total =>
                    match stored_order (new_order now w data (py_round total))
                    with
                    | Raise e => (handle_exception (Raise e), w)
                    | Ok order =>
                        match write_phase fault now order cart (db w) with
                        | Raise e => (handle_exception (Raise e), w)
                        | Ok tx =>
                            (handle_exception
                               (rbind (item_rows (products tx)
                                         (items_of (Order.id order) tx))
                                  (fun items => Ok (order_placed order items))),
                             with_cart (mk_world tx (session w)) [])
                        end
                    end
                end
            end
      end
  end.
Proof.
  destruct w as [t [u c m]].
  unfold checkout, checkout_body, write_phase, new_order, order_placed,
    touched, with_cart, stored_cart.
  step_handler.
  destruct u as [u|]; simpl; [|reflexivity].
  destruct c as [[|kv c]|]; simpl; try reflexivity.
  destruct (truthy _); simpl; [|reflexivity].
  destruct (check_stock _ _) as [[k|]|]; simpl; try reflexivity.
  destruct (cart_sum _ _ _) as [total|]; simpl; [|reflexivity].
  destruct (stored_order _) as [order|]; simpl; [|reflexivity].
  destruct (fails fault 0 || negb (in_int64 (Order.id order))); simpl;
    [reflexivity|].
  destruct (place_items _ _ _ _ _ _) as [tx|]; simpl; [|reflexivity].
  destruct (fails fault (S (S (List.length c)))); simpl; [reflexivity|].
  destruct (item_rows _ _); reflexivity.
Qed.

Lemma place_items_cons fault op now oid product_id quantity rest tx :
  place_items fault op now oid ((product_id, quantity) :: rest) tx =
  rbind (py_int (PStr product_id)) (fun pid =>
    match get_product pid (products tx) with
    | None => Raise AttributeError
    | Some product =>
        if fails fault op then Raise DBFailure
        else if negb (item_fits quantity (Product.stock product))
        then Raise OverflowError
        else
          place_items fault (S op) now oid rest
            (mk_tables (put_product (decrement now quantity product) (products tx))
               (orders tx)
               (order_items tx ++
                  [OrderItem.mk (next_id (map OrderItem.id (order_items tx))) oid
                     (Product.id product) quantity (Product.price product)]))
    end).
Proof. reflexivity. Qed.

Lemma restocked_refl p : restocked 0 p p.
Proof.
  unfold restocked. repeat split. lia.
Qed.

Lemma restocked_decrement now q delta p p' :
  restocked delta (decrement now q p) p' -> restocked (q + delta) p p'.
Proof.
  unfold restocked, decrement. simpl.
  intros (H1 & H2 & H3 & H4 & H5 & H6 & H7 & H8).
  repeat split; try assumption. lia.
Qed.

(** What a completed loop has done to the working copy: one line item
    per entry, in order, and every product short of what was ordered. *)
Lemma place_items_ok fault now oid cart :
  forall op tx tx',
    place_items fault op now oid cart tx = Ok tx' ->
    orders tx' = orders tx /\
    (exists items,
        order_items tx' = order_items tx ++ items /\
        Forall2 (item_of_entry (products tx) oid) cart items) /\
    (forall pid,
        match get_product pid (products tx) with
        | Some p =>
            exists p', get_product pid (products tx') = Some p' /\
                       restocked (ordered pid cart) p p'
        | None => get_product pid (products tx') = None
        end) /\
    (forall i, (i < List.length cart)%nat -> fails fault (op + i) = false).
Proof.
  induction cart as [|[k q] cart IH]; intros op tx tx' H.
  - injection H as <-. split; [reflexivity|]. split; [|split].
    + exists []. rewrite app_nil_r. split; constructor.
    + intros pid. destruct (get_product pid (products tx)) as [p|]; [|reflexivity].
      exists p. split; [reflexivity | apply restocked_refl].
    + simpl. lia.
  - rewrite place_items_cons in H.
    destruct (py_int (PStr k)) as [pid|] eqn:Hpid; simpl in H; [|discriminate].
    destruct (get_product pid (products tx)) as [p|] eqn:Hp; [|discriminate].
    destruct (fails fault op) eqn:Hf; [discriminate|].
    destruct (item_fits q (Product.stock p)); [|discriminate]. cbn [negb] in H.
    apply IH in H. cbn [products orders order_items] in H.
    destruct H as (Ho & (items & Hitems & Hall) & Hstock & Hfail).
    pose proof (get_product_id _ _ _ Hp) as Hid.
    split; [exact Ho|]. split; [|split].
    + eexists (_ :: items). rewrite Hitems, <- app_assoc. split; [reflexivity|].
      constructor.
      * exists pid, p. cbn. repeat split; auto.
      * eapply Forall2_impl; [|exact Hall].
        intros kv it (pid' & p' & H1 & H2 & H3).
        rewrite get_product_put in H2. cbn [decrement Product.id] in H2.
        rewrite Hid in H2.
        destruct (pid =? pid') eqn:E.
        -- apply Z.eqb_eq in E. subst pid'. rewrite Hp in H2.
           injection H2 as <-. exists pid, p. cbn in H3. tauto.
        -- exists pid', p'. tauto.
    + intros pid'. specialize (Hstock pid').
      rewrite get_product_put in Hstock. cbn [decrement Product.id] in Hstock.
      rewrite Hid in Hstock. cbn [ordered]. rewrite Hpid.
      destruct (pid =? pid') eqn:E.
      * apply Z.eqb_eq in E. subst pid'. rewrite Hp in *.
        destruct Hstock as (p' & Hp' & Hre). exists p'. split; [exact Hp'|].
        eapply restocked_decrement; eauto.
      * exact Hstock.
    + intros i Hi. destruct i as [|i].
      * now rewrite Nat.add_0_r.
      * rewrite Nat.add_succ_r. apply Hfail. simpl in Hi. lia.
Qed.

Lemma le_max_ids (x : Z) (ids : list Z) : In x ids -> x <= fold_right Z.max 0 ids.
Proof.
  induction ids as [|y ids IH]; simpl; [contradiction|].
  intros [->|H]; [lia|]. specialize (IH H). lia.
Qed.

Lemma get_order_lt_next oid os o :
  get_order oid os = Some o -> oid < next_id (map Order.id os).
Proof.
  unfold get_order, next_id. intros H. apply find_some in H.
  destruct H as [Hin H]. apply Z.eqb_eq in H. subst oid.
  assert (Order.id o <= fold_right Z.max 0 (map Order.id os)).
  { apply le_max_ids. now apply in_map. }
  lia.
Qed.

Lemma Forall2_In_r {A B : Type} (R : A -> B -> Prop) l l' y :
  Forall2 R l l' -> In y l' -> exists x, In x l /\ R x y.
Proof.
  induction 1 as [|x y' l l' HR _ IH]; simpl; [contradiction|].
  intros [->|Hin].
  - exists x. auto.
  - destruct (IH Hin) as [x' [Hx' HR']]. exists x'. auto.
Qed.

(** Under [orders_fk], the line items of a new order are the ones that
    checkout appends. *)
Lemma items_of_new (t : tables) (ps : list Product.t) (os : list Order.t)
    (items : list OrderItem.t) :
  orders_fk t ->
  Forall (fun it => OrderItem.order_id it = next_id (map Order.id (orders t)))
         items ->
  items_of (next_id (map Order.id (orders t)))
    (mk_tables ps os (order_items t ++ items)) = items.
Proof.
  intros Hfk Hnew. unfold items_of. cbn [order_items].
  rewrite filter_app.
  assert (Hold : filter (fun it => OrderItem.order_id it
                                   =? next_id (map Order.id (orders t)))
                   (order_items t) = []).
  { unfold orders_fk in Hfk. induction Hfk as [|it l [o Ho] _ IH]; [reflexivity|].
    simpl. apply get_order_lt_next in Ho.
    destruct (OrderItem.order_id it =? _) eqn:E; [|exact IH].
    apply Z.eqb_eq in E. lia. }
  rewrite Hold. simpl.
  induction Hnew as [|it l Hit _ IH]; [reflexivity|].
  simpl. rewrite Hit, Z.eqb_refl. now rewrite IH.
Qed.

Lemma item_of_entry_order ps oid cart items :
  Forall2 (item_of_entry ps oid) cart items ->
  Forall (fun it => OrderItem.order_id it = oid) items.
Proof.
  induction 1 as [|kv it cart items (pid & p & H) _ IH]; constructor; tauto.
Qed.

(** What a write phase that reached the commit has written. *)
Lemma write_phase_ok fault now order cart t tx :
  write_phase fault now order cart t = Ok tx ->
  orders tx = orders t ++ [order] /\
  (exists items,
      order_items tx = order_items t ++ items /\
      Forall2 (item_of_entry (products t) (Order.id order)) cart items) /\
  (forall pid,
      match get_product pid (products t) with
      | Some p =>
          exists p', get_product pid (products tx) = Some p' /\
                     restocked (ordered pid cart) p p'
      | None => get_product pid (products tx) = None
      end) /\
  (forall i, (i <= S (List.length cart))%nat -> fails fault i = false).
Proof.
  unfold write_phase. intros H.
  destruct (fails fault 0) eqn:F0; [discriminate|].
  destruct (in_int64 (Order.id order)); [|discriminate]. cbn [negb orb] in H.
  destruct (place_items _ _ _ _ _ _) as [tx1|] eqn:Hplace; [|discriminate].
  simpl in H. destruct (fails fault (S (List.length cart))) eqn:Fn; [discriminate|].
  injection H as <-.
  apply place_items_ok in Hplace. cbn [products orders order_items] in Hplace.
  destruct Hplace as (Ho & Hitems & Hstock & Hfail).
  repeat split; try assumption.
  intros i Hi. destruct i as [|i]; [exact F0|].
  destruct (Nat.eq_dec i (List.length cart)) as [->|Hne]; [exact Fn|].
  apply (Hfail i). lia.
Qed.

(** After the commit the response lists the new line items. *)
Lemma checkout_rows fault now order cart t tx :
  Order.id order = next_id (map Order.id (orders t)) ->
  orders_fk t ->
  write_phase fault now order cart t = Ok tx ->
  exists rows,
    item_rows (products tx) (items_of (Order.id order) tx) = Ok rows /\
    List.length rows = List.length cart.
Proof.
  intros Hid Hfk H. apply write_phase_ok in H.
  destruct H as (Ho & (items & Hitems & Hall) & Hstock & _).
  assert (Hof : items_of (Order.id order) tx = items).
  { destruct tx as [ps os its]. cbn [order_items] in Hitems. subst its.
    rewrite Hid. apply items_of_new; [exact Hfk|].
    rewrite <- Hid. eapply item_of_entry_order; eauto. }
  rewrite Hof.
  destruct (item_rows_defined (products tx) items) as [rows [Hrows Hlen]].
  { apply Forall_forall. intros it Hin.
    destruct (Forall2_In_r _ _ _ _ Hall Hin) as [kv [_ (pid & p & _ & Hp & _ & Hpid & _)]].
    specialize (Hstock pid). rewrite Hp in Hstock.
    destruct Hstock as [p' [Hp' _]]. rewrite Hpid. eauto. }
  exists rows. split; [exact Hrows|].
  rewrite Hlen. symmetry. eapply Forall2_length; eauto.
Qed.

Lemma write_phase_place fault now order cart t tx :
  write_phase fault now order cart t = Ok tx ->
  place_items fault 1 now (Order.id order) cart
    (mk_tables (products t) (orders t ++ [order]) (order_items t)) = Ok tx.
Proof.
  unfold write_phase.
  destruct (fails fault 0 || negb (in_int64 (Order.id order))); [discriminate|].
  destruct (place_items _ _ _ _ _ _) as [tx1|]; [|discriminate].
  simpl. destruct (fails fault _); congruence.
Qed.

Lemma write_phase_fits fault now order cart t tx :
  write_phase fault now order cart t = Ok tx -> in_int64 (Order.id order) = true.
Proof.
  unfold write_phase. destruct (fails fault 0); [discriminate|].
  destruct (in_int64 (Order.id order)); [reflexivity | discriminate].
Qed.

(** What the stored order keeps of the order that is flushed. *)
Lemma stored_order_fields o o' :
  stored_order o = Ok o' ->
  Order.id o' = Order.id o /\
  Order.user_id o' = Order.user_id o /\
  bind_real_num (Order.total_amount o) = Ok (Order.total_amount o') /\
  Order.status o' = Order.status o /\
  bind_text (Order.shipping_address o) = Ok (Order.shipping_address o') /\
  is_none (Order.shipping_address o') = false /\
  Order.created_at o' = Order.created_at o /\
  Order.updated_at o' = Order.updated_at o.
Proof.
  unfold stored_order. intros H.
  apply rbind_ok in H. destruct H as (user_id & Huser & H).
  apply rbind_ok in H. destruct H as (total_amount & Htotal & H).
  apply rbind_ok in H. destruct H as (shipping_address & Haddress & H).
  destruct (is_none shipping_address) eqn:Hnone; [discriminate|].
  injection H as <-. simpl. repeat split; auto.
  unfold bind_key in Huser. destruct (Order.user_id o) as [u|]; [|congruence].
  apply rbind_ok in Huser. destruct Huser as (z & Hz & Huser).
  apply bind_int_ok in Hz. destruct Hz as [-> _]. congruence.
Qed.

Lemma bind_real_num_raises n e : bind_real_num n = Raise e -> e <> NotFound.
Proof.
  unfold bind_real_num. destruct n as [z|x]; intros H.
  - apply rbind_raises in H. destruct H as [H|[z' [_ H]]].
    + apply bind_int_raises in H. congruence.
    + apply rbind_raises in H. destruct H as [H|[? [_ H]]]; [|discriminate].
      apply float_of_int_raises in H. congruence.
  - apply rbind_raises in H. destruct H as [H|[? [_ H]]]; [|discriminate].
    apply not_null_raises in H. congruence.
Qed.

Lemma stored_order_raises o e : stored_order o = Raise e -> e <> NotFound.
Proof.
  unfold stored_order. intros H.
  apply rbind_raises in H. destruct H as [H|[? [_ H]]].
  { unfold bind_key in H. destruct (Order.user_id o) as [u|]; [|discriminate].
    apply rbind_raises in H. destruct H as [H|[? [_ H]]]; [|discriminate].
    apply bind_int_raises in H. congruence. }
  apply rbind_raises in H. destruct H as [H|[? [_ H]]].
  { eapply bind_real_num_raises; eauto. }
  apply rbind_raises in H. destruct H as [H|[a [_ H]]].
  { apply bind_text_raises in H. congruence. }
  destruct (is_none a); congruence.
Qed.

(** C1. A checkout request either leaves the tables as they were, and is
    not answered 201, or has committed all of: the order, one line item
    per cart entry (in order, with the product, the quantity and the price
    of the product), and for every product a stock lowered by what the
    cart ordered of it.  The second case needs every database operation to
    succeed, and is answered 201 when the line items of the tables refer
    to orders of the tables. *)
Theorem checkout_atomic (fault : option nat) (now : Z)
    (data : list (string * value)) (w : world) :
  let cart := stored_cart (session w) in
  let r := serve (checkout fault now data) w in
  (db (snd r) = db w /\ status (fst r) <> 201) \/
  (exists order items,
      orders (db (snd r)) = orders (db w) ++ [order] /\
      order_items (db (snd r)) = order_items (db w) ++ items /\
      Forall2 (item_of_entry (products (db w)) (Order.id order)) cart items /\
      (forall pid,
          match get_product pid (products (db w)) with
          | Some p =>
              exists p', get_product pid (products (db (snd r))) = Some p' /\
                         restocked (ordered pid cart) p p'
          | None => get_product pid (products (db (snd r))) = None
          end) /\
      (forall i, (i <= S (List.length cart))%nat -> fails fault i = false) /\
      (orders_fk (db w) -> status (fst r) = 201)).
Proof.
  intros cart r. subst r. rewrite checkout_run. fold cart.
  destruct (Session.user_id (session w)) as [u|];
    [|left; split; [reflexivity | discriminate]].
  destruct cart as [|kv cart'] eqn:Hcart.
  { left. cbn [fst snd]. rewrite db_touched. split; [reflexivity | discriminate]. }
  rewrite <- Hcart.
  destruct (negb (truthy _));
    [left; split; [reflexivity | discriminate]|].
  destruct (check_stock _ _) as [[k|]|e];
    [left; split; [reflexivity | discriminate]| |
     left; split; [reflexivity | now apply status_handle_raise]].
  destruct (cart_sum _ _ _) as [total|e];
    [|left; split; [reflexivity | now apply status_handle_raise]].
  destruct (stored_order _) as [order|e] eqn:Hstored;
    [|left; split; [reflexivity | now apply status_handle_raise]].
  destruct (write_phase _ _ _ _ _) as [tx|e] eqn:Hw;
    [|left; split; [reflexivity | now apply status_handle_raise]].
  right. cbn [fst snd with_cart db].
  pose proof (write_phase_ok _ _ _ _ _ _ Hw) as (Ho & (items & Hitems & Hall) & Hstock & Hfail).
  exists order, items.
  repeat split; try assumption.
  intros Hfk.
  destruct (checkout_rows fault now order cart (db w) tx
              (proj1 (stored_order_fields _ _ Hstored)) Hfk Hw)
    as [rows [Hrows _]].
  now rewrite Hrows.
Qed.

(** A failure at the second line item leaves the tables as they were; a
    run without failure commits and is answered 201. *)
Lemma checkout_atomic_witness :
  (db (snd (serve (checkout (Some 2%nat) 100 main_street) shopper)) = db shopper /\
   status (fst (serve (checkout (Some 2%nat) 100 main_street) shopper)) <> 201) /\
  status (fst (serve (checkout None 100 main_street) shopper)) = 201.
Proof.
  split.
  - destruct (checkout_atomic (Some 2%nat) 100 main_street shopper) as [H|H];
      [exact H|].
    destruct H as (order & items & _ & _ & _ & _ & Hf & _).
    specialize (Hf 2%nat (le_n_S _ _ (le_n_S _ _ (Nat.le_0_l _)))).
    discriminate Hf.
  - destruct (checkout_atomic None 100 main_street shopper) as [[H _]|H].
    + vm_compute in H. discriminate H.
    + destruct H as (order & items & _ & _ & _ & _ & _ & H).
      apply H. constructor.
Defined.

(** ** The order total *)

Lemma line_sum_cart_sum ps oid cart items :
  Forall2 (item_of_entry ps oid) cart items ->
  forall total, line_sum items total = cart_sum ps cart total.
Proof.
  induction 1 as [|[k q] it cart items (pid & p & H1 & H2 & _ & _ & H5 & H6) _ IH];
    intros total; [reflexivity|].
  simpl in H1, H5. rewrite cart_sum_cons, H1. simpl. rewrite H2, H5, H6.
  destruct (float_mul_int _ _); simpl; [|reflexivity].
  destruct (num_add_float _ _); simpl; [|reflexivity].
  apply IH.
Qed.

(** What a checkout answered 201 has been through. *)
Lemma checkout_201 fault now data w :
  status (fst (serve (checkout fault now data) w)) = 201 ->
  exists total order tx,
    stored_cart (session w) <> [] /\
    truthy (get "shipping_address" data) = true /\
    check_stock (products (db w)) (stored_cart (session w)) = Ok None /\
    cart_sum (products (db w)) (stored_cart (session w)) (NInt 0) = Ok total /\
    stored_order (new_order now w data (py_round total)) = Ok order /\
    write_phase fault now order (stored_cart (session w)) (db w) = Ok tx /\
    snd (serve (checkout fault now data) w)
      = with_cart (mk_world tx (session w)) [].
Proof.
  rewrite checkout_run.
  destruct (Session.user_id (session w)) as [u|]; [|discriminate].
  destruct (stored_cart (session w)) as [|kv cart'] eqn:Hcart; [discriminate|].
  destruct (truthy _); [|discriminate]. cbn [negb].
  destruct (check_stock _ _) as [[k|]|e];
    [discriminate| |intros H; now apply status_handle_raise in H].
  destruct (cart_sum _ _ _) as [total|e];
    [|intros H; now apply status_handle_raise in H].
  destruct (stored_order _) as [order|e] eqn:Hstored;
    [|intros H; now apply status_handle_raise in H].
  destruct (write_phase _ _ _ _ _) as [tx|e] eqn:Hw;
    [|intros H; now apply status_handle_raise in H].
  intros _. exists total, order, tx. repeat split; auto. discriminate.
Qed.

(** C2, as stated, fails: three units at 0.125 make an order whose total
    is 0.38, while its line item sums to 0.375.  And the total that the
    order keeps is the one that the table stores: a sum of -0.001, of one
    unit returned at 0.001, is rounded to the negative zero and stored as
    zero. *)
Lemma checkout_total_rounded :
  (let r := serve (checkout None 100 main_street) eighths in
   status (fst r) = 201 /\
   exists order,
     orders (db (snd r)) = [order] /\
     Order.total_amount order = NFloat 0.38 /\
     line_sum (items_of (Order.id order) (db (snd r))) (NInt 0)
       = Ok (NFloat 0.375) /\
     0.38%float <> 0.375%float) /\
  (let r := serve (checkout None 100 main_street) pennies in
   status (fst r) = 201 /\
   exists order,
     orders (db (snd r)) = [order] /\
     cart_sum (products (db pennies)) (stored_cart (session pennies)) (NInt 0)
       = Ok (NFloat (-0.001)) /\
     py_round (NFloat (-0.001)) = NFloat (-0) /\
     Order.total_amount order = NFloat 0 /\
     NFloat 0 <> NFloat (-0)).
Proof.
  split.
  - split; [reflexivity|]. eexists. split; [reflexivity|].
    split; [reflexivity|]. split; [reflexivity|].
    apply float_neq. vm_compute. discriminate.
  - split; [reflexivity|]. eexists. split; [reflexivity|].
    split; [reflexivity|]. split; [vm_compute; reflexivity|].
    split; [reflexivity|].
    intros H.
    apply (f_equal (fun n => match n with
                             | NFloat x => Prim2SF x
                             | NInt _ => S754_nan
                             end)) in H.
    vm_compute in H. discriminate H.
Qed.

(** With two-decimal prices as well: three units at 1.1 sum to
    3.3000000000000003, and the order total is 3.3. *)
Example checkout_total_tenths :
  let w := mk_world
             (mk_tables [Product.mk 1 (PStr "Pen") PNone 1.1 10 (PStr "Office")
                           PNone 0 0] [] [])
             (Session.mk (Some 7) (Some [("1"%string, 3)]) true) in
  let r := serve (checkout None 100 main_street) w in
  exists order,
    orders (db (snd r)) = [order] /\
    Order.total_amount order = NFloat 3.3 /\
    line_sum (items_of (Order.id order) (db (snd r))) (NInt 0)
      = Ok (NFloat 3.3000000000000003).
Proof.
  eexists. repeat split.
Qed.

(** C2, amended. The total of the order of a successful checkout is the
    two-decimal rounding of the sum of price times quantity, accumulated
    over the cart entries at the prices of the catalog at checkout, as
    the table stores it, which is that rounding unless it is the negative
    zero; the same sum accumulated over the line items of the order is
    that sum before rounding. *)
Theorem checkout_total (fault : option nat) (now : Z)
    (data : list (string * value)) (w : world) :
  let cart := stored_cart (session w) in
  let r := serve (checkout fault now data) w in
  orders_fk (db w) ->
  status (fst r) = 201 ->
  exists order total,
    orders (db (snd r)) = orders (db w) ++ [order] /\
    cart_sum (products (db w)) cart (NInt 0) = Ok total /\
    line_sum (items_of (Order.id order) (db (snd r))) (NInt 0) = Ok total /\
    bind_real_num (py_round total) = Ok (Order.total_amount order) /\
    (forall x, py_round total = NFloat x -> PrimFloat.eqb x 0 = false ->
               Order.total_amount order = NFloat x).
Proof.
  intros cart r Hfk H201. subst r.
  destruct (checkout_201 _ _ _ _ H201)
    as (total & order & tx & _ & _ & _ & Hsum & Hstored & Hw & Hsnd).
  rewrite Hsnd. cbn [with_cart db].
  pose proof (write_phase_ok _ _ _ _ _ _ Hw) as (Ho & (items & Hitems & Hall) & _ & _).
  pose proof (stored_order_fields _ _ Hstored) as (Hid & _ & Htotal & _).
  cbn [new_order Order.id Order.total_amount] in Hid, Htotal.
  exists order, total.
  split; [exact Ho|]. split; [exact Hsum|]. split; [|split; [exact Htotal|]].
  - assert (Hof : items_of (Order.id order) tx = items).
    { destruct tx as [ps os its]. cbn [order_items] in Hitems. subst its.
      rewrite Hid. apply items_of_new; [exact Hfk|].
      rewrite <- Hid. eapply item_of_entry_order; eauto. }
    rewrite Hof. rewrite (line_sum_cart_sum _ _ _ _ Hall). exact Hsum.
  - intros x Hx Hzero. rewrite Hx in Htotal. unfold bind_real_num in Htotal.
    apply rbind_ok in Htotal. destruct Htotal as (y & Hy & Htotal).
    apply bind_real_ok in Hy. destruct Hy as [_ ->]. rewrite Hzero in Htotal.
    congruence.
Qed.

Lemma checkout_total_witness :
  let r := serve (checkout None 100 main_street) shopper in
  exists order total,
    orders (db (snd r)) = orders (db shopper) ++ [order] /\
    cart_sum (products (db shopper)) (stored_cart (session shopper)) (NInt 0)
      = Ok total /\
    line_sum (items_of (Order.id order) (db (snd r))) (NInt 0) = Ok total /\
    bind_real_num (py_round total) = Ok (Order.total_amount order) /\
    (forall x, py_round total = NFloat x -> PrimFloat.eqb x 0 = false ->
               Order.total_amount order = NFloat x).
Proof.
  apply (checkout_total None 100 main_street shopper).
  - constructor.
  - reflexivity.
Defined.

(** ** The preconditions of checkout *)

Lemma check_stock_cons ps product_id quantity rest :
  check_stock ps ((product_id, quantity) :: rest) =
  rbind (py_int (PStr product_id)) (fun pid =>
    match get_product pid ps with
    | Some product =>
        if Product.stock product <? quantity then Ok (Some product_id)
        else check_stock ps rest
    | None => Ok (Some product_id)
    end).
Proof. reflexivity. Qed.

(** On a well-formed cart the stock check returns the key of the first
    entry that is short of stock. *)
Lemma check_stock_find ps cart :
  cart_wf cart ->
  check_stock ps cart = Ok (option_map fst (find (short_of_stock ps) cart)).
Proof.
  induction cart as [|[k q] cart IH]; intros Hwf; [reflexivity|].
  inversion Hwf as [|? ? [pid Hpid] Hwf']; subst. simpl in Hpid.
  rewrite check_stock_cons, Hpid. simpl. unfold short_of_stock at 1. simpl.
  rewrite Hpid.
  destruct (get_product pid ps) as [p|]; [|reflexivity].
  destruct (Product.stock p <? q); [reflexivity|]. now apply IH.
Qed.

Lemma find_none_not_exists {A : Type} (f : A -> bool) (l : list A) :
  find f l = None <-> ~ Exists (fun x => f x = true) l.
Proof.
  split.
  - intros H HE. apply Exists_exists in HE. destruct HE as [x [Hin Hx]].
    pose proof (find_none f l H x Hin). congruence.
  - intros H. destruct (find f l) as [x|] eqn:E; [|reflexivity].
    exfalso. apply H. apply find_some in E. apply Exists_exists. eauto.
Qed.

Lemma in_catalog_put ps p kv :
  in_catalog (put_product p ps) kv = in_catalog ps kv.
Proof.
  unfold in_catalog. destruct (py_int _) as [pid|]; [|reflexivity].
  rewrite get_product_put.
  destruct (Product.id p =? pid); [|reflexivity].
  now destruct (get_product pid ps).
Qed.

Lemma fits_put ps p kv :
  py_int (PStr (fst kv)) <> Ok (Product.id p) ->
  fits (put_product p ps) kv = fits ps kv.
Proof.
  unfold fits. intros Hne.
  destruct (py_int (PStr (fst kv))) as [pid|]; [|reflexivity].
  rewrite get_product_put.
  destruct (Product.id p =? pid) eqn:E; [|reflexivity].
  apply Z.eqb_eq in E. congruence.
Qed.

(** Without a failing database operation, the loop runs to its end when
    the entries have pairwise distinct products, and every entry has a
    product and a quantity and a stock that the tables can store. *)
Lemma place_items_defined now oid cart :
  forall op tx,
    Forall (fun kv => in_catalog (products tx) kv = true) cart ->
    Forall (fun kv => fits (products tx) kv = true) cart ->
    distinct_products cart ->
    exists tx', place_items None op now oid cart tx = Ok tx'.
Proof.
  induction cart as [|[k q] cart IH]; intros op tx Hall Hfit Hdis.
  - now exists tx.
  - inversion Hall as [|? ? Hin Hall']; subst.
    inversion Hfit as [|? ? Hf Hfit']; subst.
    unfold distinct_products in Hdis. cbn [map fst] in Hdis.
    inversion Hdis as [|? ? Hnotin Hdis']; subst.
    rewrite place_items_cons. unfold in_catalog in Hin. unfold fits in Hf.
    cbn [fst snd] in Hin, Hf.
    destruct (py_int (PStr k)) as [pid|] eqn:Hpid; [|discriminate]. simpl.
    destruct (get_product pid (products tx)) as [p|] eqn:Hp; [|discriminate].
    cbn [fails]. rewrite Hf. cbn [negb].
    pose proof (get_product_id _ _ _ Hp) as Hid.
    apply IH; cbn [products].
    + eapply Forall_impl; [|exact Hall'].
      intros kv H. now rewrite in_catalog_put.
    + apply Forall_forall. intros kv Hkv.
      rewrite Forall_forall in Hfit'. rewrite fits_put; [now apply Hfit'|].
      cbn [decrement Product.id]. rewrite Hid. intros Heq. apply Hnotin.
      rewrite <- Heq.
      exact (in_map (fun kv => py_int (PStr (fst kv))) cart kv Hkv).
    + exact Hdis'.
Qed.

Lemma not_short_in_catalog ps cart :
  cart_wf cart ->
  ~ Exists (fun kv => short_of_stock ps kv = true) cart ->
  Forall (fun kv => in_catalog ps kv = true) cart.
Proof.
  intros Hwf Hno. apply Forall_forall. intros kv Hin.
  unfold cart_wf in Hwf. rewrite Forall_forall in Hwf.
  destruct (Hwf kv Hin) as [pid Hpid].
  assert (Hs : short_of_stock ps kv <> true).
  { intros Hs. apply Hno. apply Exists_exists. eauto. }
  unfold short_of_stock in Hs. unfold in_catalog. rewrite Hpid in *.
  destruct (get_product pid ps); congruence.
Qed.

Lemma cart_sum_raises ps cart :
  forall total e, cart_sum ps cart total = Raise e -> e <> NotFound.
Proof.
  induction cart as [|[k q] cart IH]; intros total e H; [discriminate|].
  rewrite cart_sum_cons in H.
  destruct (py_int (PStr k)) as [pid|e'] eqn:Hpid; simpl in H.
  - destruct (get_product pid ps) as [p|]; [|eauto].
    unfold float_mul_int in H.
    destruct (float_of_int q) as [f|e'] eqn:Hf; simpl in H.
    + destruct total as [z|t]; unfold num_add_float in H.
      * destruct (float_of_int z) as [f'|e'] eqn:Hz; simpl in H; [eauto|].
        injection H as <-. apply float_of_int_raises in Hz. congruence.
      * simpl in H. eauto.
    + injection H as <-. apply float_of_int_raises in Hf. congruence.
  - injection H as <-. eapply py_int_raises; eauto.
Qed.

(** The total of a cart that is not empty, and whose entries have a
    product each, is a [float]. *)
Lemma cart_sum_float ps cart :
  forall total t,
    Forall (fun kv => in_catalog ps kv = true) cart ->
    (cart = [] -> exists x, total = NFloat x) ->
    cart_sum ps cart total = Ok t -> exists x, t = NFloat x.
Proof.
  induction cart as [|[k q] cart IH]; intros total t Hall Hne H.
  - injection H as <-. now apply Hne.
  - inversion Hall as [|? ? Hin Hall']; subst.
    rewrite cart_sum_cons in H. unfold in_catalog in Hin. cbn [fst] in Hin.
    destruct (py_int (PStr k)) as [pid|]; [|discriminate]. simpl in H.
    destruct (get_product pid ps) as [p|]; [|discriminate].
    destruct (float_mul_int _ _) as [x|]; simpl in H; [|discriminate].
    destruct (num_add_float total x) as [total'|] eqn:Hadd; simpl in H;
      [|discriminate].
    apply (IH total' t Hall'); [|exact H].
    intros _. unfold num_add_float in Hadd. destruct total as [z|y].
    + destruct (float_of_int z); simpl in Hadd; [|discriminate].
      injection Hadd as <-. eauto.
    + injection Hadd as <-. eauto.
Qed.

Lemma place_items_raises fault now oid cart :
  forall op tx e, place_items fault op now oid cart tx = Raise e -> e <> NotFound.
Proof.
  induction cart as [|[k q] cart IH]; intros op tx e H; [discriminate|].
  rewrite place_items_cons in H.
  destruct (py_int (PStr k)) as [pid|e'] eqn:Hpid; simpl in H.
  - destruct (get_product pid (products tx)) as [p|]; [|congruence].
    destruct (fails fault op); [congruence|].
    destruct (item_fits q (Product.stock p)); cbn [negb] in H; [|congruence].
    eauto.
  - injection H as <-. eapply py_int_raises; eauto.
Qed.

Lemma write_phase_raises fault now order cart t e :
  write_phase fault now order cart t = Raise e -> e <> NotFound.
Proof.
  unfold write_phase.
  destruct (fails fault 0 || negb (in_int64 (Order.id order))); [congruence|].
  destruct (place_items _ _ _ _ _ _) as [tx|e'] eqn:Hplace; simpl.
  - destruct (fails fault _); congruence.
  - intros H. injection H as <-. eapply place_items_raises; eauto.
Qed.

(** C3, as stated, fails.  With no precondition violated, checkout does
    not succeed when the total cannot be computed, nor when a quantity
    does not fit in the 64 bits that the table gives it; and a request
    that is not logged in is redirected, whatever its cart. *)
Lemma checkout_not_exactly :
  (~ violated (products (db huge_refund)) (stored_cart (session huge_refund))
       main_street /\
   status (fst (serve (checkout None 100 main_street) huge_refund)) = 500) /\
  (violated (products (db guest_empty)) (stored_cart (session guest_empty))
     main_street /\
   status (fst (serve (checkout None 100 main_street) guest_empty)) = 302) /\
  (stored_cart (session big_refund) = [("1"%string, - 2 ^ 70)] /\
   ~ violated (products (db big_refund)) (stored_cart (session big_refund))
       main_street /\
   (exists total,
       cart_sum (products (db big_refund)) (stored_cart (session big_refund))
         (NInt 0) = Ok total) /\
   status (fst (serve (checkout None 100 main_street) big_refund)) = 500 /\
   db (snd (serve (checkout None 100 main_street) big_refund)) = db big_refund).
Proof.
  assert (Hc : stored_cart (session huge_refund) = [("1"%string, - 2 ^ 1024)])
    by (vm_compute; reflexivity).
  assert (Hp : products (db huge_refund) = sample_products)
    by (vm_compute; reflexivity).
  assert (Hc' : stored_cart (session big_refund) = [("1"%string, - 2 ^ 70)])
    by (vm_compute; reflexivity).
  assert (Hp' : products (db big_refund) = sample_products)
    by (vm_compute; reflexivity).
  split; [split|split; [split|]].
  - rewrite Hc, Hp. intros [H|[H|H]]; try discriminate H.
    inversion H as [? ? Hs|? ? Hs]; [vm_compute in Hs; discriminate | inversion Hs].
  - vm_compute. reflexivity.
  - left. reflexivity.
  - reflexivity.
  - split; [exact Hc'|]. split; [|split; [|split]].
    + rewrite Hc', Hp'. intros [H|[H|H]]; try discriminate H.
      inversion H as [? ? Hs|? ? Hs];
        [vm_compute in Hs; discriminate | inversion Hs].
    + eexists. vm_compute. reflexivity.
    + vm_compute. reflexivity.
    + vm_compute. reflexivity.
Qed.

(** C3, amended. Under a logged-in session and on a cart whose keys read
    as integers, checkout is answered 400 exactly when the cart is empty,
    the shipping address is empty or absent, or an entry is short of
    stock; the three are checked in this order, and nothing is written.
    Otherwise, when no database operation fails, checkout succeeds if the
    total can be computed and the tables can store the order: the rounded
    total is not a NaN, the address can be stored as a text, the entries
    have pairwise distinct products, a quantity that fits in 64 bits and
    a stock that is left in 64 bits, and the key of the user and the key
    of the order fit in 64 bits.  It ends in an unhandled exception, with nothing written, if
    the total cannot be computed, and whenever it is answered neither 400
    nor 201. *)
Theorem checkout_validation (now : Z) (data : list (string * value))
    (w : world) (u : Z) :
  let cart := stored_cart (session w) in
  let ps := products (db w) in
  let r := serve (checkout None now data) w in
  Session.user_id (session w) = Some u ->
  cart_wf cart ->
  (status (fst r) = 400 <-> violated ps cart data) /\
  (violated ps cart data -> db (snd r) = db w) /\
  (cart = [] -> fst r = error "Cart is empty" 400) /\
  (cart <> [] -> truthy (get "shipping_address" data) = false ->
   fst r = error "Shipping address is required" 400) /\
  (cart <> [] -> truthy (get "shipping_address" data) = true ->
   forall kv, find (short_of_stock ps) cart = Some kv ->
   fst r = error ("Insufficient stock for product " ++ fst kv) 400) /\
  (~ violated ps cart data ->
   (forall total,
       cart_sum ps cart (NInt 0) = Ok total ->
       (forall x, py_round total = NFloat x -> is_nan x = false) ->
       text_fits (get "shipping_address" data) = true ->
       distinct_products cart ->
       Forall (fun kv => fits ps kv = true) cart ->
       in_int64 u = true ->
       in_int64 (next_id (map Order.id (orders (db w)))) = true ->
       orders_fk (db w) -> status (fst r) = 201) /\
   (forall e, cart_sum ps cart (NInt 0) = Raise e ->
              fst r = server_error /\ db (snd r) = db w) /\
   (orders_fk (db w) -> status (fst r) <> 201 ->
    fst r = server_error /\ db (snd r) = db w)).
Proof.
  intros cart ps r Hu Hwf. subst r ps. rewrite checkout_run, Hu.
  fold cart. rewrite (check_stock_find _ cart Hwf).
  set (ps := products (db w)).
  unfold violated.
  destruct cart as [|kv0 cart'] eqn:Hcart.
  { cbn [fst snd status error]. rewrite db_touched.
    split; [|split; [|split; [|split; [|split]]]].
    - split; [intros _; now left | reflexivity].
    - reflexivity.
    - reflexivity.
    - intros Hne. contradiction.
    - intros Hne. contradiction.
    - intros Hnv. exfalso. apply Hnv. now left. }
  rewrite <- Hcart. rewrite <- Hcart in Hwf.
  assert (Hne : cart <> []) by (rewrite Hcart; discriminate).
  destruct (truthy (get "shipping_address" data)) eqn:Haddr; cbn [negb].
  2:{ cbn [fst snd status error].
      split; [|split; [|split; [|split; [|split]]]].
      - split; [intros _; right; now left | reflexivity].
      - reflexivity.
      - intros He. contradiction.
      - reflexivity.
      - intros _ Ht. discriminate Ht.
      - intros Hnv. exfalso. apply Hnv. right. now left. }
  destruct (find (short_of_stock ps) cart) as [kv|] eqn:Hfind; cbn [option_map].
  { assert (HE : Exists (fun kv => short_of_stock ps kv = true) cart).
    { apply find_some in Hfind. apply Exists_exists. eauto. }
    cbn [fst snd status error].
    split; [|split; [|split; [|split; [|split]]]].
    - split; [intros _; right; now right | reflexivity].
    - reflexivity.
    - intros He. contradiction.
    - intros _ Ht. discriminate Ht.
    - intros _ _ kv' Hkv'. injection Hkv' as <-. reflexivity.
    - intros Hnv. exfalso. apply Hnv. right. now right. }
  assert (HnE : ~ Exists (fun kv => short_of_stock ps kv = true) cart)
    by now apply find_none_not_exists.
  assert (Hnv : ~ (cart = [] \/ true = false \/
                   Exists (fun kv => short_of_stock ps kv = true) cart)).
  { intros [H|[H|H]]; [contradiction | discriminate | contradiction]. }
  pose proof (not_short_in_catalog ps cart Hwf HnE) as Hcat.
  (* the answers of the branch that has passed the three checks *)
  assert (Hraise : forall e, e <> NotFound ->
            (status (fst (handle_exception (Raise e), w)) = 400 <->
             cart = [] \/ true = false \/
             Exists (fun kv => short_of_stock ps kv = true) cart) /\
            fst (handle_exception (Raise e), w) = server_error /\
            db (snd (handle_exception (Raise e), w)) = db w).
  { intros e He. rewrite (handle_raise e He). cbn [fst snd].
    split; [|now split]. split; [discriminate | intros H; contradiction]. }
  destruct (cart_sum ps cart (NInt 0)) as [total|e] eqn:Hsum.
  2:{ destruct (Hraise e (cart_sum_raises _ _ _ _ Hsum)) as (H400 & Hfst & Hdb).
      split; [exact H400|]. split; [intros H; contradiction|].
      split; [intros H; contradiction|].
      split; [intros _ H; discriminate H|].
      split; [intros _ _ kv H; discriminate H|].
      intros _. split; [intros total H; discriminate H|].
      split; [intros e' _; now split|]. intros _ _. now split. }
  destruct (stored_order (new_order now w data (py_round total)))
    as [order|e] eqn:Hstored.
  2:{ destruct (Hraise e (stored_order_raises _ _ Hstored)) as (H400 & Hfst & Hdb).
      split; [exact H400|]. split; [intros H; contradiction|].
      split; [intros H; contradiction|].
      split; [intros _ H; discriminate H|].
      split; [intros _ _ kv H; discriminate H|].
      intros _. split; [|split; [intros e' H; discriminate H|]].
      - intros total' Htotal' Hnan Htext _ _ Huser _ _. exfalso.
        injection Htotal' as <-.
        destruct (cart_sum_float ps cart (NInt 0) total Hcat) as [x Hx];
          [intros H; contradiction | exact Hsum |].
        unfold stored_order, new_order in Hstored.
        cbn [Order.total_amount Order.shipping_address Order.user_id] in Hstored.
        rewrite Hu in Hstored. unfold bind_key, bind_int in Hstored.
        rewrite Huser in Hstored. cbn [rbind] in Hstored.
        assert (Hr : exists y, py_round total = NFloat y)
          by (rewrite Hx; unfold py_round; eauto).
        destruct Hr as [y Hy]. rewrite Hy in Hstored, Hnan.
        specialize (Hnan y eq_refl).
        unfold bind_real_num, bind_real in Hstored. rewrite Hnan in Hstored.
        cbn [not_null rbind] in Hstored.
        unfold text_fits in Htext.
        destruct (bind_text (get "shipping_address" data)) as [a|];
          [|discriminate].
        cbn [rbind] in Hstored. destruct (is_none a); discriminate.
      - intros _ _. now split. }
  pose proof (stored_order_fields _ _ Hstored) as (Hid & _).
  cbn [new_order Order.id] in Hid.
  destruct (write_phase None now order cart (db w)) as [tx|e] eqn:Hw.
  2:{ destruct (Hraise e (write_phase_raises _ _ _ _ _ _ Hw)) as (H400 & Hfst & Hdb).
      split; [exact H400|]. split; [intros H; contradiction|].
      split; [intros H; contradiction|].
      split; [intros _ H; discriminate H|].
      split; [intros _ _ kv H; discriminate H|].
      intros _. split; [|split; [intros e' H; discriminate H|]].
      - intros total' _ _ _ Hdis Hfit _ Hnext _. exfalso.
        destruct (place_items_defined now (Order.id order) cart 1%nat
                    (mk_tables ps (orders (db w) ++ [order]) (order_items (db w)))
                    Hcat Hfit Hdis) as [tx Htx].
        unfold write_phase in Hw. cbn [fails orb] in Hw.
        rewrite Hid, Hnext in Hw. cbn [negb] in Hw. rewrite <- Hid in Hw.
        fold ps in Hw. rewrite Htx in Hw. discriminate Hw.
      - intros _ _. now split. }
  cbn [fst snd].
  split; [|split; [|split; [|split; [|split]]]].
  + split; [|intros H; contradiction].
    intros H. exfalso.
    destruct (item_rows _ _) as [rows|e]; [discriminate H|].
    now apply status_handle_raise in H.
  + intros H. contradiction.
  + intros H. contradiction.
  + intros _ H. discriminate H.
  + intros _ _ kv H. discriminate H.
  + assert (H201 : orders_fk (db w) ->
              status (handle_exception
                        (rbind (item_rows (products tx)
                                  (items_of (Order.id order) tx))
                           (fun items => Ok (order_placed order items)))) = 201).
    { intros Hfk.
      destruct (checkout_rows None now order cart (db w) tx Hid Hfk Hw)
        as [rows [Hrows _]].
      now rewrite Hrows. }
    intros _. split; [|split; [intros e H; discriminate H|]].
    * intros total' _ _ _ _ _ _ _ Hfk. now apply H201.
    * intros Hfk Hn. exfalso. apply Hn. now apply H201.
Qed.

Lemma checkout_validation_witness :
  status (fst (serve (checkout None 100 main_street) shopper)) = 201 /\
  status (fst (serve (checkout None 100 []) shopper)) = 400.
Proof.
  assert (Hwf : cart_wf (stored_cart (session shopper))).
  { repeat constructor; eexists; reflexivity. }
  split.
  - destruct (checkout_validation 100 main_street shopper 7 eq_refl Hwf)
      as (_ & _ & _ & _ & _ & H).
    destruct H as [H _].
    + intros [H|[H|H]]; try discriminate H.
      inversion H as [? ? Hs|? ? Hs']; [discriminate Hs|].
      inversion Hs' as [? ? Hs|? ? Hs'']; [discriminate Hs | inversion Hs''].
    + eapply H.
      * reflexivity.
      * intros x Hx. vm_compute in Hx.
        apply (f_equal (fun n => match n with
                                 | NFloat y => is_nan y
                                 | NInt _ => false
                                 end)) in Hx.
        rewrite <- Hx. vm_compute. reflexivity.
      * reflexivity.
      * unfold distinct_products. vm_compute.
        constructor; [|constructor; [|constructor]].
        -- intros [H1|H1]; [discriminate H1 | exact H1].
        -- intros H1. exact H1.
      * repeat constructor.
      * reflexivity.
      * reflexivity.
      * constructor.
  - apply (checkout_validation 100 [] shopper 7 eq_refl Hwf).
    right. left. reflexivity.
Defined.

(** ** Stock *)

Lemma check_stock_covered ps cart :
  check_stock ps cart = Ok None -> Forall (covered ps) cart.
Proof.
  induction cart as [|[k q] cart IH]; intros H; [constructor|].
  rewrite check_stock_cons in H.
  destruct (py_int (PStr k)) as [pid|] eqn:Hpid; simpl in H; [|discriminate].
  destruct (get_product pid ps) as [p|] eqn:Hp; [|discriminate].
  destruct (Product.stock p <? q) eqn:Hlt; [discriminate|].
  constructor; [|now apply IH].
  exists pid, p. simpl. apply Z.ltb_ge in Hlt. auto.
Qed.

Lemma Forall_put_product (P : Product.t -> Prop) p ps :
  Forall P ps -> P p -> Forall P (put_product p ps).
Proof.
  intros Hall Hp. unfold put_product. apply Forall_forall. intros x Hin.
  apply in_map_iff in Hin. destruct Hin as [y [Hy Hin]].
  destruct (Product.id y =? Product.id p); subst x; [exact Hp|].
  rewrite Forall_forall in Hall. now apply Hall.
Qed.

(** The loop keeps the stocks non-negative when every entry is covered
    and no two entries draw on the same product. *)
Lemma place_items_nonneg fault now oid cart :
  forall op tx tx',
    distinct_products cart ->
    Forall (covered (products tx)) cart ->
    stock_nonneg tx ->
    place_items fault op now oid cart tx = Ok tx' ->
    stock_nonneg tx'.
Proof.
  induction cart as [|[k q] cart IH]; intros op tx tx' Hnd Hcov Hnn H.
  - now injection H as <-.
  - rewrite place_items_cons in H.
    inversion Hcov as [|? ? (pid & p & Hpid & Hp & Hle) Hcov']; subst.
    simpl in Hpid, Hle. rewrite Hpid in H. simpl in H. rewrite Hp in H.
    destruct (fails fault op); [discriminate|].
    destruct (item_fits _ _); cbn [negb] in H; [|discriminate].
    inversion Hnd as [|? ? Hnotin Hnd']; subst. simpl in Hnotin.
    eapply IH; [exact Hnd' | | | exact H]; cbn [products].
    + apply Forall_forall. intros kv Hin.
      rewrite Forall_forall in Hcov'.
      destruct (Hcov' kv Hin) as (pid' & p' & Hpid' & Hp' & Hle').
      exists pid', p'. split; [exact Hpid'|]. split; [|exact Hle'].
      rewrite get_product_put. cbn [decrement Product.id].
      rewrite (get_product_id _ _ _ Hp).
      destruct (pid =? pid') eqn:E; [|exact Hp'].
      exfalso. apply Z.eqb_eq in E. subst pid'. apply Hnotin.
      rewrite Hpid, <- Hpid'. apply in_map_iff. exists kv. auto.
    + unfold stock_nonneg. cbn [products].
      apply Forall_put_product; [exact Hnn|]. cbn [decrement Product.stock]. lia.
Qed.

(** The tables after a checkout request: untouched, or those of a write
    phase that followed a passed stock check. *)
Lemma checkout_db fault now data w :
  db (snd (serve (checkout fault now data) w)) = db w \/
  exists order tx,
    check_stock (products (db w)) (stored_cart (session w)) = Ok None /\
    write_phase fault now order (stored_cart (session w)) (db w) = Ok tx /\
    db (snd (serve (checkout fault now data) w)) = tx.
Proof.
  rewrite checkout_run.
  destruct (Session.user_id (session w)) as [u|]; [|now left].
  destruct (stored_cart (session w)) as [|kv cart'] eqn:Hcart.
  { left. cbn [snd]. apply db_touched. }
  destruct (negb (truthy _)); [now left|].
  destruct (check_stock _ _) as [[k|]|e] eqn:Hcheck; [now left| |now left].
  destruct (cart_sum _ _ _) as [total|e]; [|now left].
  destruct (stored_order _) as [order|e]; [|now left].
  destruct (write_phase _ _ _ _ _) as [tx|e] eqn:Hw; [|now left].
  right. exists order, tx. auto.
Qed.

Lemma checkout_nonneg fault now data w :
  stock_nonneg (db w) ->
  distinct_products (stored_cart (session w)) ->
  stock_nonneg (db (snd (serve (checkout fault now data) w))).
Proof.
  intros Hnn Hnd.
  destruct (checkout_db fault now data w) as [H|(order & tx & Hcheck & Hw & H)];
    rewrite H; [exact Hnn|].
  apply write_phase_place in Hw.
  eapply place_items_nonneg; [exact Hnd | | | exact Hw].
  - cbn [products]. now apply check_stock_covered.
  - exact Hnn.
Qed.

(** Two cart keys for the same product: each passes the stock check, and
    together they take the stock below zero. *)
Example checkout_aliased_keys :
  let w := mk_world
             (mk_tables [Product.mk 1 (PStr "Laptop") PNone 999.99 5
                           (PStr "Electronics") PNone 0 0] [] [])
             (Session.mk (Some 7) (Some [("1"%string, 5); ("01"%string, 5)]) true) in
  let r := serve (checkout None 100 main_street) w in
  status (fst r) = 201 /\
  option_map Product.stock (get_product 1 (products (db (snd r)))) = Some (-5).
Proof.
  split; reflexivity.
Qed.

Lemma keeps_ret {A : Type} (a : A) : keeps_db (ret a).
Proof. intros w. reflexivity. Qed.

Lemma keeps_lift {A : Type} (r : result A) : keeps_db (lift r).
Proof. intros w. reflexivity. Qed.

Lemma keeps_get_db : keeps_db get_db.
Proof. intros w. reflexivity. Qed.

Lemma keeps_get_session : keeps_db get_session.
Proof. intros w. reflexivity. Qed.

Lemma keeps_set_session s : keeps_db (set_session s).
Proof. intros w. reflexivity. Qed.

Lemma keeps_bind {A B : Type} (m : M A) (k : A -> M B) :
  keeps_db m -> (forall a, keeps_db (k a)) -> keeps_db (bind m k).
Proof.
  intros Hm Hk w. unfold bind. specialize (Hm w).
  destruct (m w) as [[a|e] w']; simpl in *; [|exact Hm].
  now rewrite Hk.
Qed.

Ltac keeps :=
  repeat first
    [ apply keeps_ret | apply keeps_lift | apply keeps_get_db
    | apply keeps_get_session | apply keeps_set_session
    | apply keeps_bind; [|intros ?]
    | match goal with
      | |- keeps_db (if ?b then _ else _) => destruct b
      | |- keeps_db (match ?x with _ => _ end) => destruct x
      end ].

Lemma keeps_get_cart : keeps_db get_cart.
Proof. unfold get_cart. keeps. Qed.

Lemma keeps_save_cart cart : keeps_db (save_cart cart).
Proof. unfold save_cart. keeps. Qed.

Lemma keeps_calculate_cart_total cart : keeps_db (calculate_cart_total cart).
Proof. unfold calculate_cart_total. keeps. Qed.

Lemma keeps_get_product_or_404 pid : keeps_db (get_product_or_404 pid).
Proof. unfold get_product_or_404. keeps. Qed.

Lemma keeps_serve (h : M response) w :
  keeps_db h -> db (snd (serve h w)) = db w.
Proof.
  intros H. unfold serve. specialize (H w). now destruct (h w).
Qed.

Ltac keeps_cart :=
  repeat first
    [ apply keeps_get_cart | apply keeps_save_cart
    | apply keeps_calculate_cart_total | apply keeps_get_product_or_404
    | progress keeps ].

Lemma cart_POST_db data w : db (snd (serve (cart_POST data) w)) = db w.
Proof. apply keeps_serve. unfold cart_POST. keeps_cart. Qed.

Lemma cart_DELETE_db product_id w :
  db (snd (serve (cart_DELETE product_id) w)) = db w.
Proof. apply keeps_serve. unfold cart_DELETE. keeps_cart. Qed.

Lemma update_cart_db data w : db (snd (serve (update_cart data) w)) = db w.
Proof. apply keeps_serve. unfold update_cart. keeps_cart. Qed.

Lemma cart_GET_db w : db (snd (serve cart_GET w)) = db w.
Proof.
  rewrite cart_GET_run. apply db_touched.
Qed.

Lemma clear_cart_db w : db (snd (serve clear_cart w)) = db w.
Proof. reflexivity. Qed.

(** C4, as stated, fails: a product can be created with a negative
    stock. *)
Lemma products_POST_negative_stock :
  let w := mk_world (mk_tables [] [] []) (Session.mk None None false) in
  let r := serve (products_POST 0
                    [("name"%string, PStr "Widget"); ("price"%string, PFloat 9.5);
                     ("category"%string, PStr "Tools"); ("stock"%string, PInt (-5))])
                 w in
  stock_nonneg (db w) /\
  status (fst r) = 201 /\
  ~ stock_nonneg (db (snd r)).
Proof.
  split; [constructor|]. split; [reflexivity|].
  intros H. inversion H as [|p ps Hp _]. vm_compute in Hp. now apply Hp.
Qed.

(** C4, amended. The cart routes leave the tables, and so the stocks, as
    they are.  A checkout whose cart keys read as pairwise distinct
    product ids keeps every stock non-negative.  Creating or updating a
    product stores the stock that the request supplies, converted with
    [int], whatever its sign. *)
Theorem stock_after_operations :
  (forall w data product_id,
      db (snd (serve cart_GET w)) = db w /\
      db (snd (serve (cart_POST data) w)) = db w /\
      db (snd (serve (cart_DELETE product_id) w)) = db w /\
      db (snd (serve (update_cart data) w)) = db w /\
      db (snd (serve clear_cart w)) = db w) /\
  (forall fault now data w,
      stock_nonneg (db w) ->
      distinct_products (stored_cart (session w)) ->
      stock_nonneg (db (snd (serve (checkout fault now data) w)))) /\
  (forall now data w,
      let r := serve (products_POST now data) w in
      status (fst r) = 201 ->
      exists p stock,
        products (db (snd r)) = products (db w) ++ [p] /\
        py_int (dict_get_default "stock" (PInt 0) data) = Ok stock /\
        Product.stock p = stock) /\
  (forall now product_id data w,
      let r := serve (product_detail_PUT now product_id data) w in
      status (fst r) = 200 ->
      exists p p' stock,
        get_product product_id (products (db w)) = Some p /\
        get_product product_id (products (db (snd r))) = Some p' /\
        py_int (dict_get_default "stock" (PInt (Product.stock p)) data) = Ok stock /\
        Product.stock p' = stock).
Proof.
  split; [|split; [|split]].
  - intros w data product_id.
    split; [apply cart_GET_db|]. split; [apply cart_POST_db|].
    split; [apply cart_DELETE_db|]. split; [apply update_cart_db|].
    apply clear_cart_db.
  - intros fault now data w. apply checkout_nonneg.
  - intros now data w r.
    destruct (products_POST_outcome now data w)
      as [[_ [H|H]]|(name & price_in & category & price & stock & product & _ & _
                     & _ & _ & Hstock & Hstored & _ & _ & Hrun)];
      fold r in H || fold r in Hrun.
    + rewrite H. discriminate.
    + rewrite H. discriminate.
    + intros _. rewrite Hrun. cbn [fst snd db products].
      exists product, stock. split; [reflexivity|]. split; [exact Hstock|].
      apply stored_product_fields in Hstored.
      now destruct Hstored as (_ & _ & _ & Hs & _).
  - intros now product_id data w r.
    destruct (product_detail_PUT_outcome now product_id data w)
      as [[_ [H|H]]|(p & price & stock & p' & _ & Hp & _ & Hstock & Hstored
                     & _ & Hrun)];
      fold r in H || fold r in Hrun.
    + rewrite H. discriminate.
    + rewrite H. discriminate.
    + intros _. rewrite Hrun. cbn [fst snd db products].
      apply stored_update_fields in Hstored.
      destruct Hstored as (Hid & _ & _ & Hs & _).
      cbn [updated_product Product.id Product.stock] in Hid, Hs.
      exists p, p', stock.
      split; [exact Hp|]. split; [|split; [exact Hstock | exact Hs]].
      rewrite get_product_put, Hid.
      now rewrite (get_product_id _ _ _ Hp), Z.eqb_refl, Hp.
Qed.

Lemma stock_after_operations_witness :
  stock_nonneg (db (snd (serve (checkout None 100 main_street) shopper))) /\
  (exists p stock,
      products (db (snd (serve (products_POST 0
                    [("name"%string, PStr "Widget"); ("price"%string, PFloat 9.5);
                     ("category"%string, PStr "Tools"); ("stock"%string, PInt (-5))])
                 shopper)))
        = products (db shopper) ++ [p] /\
      py_int (PInt (-5)) = Ok stock /\
      Product.stock p = stock).
Proof.
  destruct stock_after_operations as (_ & Hcheckout & Hcreate & _).
  split.
  - apply Hcheckout.
    + repeat constructor; vm_compute; discriminate.
    + repeat constructor; simpl; intuition discriminate.
  - apply (Hcreate 0 [("name"%string, PStr "Widget"); ("price"%string, PFloat 9.5);
                      ("category"%string, PStr "Tools"); ("stock"%string, PInt (-5))]
             shopper).
    reflexivity.
Defined.

(** ** Runs on the sample catalog *)

(** Nine more laptops on top of the two in the cart: the stock of ten is
    compared with nine, and the cart ends with eleven. *)
Lemma cart_POST_cases_witness :
  let data := [("product_id"%string, PInt 1); ("quantity"%string, PInt 9)] in
  let r := serve (cart_POST data) shopper in
  let cart' := stored_cart (session (snd r)) in
  db (snd r) = db shopper /\
  (dict_get "1" cart' = Some (2 + 9) /\
   map fst cart' = map fst (stored_cart (session shopper))) /\
  (forall k, k <> "1"%string ->
             dict_get k cart' = dict_get k (stored_cart (session shopper))) /\
  (forall total,
      cart_sum (products (db shopper)) cart' (NInt 0) = Ok total ->
      fst r = Json (JDict [("message"%string, jstr "Product added to cart");
                           ("cart"%string, cart_json cart');
                           ("total"%string, jnum (py_round total))]) 200).
Proof.
  exact (cart_POST_cases
           [("product_id"%string, PInt 1); ("quantity"%string, PInt 9)]
           shopper 1 9 eq_refl eq_refl).
Defined.

(** Ten T-shirts instead of three. *)
Lemma update_cart_cases_witness :
  let data := [("product_id"%string, PInt 4); ("quantity"%string, PInt 10)] in
  let r := serve (update_cart data) shopper in
  dict_get "4" (stored_cart (session (snd r))) = Some 10.
Proof.
  intros data r.
  pose proof (update_cart_cases data shopper 10 eq_refl) as H.
  cbv zeta in H.
  change (dict_get (py_str (get "product_id" data)) (stored_cart (session shopper)))
    with (Some 3) in H.
  change (10 <=? 0) with false in H. cbv iota in H.
  specialize (H 4 eq_refl).
  change (get_product 4 (products (db shopper)))
    with (Some (Product.mk 4 (PStr "T-Shirt") (PStr "Cotton t-shirt") 29.99 50
                  (PStr "Clothing") PNone 0 0)) in H.
  cbv iota in H.
  change (Product.stock _ <? 10) with false in H. cbv iota in H.
  destruct H as (H & _). exact H.
Defined.

Lemma product_detail_PUT_frame_witness :
  let r := serve (product_detail_PUT 9 1 [("price"%string, PFloat 899.5)])
             shopper in
  status (fst r) = 200 /\
  fst (serve (product_detail_GET 1) (snd r))
    = Json (JDict (Product.to_dict
                     (with_price 899.5
                        (Product.mk 1 (PStr "Laptop") (PStr "High-performance laptop")
                           999.99 10 (PStr "Electronics") PNone 0 0)))) 200.
Proof.
  pose proof (proj1 (product_detail_PUT_frame 9 1 shopper)
                (Product.mk 1 (PStr "Laptop") (PStr "High-performance laptop")
                   999.99 10 (PStr "Electronics") PNone 0 0)
                (PFloat 899.5) 899.5%float
                eq_refl eq_refl eq_refl eq_refl eq_refl eq_refl) as H.
  cbv zeta in H. destruct H as (H1 & _ & H3 & _).
  split; [exact H1|]. rewrite H3. reflexivity.
Defined.

Lemma cart_GET_item_count_witness :
  exists rows total,
    fst (serve cart_GET stale_world) =
      Json (JDict [("items"%string, JList rows);
                   ("total"%string, jnum (py_round total));
                   ("item_count"%string, jint 2)]) 200 /\
    Forall2 (cart_row (products (db stale_world)))
      (filter (in_catalog (products (db stale_world)))
         (stored_cart (session stale_world))) rows.
Proof.
  destruct cart_GET_item_count as [H _].
  destruct (H stale_world) as (_ & _ & H200 & _).
  destruct (H200 eq_refl) as (rows & total & Hr & Hrows & _).
  exists rows, total. split; [exact Hr | exact Hrows].
Defined.

(** ** Invariants of the stored state *)

Lemma get_product_app pid ps p p0 :
  get_product pid ps = Some p0 -> exists p', get_product pid (ps ++ [p]) = Some p'.
Proof.
  unfold get_product. intros H. exists p0.
  induction ps as [|x ps IH]; simpl in *; [discriminate|].
  destruct (Product.id x =? pid); auto.
Qed.

Lemma get_product_remove pid p ps :
  pid <> Product.id p ->
  get_product pid (filter (fun p' => negb (Product.id p' =? Product.id p)) ps)
  = get_product pid ps.
Proof.
  intros Hne. unfold get_product.
  induction ps as [|x ps IH]; simpl; [reflexivity|].
  destruct (Product.id x =? Product.id p) eqn:E; simpl.
  - apply Z.eqb_eq in E.
    destruct (Product.id x =? pid) eqn:E'; [|exact IH].
    apply Z.eqb_eq in E'. congruence.
  - now rewrite IH.
Qed.

Lemma get_order_app oid os o o0 :
  get_order oid os = Some o0 -> exists o', get_order oid (os ++ [o]) = Some o'.
Proof.
  unfold get_order. intros H. exists o0.
  induction os as [|x os IH]; simpl in *; [discriminate|].
  destruct (Order.id x =? oid); auto.
Qed.

Lemma get_order_last os o : exists o', get_order (Order.id o) (os ++ [o]) = Some o'.
Proof.
  unfold get_order. induction os as [|x os IH]; simpl.
  - rewrite Z.eqb_refl. eauto.
  - destruct (Order.id x =? Order.id o); eauto.
Qed.

Lemma get_product_In pid ps p : get_product pid ps = Some p -> In p ps.
Proof.
  unfold get_product. intros H. now apply find_some in H.
Qed.

Lemma cart_wf_set key q cart pid :
  py_int (PStr key) = Ok pid -> cart_wf cart -> cart_wf (dict_set key q cart).
Proof.
  intros Hkey. unfold cart_wf.
  induction cart as [|[k v] cart IH]; intros H; simpl.
  - constructor; [simpl; eauto | constructor].
  - inversion H as [|? ? Hk H']; subst.
    destruct (String.eqb key k); constructor; auto.
Qed.

Lemma cart_wf_del key cart : cart_wf cart -> cart_wf (dict_del key cart).
Proof.
  unfold cart_wf, dict_del. intros H. apply Forall_forall. intros kv Hin.
  apply filter_In in Hin. rewrite Forall_forall in H. now apply H.
Qed.

Lemma wf_touched w : wf w -> wf (touched w).
Proof.
  unfold wf. rewrite db_touched, stored_cart_touched. auto.
Qed.

Lemma wf_with_cart w cart : wf w -> cart_wf cart -> wf (with_cart w cart).
Proof.
  unfold wf, with_cart. cbn [db session stored_cart Session.cart]. tauto.
Qed.

Lemma cart_DELETE_run (product_id : option string) (w : world) :
  let key := py_str (match product_id with Some s => PStr s | None => PNone end) in
  let cart := stored_cart (session w) in
  serve (cart_DELETE product_id) w =
  let cart' := if dict_mem key cart then dict_del key cart else cart in
  (handle_exception
     (rbind (cart_sum (products (db w)) cart' (NInt 0)) (fun total =>
      Ok (Json (JDict [("message"%string, jstr "Product removed from cart");
                       ("total"%string, jnum (py_round total))]) 200))),
   if dict_mem key cart then with_cart w cart' else touched w).
Proof.
  intros key cart. subst key cart. destruct w as [t [u c m]].
  unfold cart_DELETE, with_cart, touched, stored_cart. step_handler.
  destruct c as [c|]; simpl.
  - destruct (dict_mem _ c); simpl; destruct (cart_sum _ _ _); reflexivity.
  - reflexivity.
Qed.

Lemma product_detail_DELETE_run (product_id : Z) (w : world) :
  serve (product_detail_DELETE product_id) w =
  if in_int64 product_id then
    match get_product product_id (products (db w)) with
    | None => (not_found, w)
    | Some product =>
        match delete_product product (db w) with
        | Raise e => (handle_exception (Raise e), w)
        | Ok tx =>
            (Json (JDict [("message"%string,
                           jstr "Product deleted successfully")]) 200,
             mk_world tx (session w))
        end
    end
  else (server_error, w).
Proof.
  destruct w as [t s]. unfold product_detail_DELETE. step_handler.
  destruct (in_int64 product_id); simpl; [|reflexivity].
  destruct (get_product product_id (products t)) as [product|]; simpl;
    [|reflexivity].
  destruct (delete_product product t); reflexivity.
Qed.

Lemma wf_products_POST now data w : wf w -> wf (snd (serve (products_POST now data) w)).
Proof.
  intros Hw.
  destruct (products_POST_outcome now data w)
    as [[H _]|(name & price_in & category & price & stock & product & _ & _
               & _ & _ & _ & _ & Hnn & _ & Hrun)];
    [cbv zeta in H; now rewrite H|].
  cbv zeta in Hrun. rewrite Hrun.
  destruct Hw as (Hp & Hfk & Hres & Hcart).
  unfold wf. cbn [snd db session products]. repeat split; auto.
  - apply Forall_app. split; [exact Hp | now constructor].
  - unfold items_resolved in *. cbn [products order_items].
    eapply Forall_impl; [|exact Hres].
    intros it [p Hit]. eapply get_product_app; eauto.
Qed.

Lemma wf_product_detail_PUT now product_id data w :
  wf w -> wf (snd (serve (product_detail_PUT now product_id data) w)).
Proof.
  intros Hw.
  destruct (product_detail_PUT_outcome now product_id data w)
    as [[H _]|(p & price & stock & p' & _ & Hp & _ & _ & _ & Hnn & Hrun)];
    [cbv zeta in H; now rewrite H|].
  cbv zeta in Hrun. rewrite Hrun.
  destruct Hw as (Hall & Hfk & Hres & Hcart).
  unfold wf. cbn [snd db session products]. repeat split; auto.
  - now apply Forall_put_product.
  - unfold items_resolved in *. cbn [products order_items].
    eapply Forall_impl; [|exact Hres].
    intros it [p0 Hit]. rewrite get_product_put.
    destruct (Product.id _ =? _); [|eauto].
    rewrite Hit. eauto.
Qed.

Lemma wf_product_detail_DELETE product_id w :
  wf w -> wf (snd (serve (product_detail_DELETE product_id) w)).
Proof.
  intros Hw. rewrite product_detail_DELETE_run.
  destruct (in_int64 product_id); [|exact Hw].
  destruct (get_product product_id (products (db w))) as [p|] eqn:Hp; [|exact Hw].
  unfold delete_product.
  destruct (existsb _ _) eqn:Hex; [exact Hw|].
  destruct Hw as (Hall & Hfk & Hres & Hcart).
  unfold wf. cbn [snd db session products]. repeat split; auto.
  - apply Forall_forall. intros x Hin. apply filter_In in Hin.
    rewrite Forall_forall in Hall. now apply Hall.
  - unfold items_resolved in *. cbn [products order_items].
    apply Forall_forall. intros it Hin.
    rewrite Forall_forall in Hres. destruct (Hres it Hin) as [p0 Hit].
    exists p0. rewrite get_product_remove; [exact Hit|].
    intros Heq.
    assert (Hit' : existsb (fun it => OrderItem.product_id it =? Product.id p)
                     (order_items (db w)) = true).
    { apply existsb_exists. exists it. split; [exact Hin|]. now apply Z.eqb_eq. }
    congruence.
Qed.

Lemma wf_cart_POST data w : wf w -> wf (snd (serve (cart_POST data) w)).
Proof.
  intros Hw. rewrite cart_POST_run.
  destruct (py_int (dict_get_default _ _ _)) as [quantity|]; [|exact Hw].
  destruct (py_int (PStr _)) as [pid|] eqn:Hpid; [|exact Hw].
  destruct (in_int64 pid); [|exact Hw].
  destruct (get_product pid (products (db w))) as [p|]; [|exact Hw].
  destruct (Product.stock p <? quantity); [exact Hw|].
  cbn [snd]. apply wf_with_cart; [exact Hw|].
  destruct Hw as (_ & _ & _ & Hcart). unfold cart_added.
  destruct (dict_get _ _); eapply cart_wf_set; eauto.
Qed.

Lemma wf_cart_DELETE product_id w :
  wf w -> wf (snd (serve (cart_DELETE product_id) w)).
Proof.
  intros Hw. rewrite cart_DELETE_run. cbn [snd].
  destruct (dict_mem _ _); [|now apply wf_touched].
  apply wf_with_cart; [exact Hw|]. apply cart_wf_del. apply Hw.
Qed.

Lemma wf_cart_updated w cart : wf w -> cart_wf cart -> wf (snd (cart_updated w cart)).
Proof.
  intros Hw Hc. unfold cart_updated. cbn [snd]. now apply wf_with_cart.
Qed.

Lemma wf_update_cart data w : wf w -> wf (snd (serve (update_cart data) w)).
Proof.
  intros Hw. rewrite update_cart_run.
  destruct (py_int (dict_get_default _ _ _)) as [quantity|]; [|exact Hw].
  destruct (negb _); [now apply wf_touched|].
  destruct (quantity <=? 0).
  { apply wf_cart_updated; [exact Hw|]. apply cart_wf_del. apply Hw. }
  destruct (py_int (PStr _)) as [pid|] eqn:Hpid; [|now apply wf_touched].
  destruct (in_int64 pid); [|now apply wf_touched].
  destruct (get_product pid (products (db w))) as [p|]; [|now apply wf_touched].
  destruct (Product.stock p <? quantity); [now apply wf_touched|].
  apply wf_cart_updated; [exact Hw|]. eapply cart_wf_set; eauto. apply Hw.
Qed.

Lemma product_not_null_decrement now q p :
  product_not_null (decrement now q p) = product_not_null p.
Proof. reflexivity. Qed.

Lemma place_items_not_null fault now oid cart :
  forall op tx tx',
    Forall (fun p => product_not_null p = true) (products tx) ->
    place_items fault op now oid cart tx = Ok tx' ->
    Forall (fun p => product_not_null p = true) (products tx').
Proof.
  induction cart as [|[k q] cart IH]; intros op tx tx' Hall H.
  - now injection H as <-.
  - rewrite place_items_cons in H.
    destruct (py_int (PStr k)) as [pid|]; simpl in H; [|discriminate].
    destruct (get_product pid (products tx)) as [p|] eqn:Hp; [|discriminate].
    destruct (fails fault op); [discriminate|].
    destruct (item_fits _ _); cbn [negb] in H; [|discriminate].
    eapply IH; [|exact H]. cbn [products].
    apply Forall_put_product; [exact Hall|].
    rewrite product_not_null_decrement.
    rewrite Forall_forall in Hall. apply Hall. eapply get_product_In; eauto.
Qed.

Lemma wf_checkout fault now data w :
  wf w -> wf (snd (serve (checkout fault now data) w)).
Proof.
  intros Hw. rewrite checkout_run.
  destruct (Session.user_id (session w)) as [u|]; [|exact Hw].
  destruct (stored_cart (session w)) as [|kv cart'] eqn:Hcart;
    [now apply wf_touched|].
  rewrite <- Hcart.
  destruct (negb (truthy _)); [exact Hw|].
  destruct (check_stock _ _) as [[k|]|e]; [exact Hw| |exact Hw].
  destruct (cart_sum _ _ _) as [total|e]; [|exact Hw].
  destruct (stored_order _) as [order|e]; [|exact Hw].
  destruct (write_phase _ _ _ _ _) as [tx|e] eqn:Hwp; [|exact Hw].
  cbn [snd]. destruct Hw as (Hall & Hfk & Hres & _).
  pose proof (write_phase_ok _ _ _ _ _ _ Hwp)
    as (Ho & (items & Hitems & Hcov) & Hstock & _).
  unfold wf, with_cart. cbn [db session stored_cart Session.cart].
  split; [|split; [|split; [|constructor]]].
  - apply write_phase_place in Hwp.
    eapply place_items_not_null; [|exact Hwp]. exact Hall.
  - unfold orders_fk in *. rewrite Hitems, Ho. apply Forall_app. split.
    + eapply Forall_impl; [|exact Hfk].
      intros it [o Hit]. eapply get_order_app; eauto.
    + apply Forall_forall. intros it Hin.
      destruct (Forall2_In_r _ _ _ _ Hcov Hin) as [kv0 [_ (pid & p & _ & _ & Hoid & _)]].
      rewrite Hoid. apply get_order_last.
  - unfold items_resolved in *. rewrite Hitems. apply Forall_app.
    assert (Hkeep : forall pid p, get_product pid (products (db w)) = Some p ->
                                  exists p', get_product pid (products tx) = Some p').
    { intros pid p Hp. specialize (Hstock pid). rewrite Hp in Hstock.
      destruct Hstock as [p' [Hp' _]]. eauto. }
    split.
    + eapply Forall_impl; [|exact Hres]. intros it [p Hit]. eauto.
    + apply Forall_forall. intros it Hin.
      destruct (Forall2_In_r _ _ _ _ Hcov Hin)
        as [kv0 [_ (pid & p & _ & Hp & _ & Hpid & _)]].
      rewrite Hpid. eauto.
Qed.

(** Every request keeps the invariant. *)
Lemma wf_serve (req : request) (w : world) :
  wf w -> wf (snd (serve (route req) w)).
Proof.
  intros Hw. destruct req; cbn [route].
  - now apply wf_products_POST.
  - now rewrite product_detail_GET_run.
  - now apply wf_product_detail_PUT.
  - now apply wf_product_detail_DELETE.
  - rewrite cart_GET_run. now apply wf_touched.
  - now apply wf_cart_POST.
  - now apply wf_cart_DELETE.
  - now apply wf_update_cart.
  - apply (wf_with_cart w []); [exact Hw | constructor].
  - now apply wf_checkout.
  - now rewrite get_order_detail_run.
Qed.

(** The invariant holds after [init_db] and after every sequence of
    requests from there. *)
Lemma wf_fresh (user : Z) : wf (fresh user).
Proof.
  unfold wf, fresh. cbn [db session products stored_cart Session.cart].
  split; [|split; [|split]]; repeat constructor.
Qed.

(** *** The session between two requests *)

Lemma insert_key_Forall {V : Type} (P : string * V -> Prop) kv d :
  P kv -> Forall P d -> Forall P (insert_key kv d).
Proof.
  intros Hkv. induction 1 as [|kv' d' Hkv' Hd IH]; simpl.
  - now constructor.
  - destruct (String.leb (fst kv) (fst kv')); repeat constructor; auto.
Qed.

Lemma sort_keys_Forall {V : Type} (P : string * V -> Prop) d :
  Forall P d -> Forall P (sort_keys d).
Proof.
  unfold sort_keys. induction 1 as [|kv d Hkv Hd IH]; simpl; [constructor|].
  now apply insert_key_Forall.
Qed.

Lemma insert_key_In {V : Type} (x kv : string * V) d :
  In x (insert_key kv d) <-> x = kv \/ In x d.
Proof.
  induction d as [|kv' d IH]; simpl.
  - intuition congruence.
  - destruct (String.leb (fst kv) (fst kv')); simpl; [intuition congruence|].
    rewrite IH. intuition congruence.
Qed.

Lemma sort_keys_In {V : Type} (x : string * V) d :
  In x (sort_keys d) <-> In x d.
Proof.
  unfold sort_keys. induction d as [|kv d IH]; simpl; [tauto|].
  rewrite insert_key_In, IH. intuition congruence.
Qed.

Lemma insert_key_length {V : Type} (kv : string * V) d :
  List.length (insert_key kv d) = S (List.length d).
Proof.
  induction d as [|kv' d IH]; simpl; [reflexivity|].
  destruct (String.leb (fst kv) (fst kv')); simpl; [reflexivity|].
  now rewrite IH.
Qed.

Lemma sort_keys_length {V : Type} (d : list (string * V)) :
  List.length (sort_keys d) = List.length d.
Proof.
  unfold sort_keys. induction d as [|kv d IH]; simpl; [reflexivity|].
  now rewrite insert_key_length, IH.
Qed.

Lemma db_persist (w : world) : db (persist w) = db w.
Proof. reflexivity. Qed.

Lemma user_id_persist (w : world) :
  Session.user_id (session (persist w)) = Session.user_id (session w).
Proof. reflexivity. Qed.

Lemma stored_cart_persist (w : world) :
  stored_cart (session (persist w)) = sort_keys (stored_cart (session w)).
Proof.
  unfold persist, stored_cart. cbn [session Session.cart].
  now destruct (Session.cart (session w)).
Qed.

Lemma wf_persist (w : world) : wf w -> wf (persist w).
Proof.
  unfold wf. rewrite db_persist, stored_cart_persist.
  intros (H1 & H2 & H3 & H4). repeat split; auto.
  now apply sort_keys_Forall.
Qed.

Lemma wf_run (reqs : list request) (w : world) : wf w -> wf (run reqs w).
Proof.
  revert w. induction reqs as [|req reqs IH]; intros w Hw; [exact Hw|].
  simpl. apply IH. now apply wf_persist, wf_serve.
Qed.

Lemma wf_reachable (reqs : list request) (user : Z) : wf (run reqs (fresh user)).
Proof.
  apply wf_run, wf_fresh.
Qed.

(* ================================================================== *)
(** * Further properties *)
(* ================================================================== *)

(** ** Registration and login *)

Lemma site_serve_shop (h : M response) (s : Site.t) :
  (let (r, s') := on_shop h s in (handle_exception r, s')) =
  (fst (serve h (Site.shop s)),
   Site.mk (Site.users s) (Site.username s) (snd (serve h (Site.shop s)))).
Proof.
  unfold on_shop, serve. destruct (h (Site.shop s)) as [r w]. reflexivity.
Qed.

Lemma site_serve_on_shop (req : site_request) (h : M response) (s : Site.t) :
  site_route req = on_shop h ->
  site_serve req s =
  (fst (serve h (Site.shop s)),
   Site.mk (Site.users s) (Site.username s) (snd (serve h (Site.shop s)))).
Proof.
  intros Hreq. unfold site_serve. rewrite Hreq. apply site_serve_shop.
Qed.

Lemma next_id_fresh (ids : list Z) : ~ In (next_id ids) ids.
Proof.
  intros Hin. apply le_max_ids in Hin. unfold next_id in Hin. lia.
Qed.

Lemma NoDup_snoc {A : Type} (l : list A) (x : A) :
  NoDup l -> ~ In x l -> NoDup (l ++ [x]).
Proof.
  intros Hl Hx. induction Hl as [|y l Hy Hl IH]; simpl.
  - constructor; [intros []|constructor].
  - constructor.
    + rewrite in_app_iff. intros [Hin|[->|[]]]; [contradiction|].
      apply Hx. now left.
    + apply IH. intros Hin. apply Hx. now right.
Qed.

(** No row has the value of a column that [filter_by] did not find. *)
Lemma column_free (f : User.t -> string) (v : string) (us : list User.t) :
  find (fun u => column_is (Some v) (f u)) us = None -> ~ In v (map f us).
Proof.
  intros Hnone Hin. apply in_map_iff in Hin. destruct Hin as [u [Hu Hin]].
  pose proof (find_none _ _ Hnone u Hin) as Hf. simpl in Hf.
  rewrite Hu, String.eqb_refl in Hf. discriminate.
Qed.

Lemma column_taken (f : User.t -> string) (u : User.t) (us : list User.t) :
  In u us -> exists u', find (fun x => column_is (Some (f u)) (f x)) us = Some u'.
Proof.
  intros Hin.
  destruct (find (fun x => column_is (Some (f u)) (f x)) us) as [u'|] eqn:Hfind;
    [eauto|].
  exfalso. eapply column_free; [exact Hfind|]. now apply in_map.
Qed.

(** After the two lookups of [register] the unique constraints hold. *)
Lemma insert_user_checked now u e p us :
  find (fun x => column_is (Some u) (User.username x)) us = None ->
  find (fun x => column_is (Some e) (User.email x)) us = None ->
  insert_user now (Some u) (Some e) (Some p) us
  = Ok (us ++ [User.mk (next_id (map User.id us)) u e p now]).
Proof.
  intros Hu He. unfold insert_user.
  destruct (existsb _ us) eqn:Hex; [|reflexivity].
  apply existsb_exists in Hex. destruct Hex as [x [Hin Hx]].
  apply orb_true_iff in Hx. destruct Hx as [Hx|Hx].
  - pose proof (find_none _ _ Hu x Hin) as Hf. simpl in Hf. congruence.
  - pose proof (find_none _ _ He x Hin) as Hf. simpl in Hf. congruence.
Qed.

Lemma register_POST_run (now : Z) (data : list (string * string)) (s : Site.t) :
  let username := dict_get "username" data in
  let email := dict_get "email" data in
  let password := dict_get "password" data in
  site_serve (Register now data) s =
  match find (fun u => column_is username (User.username u)) (Site.users s) with
  | Some _ => (error "Username already exists" 400, s)
  | None =>
      match find (fun u => column_is email (User.email u)) (Site.users s) with
      | Some _ => (error "Email already exists" 400, s)
      | None =>
          match insert_user now username email password (Site.users s) with
          | Raise e => (handle_exception (Raise e), s)
          | Ok users =>
              (Json (JDict [("message"%string, jstr "Registration successful")])
                 201,
               Site.mk users (Site.username s) (Site.shop s))
          end
      end
  end.
Proof.
  intros username email password. subst username email password.
  unfold site_serve. cbn [site_route]. unfold register_POST.
  destruct (find _ _); [reflexivity|].
  destruct (find _ _); [reflexivity|].
  destruct (insert_user _ _ _ _ _); reflexivity.
Qed.

Lemma login_POST_run (data : list (string * string)) (s : Site.t) :
  site_serve (Login data) s =
  match find (fun u => column_is (dict_get "username" data) (User.username u)
                       && column_is (dict_get "password" data) (User.password u))
             (Site.users s) with
  | Some user =>
      (Json (JDict [("message"%string, jstr "Login successful");
                    ("user_id"%string, jint (User.id user))]) 200,
       logged_in user s)
  | None => (error "Invalid credentials" 401, s)
  end.
Proof.
  unfold site_serve. cbn [site_route]. unfold login_POST, logged_in.
  destruct (find _ _); reflexivity.
Qed.

(** X1. Registration: a user name that is taken is answered 400, and so is
    an e-mail address that is taken; the two lookups leave nothing for
    the unique constraints to reject, so a request with its three fields
    is never answered 500; a registration answered 201 has appended one
    user with the fields of the request and a new key, and has changed
    nothing else; any other answer leaves the site as it was. *)
Theorem register_POST_outcomes (now : Z) (data : list (string * string))
    (s : Site.t) :
  let r := site_serve (Register now data) s in
  (forall u, In u (Site.users s) ->
             dict_get "username" data = Some (User.username u) ->
             fst r = error "Username already exists" 400) /\
  (forall u, In u (Site.users s) ->
             dict_get "email" data = Some (User.email u) ->
             status (fst r) = 400) /\
  (status (fst r) = 500 ->
   dict_get "username" data = None \/ dict_get "email" data = None \/
   dict_get "password" data = None) /\
  (status (fst r) = 201 ->
   exists user,
     snd r = Site.mk (Site.users s ++ [user]) (Site.username s) (Site.shop s) /\
     dict_get "username" data = Some (User.username user) /\
     dict_get "email" data = Some (User.email user) /\
     dict_get "password" data = Some (User.password user) /\
     User.created_at user = now /\
     ~ In (User.id user) (map User.id (Site.users s)) /\
     ~ In (User.username user) (map User.username (Site.users s)) /\
     ~ In (User.email user) (map User.email (Site.users s))) /\
  (status (fst r) <> 201 -> snd r = s).
Proof.
  intros r. subst r. rewrite register_POST_run. cbv zeta.
  split; [|split; [|split; [|split]]].
  - intros u Hin Hu. rewrite Hu.
    destruct (column_taken User.username u _ Hin) as [u' Hu']. now rewrite Hu'.
  - intros u Hin Hu. rewrite Hu.
    destruct (column_taken User.email u _ Hin) as [u' Hu']. rewrite Hu'.
    clear Hu'. now destruct (find _ _).
  - destruct (find _ _) eqn:Hname; [discriminate|].
    destruct (find (fun u => column_is (dict_get "email" data) _) _) eqn:Hmail;
      [discriminate|].
    destruct (dict_get "username" data) as [u|]; [|auto].
    destruct (dict_get "email" data) as [e|]; [|auto].
    destruct (dict_get "password" data) as [p|]; [|auto].
    rewrite insert_user_checked by assumption. discriminate.
  - destruct (find _ _) eqn:Hname; [discriminate|].
    destruct (find (fun u => column_is (dict_get "email" data) _) _) eqn:Hmail;
      [discriminate|].
    destruct (insert_user _ _ _ _ _) as [users|e] eqn:Hins;
      [|intros H; now apply status_handle_raise in H].
    intros _. unfold insert_user in Hins.
    destruct (dict_get "username" data) as [u|]; [|discriminate].
    destruct (dict_get "email" data) as [e|]; [|discriminate].
    destruct (dict_get "password" data) as [p|]; [|discriminate].
    destruct (existsb _ _); [discriminate|]. injection Hins as <-.
    eexists. split; [reflexivity|].
    cbn [User.username User.email User.password User.created_at User.id].
    repeat split.
    + apply next_id_fresh.
    + now apply column_free.
    + now apply column_free.
  - destruct (find _ _); [reflexivity|].
    destruct (find _ _); [reflexivity|].
    destruct (insert_user _ _ _ _ _); [|reflexivity].
    intros H. now contradiction H.
Qed.

Lemma register_POST_outcomes_witness :
  let s := Site.mk [alice] None shopper in
  fst (site_serve (Register 5 alice_form) s) = error "Username already exists" 400 /\
  snd (site_serve (Register 5 alice_form) s) = s.
Proof.
  intros s.
  destruct (register_POST_outcomes 5 alice_form s) as (Hname & _ & _ & _ & Hkeep).
  split.
  - apply (Hname alice); [now left | reflexivity].
  - apply Hkeep. rewrite (Hname alice); [discriminate | now left | reflexivity].
Defined.

Lemma find_snoc {A : Type} (f : A -> bool) (l : list A) (x : A) :
  find f (l ++ [x]) =
  match find f l with
  | Some y => Some y
  | None => if f x then Some x else None
  end.
Proof.
  induction l as [|y l IH]; simpl; [reflexivity|].
  destruct (f y); [reflexivity | exact IH].
Qed.

Lemma NoDup_map_inj {A B : Type} (f : A -> B) (l : list A) (x y : A) :
  NoDup (map f l) -> In x l -> In y l -> f x = f y -> x = y.
Proof.
  induction l as [|z l IH]; simpl; [contradiction|].
  intros Hnd [->|Hx] [->|Hy] Heq; inversion Hnd as [|? ? Hz Hnd']; subst.
  - reflexivity.
  - exfalso. apply Hz. rewrite Heq. now apply in_map.
  - exfalso. apply Hz. rewrite <- Heq. now apply in_map.
  - now apply IH.
Qed.

Lemma find_credentials (data : list (string * string)) (us : list User.t)
    (user : User.t) :
  find (fun u => column_is (dict_get "username" data) (User.username u)
                 && column_is (dict_get "password" data) (User.password u)) us
  = Some user ->
  In user us /\ credentials_of user data.
Proof.
  intros Hfind. apply find_some in Hfind. destruct Hfind as [Hin Hf].
  apply andb_true_iff in Hf. destruct Hf as [Hu Hp].
  split; [exact Hin|]. unfold credentials_of, column_is in *.
  destruct (dict_get "username" data) as [u|]; [|discriminate].
  destruct (dict_get "password" data) as [p|]; [|discriminate].
  apply String.eqb_eq in Hu, Hp. now subst.
Qed.

(** X2. Login: a request is answered 200 exactly when a user of the table
    has its user name and its password; the session is then logged in as
    a user with these credentials, who is that user when user names are
    unique, and keeps its cart; any other request is answered 401 and
    leaves the session as it was, a session that is logged in included. *)
Theorem login_POST_outcomes (data : list (string * string)) (s : Site.t) :
  let r := site_serve (Login data) s in
  (status (fst r) = 200 ->
   exists user,
     In user (Site.users s) /\ credentials_of user data /\
     fst r = Json (JDict [("message"%string, jstr "Login successful");
                          ("user_id"%string, jint (User.id user))]) 200 /\
     snd r = logged_in user s) /\
  (status (fst r) <> 200 ->
   fst r = error "Invalid credentials" 401 /\ snd r = s) /\
  (forall user,
      In user (Site.users s) -> credentials_of user data ->
      status (fst r) = 200 /\
      (NoDup (map User.username (Site.users s)) -> snd r = logged_in user s)).
Proof.
  intros r. subst r. rewrite login_POST_run.
  split; [|split].
  - destruct (find _ _) as [user|] eqn:Hfind; [|discriminate].
    intros _. apply find_credentials in Hfind. destruct Hfind as [Hin Hcred].
    exists user. auto.
  - destruct (find _ _) as [user|]; [|now split].
    intros H. now contradiction H.
  - intros user Hin [Hu Hp].
    destruct (find _ _) as [user'|] eqn:Hfind.
    + split; [reflexivity|]. intros Hnd. cbn [snd].
      apply find_credentials in Hfind. destruct Hfind as [Hin' [Hu' _]].
      replace user' with user; [reflexivity|].
      apply (NoDup_map_inj User.username (Site.users s)); auto. congruence.
    + exfalso. pose proof (find_none _ _ Hfind user Hin) as Hf. simpl in Hf.
      rewrite Hu, Hp in Hf. simpl in Hf. now rewrite !String.eqb_refl in Hf.
Qed.

Lemma login_POST_outcomes_witness :
  let s := Site.mk [alice] None shopper in
  status (fst (site_serve (Login alice_form) s)) = 200 /\
  snd (site_serve (Login alice_form) s) = logged_in alice s.
Proof.
  intros s.
  destruct (login_POST_outcomes alice_form s) as (_ & _ & H).
  destruct (H alice) as [H200 Hs].
  - now left.
  - split; reflexivity.
  - split; [exact H200|]. apply Hs. repeat constructor. intros [].
Defined.

(** X3. A user who has just registered can log in: after a registration
    answered 201, a login with the same user name and password is
    answered 200 with the key of the new user, and the session is logged
    in as that user. *)
Theorem register_then_login (now : Z) (data data' : list (string * string))
    (s : Site.t) :
  let r := site_serve (Register now data) s in
  status (fst r) = 201 ->
  dict_get "username" data' = dict_get "username" data ->
  dict_get "password" data' = dict_get "password" data ->
  exists user,
    Site.users (snd r) = Site.users s ++ [user] /\
    site_serve (Login data') (snd r) =
    (Json (JDict [("message"%string, jstr "Login successful");
                  ("user_id"%string, jint (User.id user))]) 200,
     logged_in user (snd r)) /\
    Session.user_id (session (Site.shop (logged_in user (snd r))))
      = Some (User.id user).
Proof.
  intros r H201 Hu Hp. subst r. revert H201.
  rewrite register_POST_run. cbv zeta.
  destruct (find _ _) eqn:Hname; [discriminate|].
  destruct (find (fun u => column_is (dict_get "email" data) _) _) eqn:Hmail;
    [discriminate|].
  destruct (insert_user _ _ _ _ _) as [users|e] eqn:Hins;
    [|intros H; now apply status_handle_raise in H].
  intros _. unfold insert_user in Hins.
  destruct (dict_get "username" data) as [u|]; [|discriminate].
  destruct (dict_get "email" data) as [e|]; [|discriminate].
  destruct (dict_get "password" data) as [p|]; [|discriminate].
  destruct (existsb _ _); [discriminate|]. injection Hins as <-.
  eexists. cbn [snd Site.users]. split; [reflexivity|]. split; [|reflexivity].
  rewrite login_POST_run. cbn [Site.users]. rewrite Hu, Hp, find_snoc.
  assert (Hold : find (fun x => column_is (Some u) (User.username x)
                                && column_is (Some p) (User.password x))
                   (Site.users s) = None).
  { destruct (find (fun x => _ && _) _) as [x|] eqn:Hfind; [|reflexivity].
    apply find_some in Hfind. destruct Hfind as [Hin Hx].
    apply andb_true_iff in Hx. destruct Hx as [Hx _].
    pose proof (find_none _ _ Hname x Hin) as Hf. cbv beta in Hf. congruence. }
  rewrite Hold. simpl. now rewrite !String.eqb_refl.
Qed.

Lemma register_then_login_witness :
  let s := Site.mk [] None guest_empty in
  exists user,
    Site.users (snd (site_serve (Register 5 alice_form) s)) = [] ++ [user] /\
    site_serve (Login alice_form) (snd (site_serve (Register 5 alice_form) s)) =
    (Json (JDict [("message"%string, jstr "Login successful");
                  ("user_id"%string, jint (User.id user))]) 200,
     logged_in user (snd (site_serve (Register 5 alice_form) s))) /\
    Session.user_id
      (session (Site.shop
                  (logged_in user (snd (site_serve (Register 5 alice_form) s)))))
      = Some (User.id user).
Proof.
  exact (register_then_login 5 alice_form alice_form (Site.mk [] None guest_empty)
           eq_refl eq_refl eq_refl).
Defined.

(** X4. Logout answers with a redirect to the home page, forgets the user
    and the cart, and leaves the tables alone; from then on checkout,
    the list of orders and the order detail all answer with a redirect to
    the login page and change nothing. *)
Theorem logout_ends_session (s : Site.t) :
  let r := site_serve Logout s in
  fst r = Redirect "/" /\
  Site.users (snd r) = Site.users s /\
  db (Site.shop (snd r)) = db (Site.shop s) /\
  Site.username (snd r) = None /\
  Session.user_id (session (Site.shop (snd r))) = None /\
  stored_cart (session (Site.shop (snd r))) = [] /\
  (forall fault now data,
      site_serve (Shop (Checkout fault now data)) (snd r)
      = (Redirect "/login", snd r)) /\
  site_serve OrdersGET (snd r) = (Redirect "/login", snd r) /\
  (forall order_id,
      site_serve (Shop (OrderDetail order_id)) (snd r)
      = (Redirect "/login", snd r)).
Proof.
  cbv zeta. repeat (split; [reflexivity|]). intros order_id. reflexivity.
Qed.

(** ** What a request can change *)

#[local] Arguments order_summaries : simpl never.
#[local] Arguments item_summaries : simpl never.

Lemma products_GET_run (category : option string) (w : world) :
  serve (products_GET category) w =
  (listing match category with
           | Some c =>
               if truthy (PStr c) then filter (has_category c) (products (db w))
               else products (db w)
           | None => products (db w)
           end, w).
Proof.
  destruct w as [t s]. reflexivity.
Qed.

Lemma get_orders_run (w : world) :
  serve get_orders w =
  (match Session.user_id (session w) with
   | None => Redirect "/login"
   | Some u =>
       handle_exception
         (rbind (order_summaries (db w) (filter (owned u) (orders (db w))))
            (fun rows => Ok (Json (JList rows) 200)))
   end, w).
Proof.
  destruct w as [t [u c m]].
  unfold get_orders, get_orders_body, owned. step_handler.
  destruct u as [u|]; simpl; [|reflexivity].
  destruct (order_summaries _ _); reflexivity.
Qed.

Lemma user_id_touched (w : world) :
  Session.user_id (session (touched w)) = Session.user_id (session w).
Proof.
  destruct w as [t [u [c|] m]]; reflexivity.
Qed.

(** The outcomes of a checkout request: the world as it was (but for an
    absent cart made empty) and an answer other than 200 and 201, or the
    commit of a write phase. *)
Lemma checkout_outcome fault now data w :
  let r := serve (checkout fault now data) w in
  ((snd r = w \/ snd r = touched w) /\
   status (fst r) <> 200 /\ status (fst r) <> 201) \/
  (exists u total order tx,
      Session.user_id (session w) = Some u /\
      stored_cart (session w) <> [] /\
      cart_sum (products (db w)) (stored_cart (session w)) (NInt 0) = Ok total /\
      stored_order (new_order now w data (py_round total)) = Ok order /\
      write_phase fault now order (stored_cart (session w)) (db w) = Ok tx /\
      r = (handle_exception
             (rbind (item_rows (products tx) (items_of (Order.id order) tx))
                (fun items => Ok (order_placed order items))),
           with_cart (mk_world tx (session w)) [])).
Proof.
  cbv zeta. rewrite checkout_run.
  destruct (Session.user_id (session w)) as [u|];
    [|left; split; [now left | split; discriminate]].
  destruct (stored_cart (session w)) as [|kv cart'] eqn:Hcart;
    [left; split; [now right | split; discriminate]|].
  destruct (negb (truthy _));
    [left; split; [now left | split; discriminate]|].
  destruct (check_stock _ _) as [[k|]|e];
    [left; split; [now left | split; discriminate]|
    |left; split; [now left | split; now apply status_handle_raise]].
  destruct (cart_sum _ _ _) as [total|e] eqn:Hsum;
    [|left; split; [now left | split; now apply status_handle_raise]].
  destruct (stored_order _) as [order|e] eqn:Hstored;
    [|left; split; [now left | split; now apply status_handle_raise]].
  destruct (write_phase _ _ _ _ _) as [tx|e] eqn:Hw;
    [|left; split; [now left | split; now apply status_handle_raise]].
  right. exists u, total, order, tx. repeat split; auto. discriminate.
Qed.

(** The answer of a checkout that has committed, when the line items of
    the tables refer to orders of the tables. *)
Lemma checkout_committed fault now data w total order tx :
  stored_order (new_order now w data (py_round total)) = Ok order ->
  orders_fk (db w) ->
  write_phase fault now order (stored_cart (session w)) (db w) = Ok tx ->
  exists rows,
    item_rows (products tx) (items_of (Order.id order) tx) = Ok rows /\
    List.length rows = List.length (stored_cart (session w)).
Proof.
  intros Hstored Hfk Hw.
  exact (checkout_rows fault now order _ (db w) tx
           (proj1 (stored_order_fields _ _ Hstored)) Hfk Hw).
Qed.

(** What a request of the shop does to the session user, the orders and
    the line items: the user stays, and the two tables stay as well unless
    a checkout appends one order of the session user and its items. *)
Lemma route_effects (req : request) (w : world) :
  let w' := snd (serve (route req) w) in
  Session.user_id (session w') = Session.user_id (session w) /\
  ((orders (db w') = orders (db w) /\ order_items (db w') = order_items (db w)) \/
   (exists order items u,
       orders (db w') = orders (db w) ++ [order] /\
       order_items (db w') = order_items (db w) ++ items /\
       Order.user_id order = Some u /\
       Session.user_id (session w) = Some u /\
       exists fault now data, req = Checkout fault now data)).
Proof.
  cbv zeta. destruct req; cbn [route].
  - destruct (products_POST_outcome now data w)
      as [[H _]|(name & price_in & category & price & stock & product & _ & _
                 & _ & _ & _ & _ & _ & _ & H)];
      cbv zeta in H; rewrite H; now split; [|left].
  - rewrite product_detail_GET_run. now split; [|left].
  - destruct (product_detail_PUT_outcome now product_id data w)
      as [[H _]|(p & price & stock & p' & _ & _ & _ & _ & _ & _ & H)];
      cbv zeta in H; rewrite H; now split; [|left].
  - rewrite product_detail_DELETE_run.
    destruct (in_int64 _); [|now split; [|left]].
    destruct (get_product _ _); [|now split; [|left]].
    unfold delete_product. destruct (existsb _ _); now split; [|left].
  - rewrite cart_GET_run. cbn [snd]. rewrite user_id_touched, db_touched.
    now split; [|left].
  - split; [|left; now rewrite cart_POST_db].
    rewrite cart_POST_run.
    destruct (py_int (dict_get_default _ _ _)); [|reflexivity].
    destruct (py_int (PStr _)); [|reflexivity].
    destruct (in_int64 _); [|reflexivity].
    destruct (get_product _ _); [|reflexivity].
    now destruct (Product.stock _ <? _).
  - split; [|left; now rewrite cart_DELETE_db].
    rewrite cart_DELETE_run. cbn [snd].
    destruct (dict_mem _ _); [reflexivity | apply user_id_touched].
  - split; [|left; now rewrite update_cart_db].
    rewrite update_cart_run.
    destruct (py_int (dict_get_default _ _ _)); [|reflexivity].
    destruct (negb _); [apply user_id_touched|].
    destruct (_ <=? 0); [reflexivity|].
    destruct (py_int (PStr _)); [|apply user_id_touched].
    destruct (in_int64 _); [|apply user_id_touched].
    destruct (get_product _ _); [|apply user_id_touched].
    destruct (Product.stock _ <? _); [apply user_id_touched | reflexivity].
  - now split; [|left].
  - destruct (checkout_outcome fault now data w)
      as [[[Hw|Hw] _]|(u & total & order & tx & Hu & _ & _ & Hstored & Hwp & Hr)].
    + rewrite Hw. now split; [|left].
    + rewrite Hw, user_id_touched, db_touched. now split; [|left].
    + cbv zeta in Hr. rewrite Hr. cbn [snd with_cart db session Session.user_id].
      split; [reflexivity|]. right.
      pose proof (write_phase_ok _ _ _ _ _ _ Hwp) as (Ho & (items & Hitems & _) & _).
      pose proof (stored_order_fields _ _ Hstored) as (Hid & Huser & _).
      cbn [new_order Order.id Order.user_id] in Hid, Huser.
      exists order, items, u.
      repeat split; eauto; congruence.
  - rewrite get_order_detail_run. now split; [|left].
Qed.

Lemma site_serve_Shop (req : request) (s : Site.t) :
  site_serve (Shop req) s =
  (fst (serve (route req) (Site.shop s)),
   Site.mk (Site.users s) (Site.username s) (snd (serve (route req) (Site.shop s)))).
Proof. now apply site_serve_on_shop. Qed.

Lemma site_serve_ProductsGET (category : option string) (s : Site.t) :
  site_serve (ProductsGET category) s =
  (fst (serve (products_GET category) (Site.shop s)), s).
Proof.
  rewrite (site_serve_on_shop _ (products_GET category)) by reflexivity.
  rewrite products_GET_run. now destruct s.
Qed.

Lemma site_serve_OrdersGET (s : Site.t) :
  site_serve OrdersGET s = (fst (serve get_orders (Site.shop s)), s).
Proof.
  rewrite (site_serve_on_shop _ get_orders) by reflexivity.
  rewrite get_orders_run. now destruct s.
Qed.

Lemma site_serve_Home (s : Site.t) :
  site_serve Home s = (fst (serve home (Site.shop s)), s).
Proof.
  rewrite (site_serve_on_shop _ home) by reflexivity. now destruct s as [us n [t c]].
Qed.

(** What a request of the site does to the three tables that only grow. *)
Lemma site_effects (req : site_request) (s : Site.t) :
  let s' := snd (site_serve req s) in
  (exists us, Site.users s' = Site.users s ++ us) /\
  (exists os, orders (db (Site.shop s')) = orders (db (Site.shop s)) ++ os) /\
  (exists its,
      order_items (db (Site.shop s')) = order_items (db (Site.shop s)) ++ its).
Proof.
  assert (Hsame : forall s' : Site.t,
             Site.users s' = Site.users s ->
             db (Site.shop s') = db (Site.shop s) ->
             (exists us, Site.users s' = Site.users s ++ us) /\
             (exists os, orders (db (Site.shop s'))
                         = orders (db (Site.shop s)) ++ os) /\
             (exists its, order_items (db (Site.shop s'))
                          = order_items (db (Site.shop s)) ++ its)).
  { intros s' -> ->. repeat split; exists []; now rewrite app_nil_r. }
  cbv zeta. destruct req.
  - now apply Hsame.
  - rewrite register_POST_run. cbv zeta.
    destruct (find _ _); [now apply Hsame|].
    destruct (find _ _); [now apply Hsame|].
    destruct (insert_user _ _ _ _ _) as [users|e] eqn:Hins; [|now apply Hsame].
    cbn [snd Site.users Site.shop]. split; [|split].
    + unfold insert_user in Hins.
      destruct (dict_get "username" data); [|discriminate].
      destruct (dict_get "email" data); [|discriminate].
      destruct (dict_get "password" data); [|discriminate].
      destruct (existsb _ _); [discriminate|]. injection Hins as <-. eauto.
    + exists []. now rewrite app_nil_r.
    + exists []. now rewrite app_nil_r.
  - now apply Hsame.
  - rewrite login_POST_run. destruct (find _ _); now apply Hsame.
  - now apply Hsame.
  - rewrite site_serve_ProductsGET. now apply Hsame.
  - rewrite site_serve_OrdersGET. now apply Hsame.
  - rewrite site_serve_Shop. cbn [snd Site.users Site.shop].
    split; [exists []; now rewrite app_nil_r|].
    destruct (route_effects req (Site.shop s))
      as [_ [[Ho Hi]|(order & items & u & Ho & Hi & _)]]; rewrite Ho, Hi.
    + split; exists []; now rewrite app_nil_r.
    + eauto.
  - rewrite site_serve_Home. now apply Hsame.
Qed.

(** X5. The users, the orders and the line items are only ever appended
    to: after any sequence of requests the three tables start with the
    rows they had, unchanged and in the same order.  In particular the
    price recorded on a line item survives every later change of the
    product. *)
Theorem history_append_only (reqs : list site_request) (s : Site.t) :
  let s' := site_run reqs s in
  (exists us, Site.users s' = Site.users s ++ us) /\
  (exists os, orders (db (Site.shop s')) = orders (db (Site.shop s)) ++ os) /\
  (exists its,
      order_items (db (Site.shop s')) = order_items (db (Site.shop s)) ++ its).
Proof.
  cbv zeta. revert s. induction reqs as [|req reqs IH]; intros s.
  - repeat split; exists []; now rewrite app_nil_r.
  - cbn [site_run].
    destruct (IH (site_persist (snd (site_serve req s))))
      as ([us Hu] & [os Ho] & [its Hi]).
    cbn [site_persist Site.users Site.shop persist db] in Hu, Ho, Hi.
    destruct (site_effects req s) as ([us0 Hu0] & [os0 Ho0] & [its0 Hi0]).
    rewrite Hu, Ho, Hi, Hu0, Ho0, Hi0, <- !app_assoc.
    repeat split; eexists; reflexivity.
Qed.

(** A request of the shop that is answered neither 200 nor 201 has
    written nothing to the tables. *)
Lemma route_failure (req : request) (w : world) :
  let r := serve (route req) w in
  orders_fk (db w) ->
  status (fst r) <> 200 -> status (fst r) <> 201 ->
  db (snd r) = db w.
Proof.
  cbv zeta. intros Hfk. destruct req; cbn [route].
  - destruct (products_POST_outcome now data w)
      as [[H _]|(name & price_in & category & price & stock & product & _ & _
                 & _ & _ & _ & _ & _ & _ & H)];
      cbv zeta in H; rewrite H; [reflexivity|].
    intros _ H'. now contradiction H'.
  - now rewrite product_detail_GET_run.
  - destruct (product_detail_PUT_outcome now product_id data w)
      as [[H _]|(p & price & stock & p' & _ & _ & _ & _ & _ & _ & H)];
      cbv zeta in H; rewrite H; [reflexivity|].
    intros H'. now contradiction H'.
  - rewrite product_detail_DELETE_run.
    destruct (in_int64 _); [|reflexivity].
    destruct (get_product _ _); [|reflexivity].
    destruct (delete_product _ _); [|reflexivity].
    intros H. now contradiction H.
  - intros _ _. apply cart_GET_db.
  - intros _ _. apply cart_POST_db.
  - intros _ _. apply cart_DELETE_db.
  - intros _ _. apply update_cart_db.
  - reflexivity.
  - destruct (checkout_outcome fault now data w)
      as [[[Hw|Hw] _]|(u & total & order & tx & _ & _ & _ & Hstored & Hwp & Hr)].
    + now rewrite Hw.
    + intros _ _. rewrite Hw. apply db_touched.
    + cbv zeta in Hr. rewrite Hr.
      destruct (checkout_committed fault now data w total order tx Hstored Hfk Hwp)
        as [rows [Hrows _]].
      rewrite Hrows. intros _ H. now contradiction H.
  - now rewrite get_order_detail_run.
Qed.

(** X6. A request that is answered neither 200 nor 201 has written
    nothing: the users and the tables of the shop are as they were.  For
    checkout this needs the line items of the tables to refer to orders
    of the tables. *)
Theorem failures_write_nothing (req : site_request) (s : Site.t) :
  let r := site_serve req s in
  orders_fk (db (Site.shop s)) ->
  status (fst r) <> 200 -> status (fst r) <> 201 ->
  Site.users (snd r) = Site.users s /\ db (Site.shop (snd r)) = db (Site.shop s).
Proof.
  cbv zeta. intros Hfk. destruct req.
  - now split.
  - rewrite register_POST_run. cbv zeta.
    destruct (find _ _); [now split|].
    destruct (find _ _); [now split|].
    destruct (insert_user _ _ _ _ _); [|now split].
    intros _ H. now contradiction H.
  - now split.
  - rewrite login_POST_run. destruct (find _ _); now split.
  - now split.
  - rewrite site_serve_ProductsGET. now split.
  - rewrite site_serve_OrdersGET. now split.
  - rewrite site_serve_Shop. cbn [fst snd Site.users Site.shop].
    intros H200 H201. split; [reflexivity|]. now apply route_failure.
  - rewrite site_serve_Home. now split.
Qed.

(** A checkout whose second line item is rejected by the storage engine. *)
Lemma failures_write_nothing_witness :
  let s := Site.mk [alice] None shopper in
  let r := site_serve (Shop (Checkout (Some 2%nat) 100 main_street)) s in
  Site.users (snd r) = Site.users s /\ db (Site.shop (snd r)) = db (Site.shop s).
Proof.
  apply (failures_write_nothing (Shop (Checkout (Some 2%nat) 100 main_street))
           (Site.mk [alice] None shopper)).
  - constructor.
  - vm_compute. discriminate.
  - vm_compute. discriminate.
Defined.

(** ** The invariant of the site *)

Lemma registered_app (us us' : list User.t) (uid : Z) :
  registered us uid -> registered (us ++ us') uid.
Proof.
  intros [user [Hin Hid]]. exists user. split; [|exact Hid].
  apply in_or_app. now left.
Qed.

Lemma site_wf_register now data s :
  site_wf s -> site_wf (snd (site_serve (Register now data) s)).
Proof.
  intros Hs. rewrite register_POST_run. cbv zeta.
  destruct (find _ _) eqn:Hname; [exact Hs|].
  destruct (find (fun u => column_is (dict_get "email" data) _) _) eqn:Hmail;
    [exact Hs|].
  destruct (insert_user _ _ _ _ _) as [users|e] eqn:Hins; [|exact Hs].
  unfold insert_user in Hins.
  destruct (dict_get "username" data) as [u|]; [|discriminate].
  destruct (dict_get "email" data) as [e|]; [|discriminate].
  destruct (dict_get "password" data) as [p|]; [|discriminate].
  destruct (existsb _ _); [discriminate|]. injection Hins as <-.
  destruct Hs as (Hwf & (Hid & Hun & Hem) & Hsess & Hown).
  cbn [snd]. unfold site_wf, users_unique, session_of_user, orders_owned.
  cbn [Site.users Site.username Site.shop].
  split; [exact Hwf|]. split; [|split].
  - rewrite !map_app. cbn [map User.id User.username User.email].
    split; [|split]; apply NoDup_snoc; auto.
    + apply next_id_fresh.
    + now apply column_free.
    + now apply column_free.
  - intros uid Huid. destruct (Hsess uid Huid) as (user & Hin & Hu & Hn).
    exists user. split; [apply in_or_app; now left | auto].
  - eapply Forall_impl; [|exact Hown].
    intros o (uid & Ho & Hreg). exists uid. split; [exact Ho|].
    now apply registered_app.
Qed.

Lemma site_wf_login data s : site_wf s -> site_wf (snd (site_serve (Login data) s)).
Proof.
  intros Hs. rewrite login_POST_run.
  destruct (find _ _) as [user|] eqn:Hfind; [|exact Hs].
  apply find_credentials in Hfind. destruct Hfind as [Hin _].
  destruct Hs as ((Hp & Hfk & Hres & Hcart) & Huniq & Hsess & Hown).
  cbn [snd]. unfold site_wf, wf, session_of_user, orders_owned, logged_in.
  cbn [Site.users Site.username Site.shop db session Session.user_id].
  split; [|split; [exact Huniq|split; [|exact Hown]]].
  - repeat split; assumption.
  - intros uid Huid. injection Huid as <-. exists user. auto.
Qed.

Lemma site_wf_logout s : site_wf s -> site_wf (snd (site_serve Logout s)).
Proof.
  intros ((Hp & Hfk & Hres & Hcart) & Huniq & Hsess & Hown).
  unfold site_serve. cbn [site_route logout snd].
  unfold site_wf, wf, session_of_user, orders_owned.
  cbn [Site.users Site.username Site.shop db session Session.user_id].
  split; [|split; [exact Huniq|split; [|exact Hown]]].
  - repeat split; try assumption. constructor.
  - discriminate.
Qed.

Lemma site_wf_shop req s : site_wf s -> site_wf (snd (site_serve (Shop req) s)).
Proof.
  intros (Hwf & Huniq & Hsess & Hown).
  rewrite site_serve_Shop. cbn [snd].
  destruct (route_effects req (Site.shop s)) as [Huser Horders].
  unfold site_wf, session_of_user, orders_owned in *.
  cbn [Site.users Site.username Site.shop].
  split; [now apply wf_serve|]. split; [exact Huniq|]. split.
  - rewrite Huser. exact Hsess.
  - destruct Horders as [[Ho _]|(order & items & u & Ho & _ & Hou & Hu & _)];
      rewrite Ho; [exact Hown|].
    apply Forall_app. split; [exact Hown|].
    constructor; [|constructor].
    destruct (Hsess u Hu) as (user & Hin & Hid & _).
    exists u. split; [exact Hou|]. now exists user.
Qed.

Lemma site_wf_serve req s : site_wf s -> site_wf (snd (site_serve req s)).
Proof.
  intros Hs. destruct req.
  - exact Hs.
  - now apply site_wf_register.
  - exact Hs.
  - now apply site_wf_login.
  - now apply site_wf_logout.
  - now rewrite site_serve_ProductsGET.
  - now rewrite site_serve_OrdersGET.
  - now apply site_wf_shop.
  - now rewrite site_serve_Home.
Qed.

Lemma site_wf_opening now : site_wf (opening now).
Proof.
  unfold site_wf, opening, wf, users_unique, session_of_user, orders_owned.
  cbn [Site.users Site.username Site.shop db session Session.user_id].
  split; [|split; [|split]].
  - split; [|split; [|split]]; [|constructor..].
    vm_compute. repeat constructor.
  - repeat split; constructor.
  - discriminate.
  - constructor.
Qed.

Lemma site_wf_persist s : site_wf s -> site_wf (site_persist s).
Proof.
  intros (Hwf & Hus & Hsess & Hown).
  split; [|split; [|split]].
  - now apply wf_persist.
  - exact Hus.
  - exact Hsess.
  - exact Hown.
Qed.

Lemma site_wf_run reqs s : site_wf s -> site_wf (site_run reqs s).
Proof.
  revert s. induction reqs as [|req reqs IH]; intros s Hs; [exact Hs|].
  cbn [site_run]. apply IH. now apply site_wf_persist, site_wf_serve.
Qed.

(** X7. Between requests the site satisfies [site_wf]: products have a
    name and a category, line items refer to an order and a product of
    the tables, cart keys read as integers, user keys, names and e-mail
    addresses are unique, a session that is logged in is logged in as a
    user of the table, and every order belongs to a user of the table.
    Every request keeps this, and it holds after [init_db] on an empty
    database. *)
Theorem site_wf_invariant :
  (forall req s, site_wf s -> site_wf (snd (site_serve req s))) /\
  (forall reqs now, site_wf (site_run reqs (opening now))).
Proof.
  split.
  - intros req s. apply site_wf_serve.
  - intros reqs now. apply site_wf_run, site_wf_opening.
Qed.

Lemma site_wf_invariant_witness :
  site_wf (snd (site_serve (Register 5 alice_form) (Site.mk [] None guest_empty))).
Proof.
  apply (proj1 site_wf_invariant).
  unfold site_wf, wf, users_unique, session_of_user, orders_owned, orders_fk,
    items_resolved, cart_wf.
  cbn [Site.users Site.username Site.shop db session Session.user_id guest_empty
       products orders order_items stored_cart Session.cart map].
  repeat split; try constructor; try discriminate.
  all: repeat constructor.
Defined.

(** ** Orders after checkout *)

Lemma get_order_new (os : list Order.t) (o : Order.t) :
  Order.id o = next_id (map Order.id os) ->
  get_order (Order.id o) (os ++ [o]) = Some o.
Proof.
  intros Hid. unfold get_order. rewrite find_snoc, Z.eqb_refl.
  destruct (find _ os) as [o'|] eqn:Hfind; [|reflexivity].
  apply get_order_lt_next in Hfind. lia.
Qed.

Lemma touched_with_cart (w : world) (cart : list (string * Z)) :
  touched (with_cart w cart) = with_cart w cart.
Proof. reflexivity. Qed.

Lemma item_summaries_cons ps item rest :
  item_summaries ps (item :: rest) =
  match get_product (OrderItem.product_id item) ps with
  | None => Raise AttributeError
  | Some product =>
      rbind (item_summaries ps rest) (fun rows =>
      Ok (JDict [("product_name"%string, JVal (Product.name product));
                 ("quantity"%string, jint (OrderItem.quantity item));
                 ("price"%string, jfloat (OrderItem.price item))] :: rows))
  end.
Proof. reflexivity. Qed.

Lemma item_summaries_defined ps items :
  Forall (fun it => exists p, get_product (OrderItem.product_id it) ps = Some p)
         items ->
  exists rows,
    item_summaries ps items = Ok rows /\ List.length rows = List.length items.
Proof.
  induction items as [|item items IH]; intros H.
  - now exists [].
  - inversion H as [|? ? [p Hp] H']; subst.
    destruct (IH H') as [rows [Hrows Hlen]].
    rewrite item_summaries_cons, Hp, Hrows. simpl.
    eexists; split; [reflexivity|]. simpl. now rewrite Hlen.
Qed.

Lemma order_summaries_cons t order rest :
  order_summaries t (order :: rest) =
  rbind (item_summaries (products t) (items_of (Order.id order) t)) (fun items =>
  rbind (order_summaries t rest) (fun rows =>
  Ok (JDict [("id"%string, jint (Order.id order));
             ("total_amount"%string, jnum (Order.total_amount order));
             ("status"%string, jstr (Order.status order));
             ("created_at"%string, jint (Order.created_at order));
             ("items"%string, JList items)] :: rows))).
Proof. reflexivity. Qed.

Lemma items_of_resolved (t : tables) (oid : Z) :
  items_resolved t ->
  Forall (fun it => exists p, get_product (OrderItem.product_id it) (products t)
                              = Some p)
         (items_of oid t).
Proof.
  intros Hres. unfold items_of. apply Forall_forall. intros it Hin.
  apply filter_In in Hin. destruct Hin as [Hin _].
  unfold items_resolved in Hres. rewrite Forall_forall in Hres. now apply Hres.
Qed.

Lemma order_summaries_defined (t : tables) (os : list Order.t) :
  items_resolved t ->
  exists rows, order_summaries t os = Ok rows /\ Forall2 (summary_of t) os rows.
Proof.
  intros Hres. induction os as [|o os [rows [Hrows Hall]]].
  - exists []. split; [reflexivity | constructor].
  - destruct (item_summaries_defined (products t) (items_of (Order.id o) t))
      as [items [Hitems Hlen]]; [now apply items_of_resolved|].
    rewrite order_summaries_cons, Hitems, Hrows. simpl.
    eexists. split; [reflexivity|]. constructor; [|exact Hall].
    exists items. auto.
Qed.

(** X8. The list of orders of a session that is logged in as [u], when
    the line items refer to products of the catalog: the request is
    answered 200 with one row for each order of [u], in the order of the
    table, each with one entry per line item; the orders of the other
    users are left out, and nothing is written. *)
Theorem get_orders_own (w : world) (u : Z) :
  Session.user_id (session w) = Some u ->
  items_resolved (db w) ->
  exists rows,
    serve get_orders w = (Json (JList rows) 200, w) /\
    Forall2 (summary_of (db w)) (filter (owned u) (orders (db w))) rows.
Proof.
  intros Hu Hres. rewrite get_orders_run, Hu.
  destruct (order_summaries_defined (db w) (filter (owned u) (orders (db w))) Hres)
    as [rows [Hrows Hall]].
  exists rows. rewrite Hrows. auto.
Qed.

Lemma get_orders_own_witness :
  let w := snd (serve (checkout None 100 main_street) shopper) in
  exists rows,
    serve get_orders w = (Json (JList rows) 200, w) /\
    Forall2 (summary_of (db w)) (filter (owned 7) (orders (db w))) rows.
Proof.
  apply (get_orders_own (snd (serve (checkout None 100 main_street) shopper)) 7).
  - reflexivity.
  - vm_compute. repeat constructor; eexists; reflexivity.
Defined.

(** X9. The order of a checkout answered 201 can be read back: it is the
    order of the session user; its detail is answered 200 with the order
    and the line items of the checkout response; it comes last in the
    user's list of orders; and its detail is answered 403 to any other
    user. *)
Theorem checkout_then_read (fault : option nat) (now : Z)
    (data : list (string * value)) (w : world) :
  let r := serve (checkout fault now data) w in
  orders_fk (db w) ->
  status (fst r) = 201 ->
  exists u order rows,
    Session.user_id (session w) = Some u /\
    Order.user_id order = Some u /\
    fst r = order_placed order rows /\
    List.length rows = List.length (stored_cart (session w)) /\
    serve (get_order_detail (Order.id order)) (snd r)
      = (order_detail order rows, snd r) /\
    filter (owned u) (orders (db (snd r)))
      = filter (owned u) (orders (db w)) ++ [order] /\
    (forall u' cart modified,
        u' <> u ->
        fst (serve (get_order_detail (Order.id order))
               (mk_world (db (snd r)) (Session.mk (Some u') cart modified)))
        = error "Unauthorized" 403).
Proof.
  cbv zeta. intros Hfk H201.
  destruct (checkout_outcome fault now data w)
    as [[_ [_ H]]|(u & total & order & tx & Hu & _ & _ & Hstored & Hwp & Hr)]; [contradiction|].
  cbv zeta in Hr. rewrite Hr.
  destruct (checkout_committed fault now data w total order tx Hstored Hfk Hwp)
    as [rows [Hrows Hlen]].
  pose proof (write_phase_ok _ _ _ _ _ _ Hwp) as (Ho & _).
  pose proof (write_phase_fits _ _ _ _ _ _ Hwp) as Hfits.
  pose proof (stored_order_fields _ _ Hstored) as (Hid & Huser & _).
  cbn [new_order Order.id Order.user_id] in Hid, Huser.
  assert (Hget : get_order (Order.id order) (orders tx) = Some order).
  { rewrite Ho. now apply get_order_new. }
  assert (Hown : Order.user_id order = Some u) by congruence.
  exists u, order, rows. rewrite Hrows. cbn [fst snd rbind handle_exception].
  split; [exact Hu|]. split; [exact Hown|]. split; [reflexivity|].
  split; [exact Hlen|]. split; [|split].
  - rewrite get_order_detail_run, Hfits.
    cbn [with_cart db session Session.user_id]. rewrite Hu, Hget, Hown.
    cbn [option_Z_eqb]. now rewrite Z.eqb_refl, Hrows.
  - assert (Howned : owned u order = true).
    { unfold owned. rewrite Hown. apply Z.eqb_refl. }
    cbn [with_cart db]. rewrite Ho, filter_app. cbn [filter].
    now rewrite Howned.
  - intros u' cart modified Hne. rewrite get_order_detail_run, Hfits.
    cbn [with_cart db session Session.user_id fst]. rewrite Hget, Hown.
    cbn [option_Z_eqb]. apply not_eq_sym in Hne. apply Z.eqb_neq in Hne.
    now rewrite Hne.
Qed.

Lemma checkout_then_read_witness :
  let r := serve (checkout None 100 main_street) shopper in
  exists u order rows,
    Session.user_id (session shopper) = Some u /\
    Order.user_id order = Some u /\
    fst r = order_placed order rows /\
    List.length rows = List.length (stored_cart (session shopper)) /\
    serve (get_order_detail (Order.id order)) (snd r)
      = (order_detail order rows, snd r) /\
    filter (owned u) (orders (db (snd r)))
      = filter (owned u) (orders (db shopper)) ++ [order] /\
    (forall u' cart modified,
        u' <> u ->
        fst (serve (get_order_detail (Order.id order))
               (mk_world (db (snd r)) (Session.mk (Some u') cart modified)))
        = error "Unauthorized" 403).
Proof.
  apply (checkout_then_read None 100 main_street shopper).
  - constructor.
  - reflexivity.
Defined.

(** X10. Checkout and the cart, when the line items of the tables refer
    to orders of the tables: a checkout answered 201 leaves an empty
    cart, so that a repeated checkout is answered 400 and orders nothing;
    a checkout with any other answer leaves the stored cart and the
    tables as they were, ready for another attempt. *)
Theorem checkout_and_cart (fault : option nat) (now : Z)
    (data : list (string * value)) (w : world) :
  let r := serve (checkout fault now data) w in
  orders_fk (db w) ->
  (status (fst r) = 201 ->
   stored_cart (session (snd r)) = [] /\
   forall fault' now' data',
     serve (checkout fault' now' data') (snd r)
     = (error "Cart is empty" 400, snd r)) /\
  (status (fst r) <> 201 ->
   stored_cart (session (snd r)) = stored_cart (session w) /\
   db (snd r) = db w).
Proof.
  cbv zeta. intros Hfk.
  destruct (checkout_outcome fault now data w)
    as [[[Hw|Hw] [_ H]]|(u & total & order & tx & Hu & _ & _ & Hstored & Hwp & Hr)].
  - split; [intros H'; contradiction|]. intros _. now rewrite Hw.
  - split; [intros H'; contradiction|]. intros _.
    now rewrite Hw, stored_cart_touched, db_touched.
  - cbv zeta in Hr. rewrite Hr.
    destruct (checkout_committed fault now data w total order tx Hstored Hfk Hwp)
      as [rows [Hrows _]].
    rewrite Hrows. cbn [fst snd rbind handle_exception]. split.
    + intros _. split; [reflexivity|]. intros fault' now' data'.
      rewrite checkout_run.
      cbn [with_cart db session Session.user_id stored_cart Session.cart].
      now rewrite Hu.
    + intros H. now contradiction H.
Qed.

Lemma checkout_and_cart_witness :
  (stored_cart (session (snd (serve (checkout None 100 main_street) shopper))) = [] /\
   forall fault' now' data',
     serve (checkout fault' now' data')
       (snd (serve (checkout None 100 main_street) shopper))
     = (error "Cart is empty" 400,
        snd (serve (checkout None 100 main_street) shopper))) /\
  (stored_cart (session (snd (serve (checkout (Some 2%nat) 100 main_street) shopper)))
     = stored_cart (session shopper) /\
   db (snd (serve (checkout (Some 2%nat) 100 main_street) shopper)) = db shopper).
Proof.
  split.
  - apply (checkout_and_cart None 100 main_street shopper).
    + constructor.
    + reflexivity.
  - apply (checkout_and_cart (Some 2%nat) 100 main_street shopper).
    + constructor.
    + vm_compute. discriminate.
Defined.

(** ** The catalog: create, list, delete *)

Lemma get_product_fresh (ps : list Product.t) (pid : Z) :
  (forall p, In p ps -> Product.id p < pid) -> get_product pid ps = None.
Proof.
  intros Hlt. unfold get_product.
  destruct (find _ ps) as [p|] eqn:Hfind; [|reflexivity].
  apply find_some in Hfind. destruct Hfind as [Hin Hid].
  apply Z.eqb_eq in Hid. specialize (Hlt p Hin). lia.
Qed.

Lemma lt_next_id (ps : list Product.t) (p : Product.t) :
  In p ps -> Product.id p < next_id (map Product.id ps).
Proof.
  intros Hin. unfold next_id.
  assert (Product.id p <= fold_right Z.max 0 (map Product.id ps)).
  { apply le_max_ids. now apply in_map. }
  lia.
Qed.

Lemma get_product_snoc (ps : list Product.t) (p : Product.t) (pid : Z) :
  get_product pid (ps ++ [p]) =
  match get_product pid ps with
  | Some p' => Some p'
  | None => if Product.id p =? pid then Some p else None
  end.
Proof. exact (find_snoc (fun p' => Product.id p' =? pid) ps p). Qed.

(** X11. A product that has just been created can be read back: the
    create request answered 201 has given the product a key above every
    key of the table; reading that key returns the product of the
    response; the listing ends with it, and so does the listing of its
    category; every other key reads as before. *)
Theorem products_POST_then_read (now : Z) (data : list (string * value))
    (w : world) :
  let r := serve (products_POST now data) w in
  status (fst r) = 201 ->
  exists product,
    fst r = Json (JDict [("message"%string, jstr "Product created successfully");
                         ("product"%string, JDict (Product.to_dict product))]) 201 /\
    (forall p, In p (products (db w)) -> Product.id p < Product.id product) /\
    serve (product_detail_GET (Product.id product)) (snd r)
      = (Json (JDict (Product.to_dict product)) 200, snd r) /\
    fst (serve (products_GET None) (snd r))
      = listing (products (db w) ++ [product]) /\
    (forall c, Product.category product = PStr c -> c <> ""%string ->
               fst (serve (products_GET (Some c)) (snd r))
               = listing (filter (has_category c) (products (db w)) ++ [product])) /\
    (forall pid, pid <> Product.id product ->
                 get_product pid (products (db (snd r)))
                 = get_product pid (products (db w))).
Proof.
  cbv zeta.
  destruct (products_POST_outcome now data w)
    as [[_ [H|H]]|(name & price_in & category & price & stock & product & _ & _
                   & _ & _ & _ & Hstored & _ & Hfits & H)];
    cbv zeta in H; rewrite H; [discriminate | discriminate |].
  intros _.
  apply stored_product_fields in Hstored. destruct Hstored as (Hid & _).
  cbn [new_product Product.id] in Hid.
  assert (Hlt : forall p, In p (products (db w)) -> Product.id p < Product.id product).
  { intros p Hin. rewrite Hid. now apply lt_next_id. }
  exists product. cbn [fst snd].
  split; [reflexivity|]. split; [exact Hlt|]. split; [|split; [|split]].
  - rewrite product_detail_GET_run, Hfits. cbn [db products].
    now rewrite get_product_snoc, (get_product_fresh _ _ Hlt), Z.eqb_refl.
  - now rewrite products_GET_run.
  - intros c Hc Hne. rewrite products_GET_run. cbn [fst db products].
    apply String.eqb_neq in Hne. unfold truthy. rewrite Hne. cbn [negb].
    rewrite filter_app. cbn [filter]. unfold has_category at 2.
    now rewrite Hc, String.eqb_refl.
  - intros pid Hne. cbn [db products]. rewrite get_product_snoc.
    destruct (get_product pid (products (db w))); [reflexivity|].
    apply not_eq_sym in Hne. apply Z.eqb_neq in Hne. now rewrite Hne.
Qed.

Lemma products_POST_then_read_witness :
  let data := [("name"%string, PStr "Widget"); ("price"%string, PFloat 9.5);
               ("category"%string, PStr "Tools")] in
  let r := serve (products_POST 5 data) shopper in
  exists product,
    fst r = Json (JDict [("message"%string, jstr "Product created successfully");
                         ("product"%string, JDict (Product.to_dict product))]) 201 /\
    (forall p, In p (products (db shopper)) -> Product.id p < Product.id product) /\
    serve (product_detail_GET (Product.id product)) (snd r)
      = (Json (JDict (Product.to_dict product)) 200, snd r) /\
    fst (serve (products_GET None) (snd r))
      = listing (products (db shopper) ++ [product]) /\
    (forall c, Product.category product = PStr c -> c <> ""%string ->
               fst (serve (products_GET (Some c)) (snd r))
               = listing (filter (has_category c) (products (db shopper))
                            ++ [product])) /\
    (forall pid, pid <> Product.id product ->
                 get_product pid (products (db (snd r)))
                 = get_product pid (products (db shopper))).
Proof.
  exact (products_POST_then_read 5
           [("name"%string, PStr "Widget"); ("price"%string, PFloat 9.5);
            ("category"%string, PStr "Tools")] shopper eq_refl).
Defined.

Lemma get_product_removed (p : Product.t) (ps : list Product.t) :
  get_product (Product.id p)
    (filter (fun p' => negb (Product.id p' =? Product.id p)) ps) = None.
Proof.
  unfold get_product.
  destruct (find _ _) as [x|] eqn:Hfind; [|reflexivity].
  apply find_some in Hfind. destruct Hfind as [Hin Hid].
  apply filter_In in Hin. destruct Hin as [_ Hne]. now rewrite Hid in Hne.
Qed.

(** X12. Deleting a product: after a delete answered 200 the key is gone,
    so reading it, and deleting it again, are answered 404; the listing
    is the former one without the rows of that key; every other key
    reads as before; and the orders, the line items and the session,
    with a cart that may still hold the key, are as they were.  A delete
    with any other answer changes nothing, and a key that is absent is
    answered 404 when it fits in 64 bits, and 500, by the unhandled error
    of the lookup, when it does not. *)
Theorem product_detail_DELETE_then_read (product_id : Z) (w : world) :
  let r := serve (product_detail_DELETE product_id) w in
  (status (fst r) = 200 ->
   serve (product_detail_GET product_id) (snd r) = (not_found, snd r) /\
   serve (product_detail_DELETE product_id) (snd r) = (not_found, snd r) /\
   fst (serve (products_GET None) (snd r))
     = listing (filter (fun p => negb (Product.id p =? product_id))
                  (products (db w))) /\
   (forall pid, pid <> product_id ->
                get_product pid (products (db (snd r)))
                = get_product pid (products (db w))) /\
   orders (db (snd r)) = orders (db w) /\
   order_items (db (snd r)) = order_items (db w) /\
   session (snd r) = session w) /\
  (status (fst r) <> 200 -> snd r = w) /\
  (get_product product_id (products (db w)) = None ->
   fst r = if in_int64 product_id then not_found else server_error).
Proof.
  cbv zeta. rewrite product_detail_DELETE_run.
  destruct (in_int64 product_id) eqn:Hfits.
  2:{ split; [discriminate|]. split; reflexivity. }
  destruct (get_product product_id (products (db w))) as [p|] eqn:Hp.
  - pose proof (get_product_id _ _ _ Hp) as Hid.
    unfold delete_product. destruct (existsb _ _).
    + split; [discriminate|]. split; [reflexivity | discriminate].
    + cbn [fst snd]. split; [|split; [intros H; now contradiction H | discriminate]].
      intros _. rewrite product_detail_GET_run, product_detail_DELETE_run,
        products_GET_run, Hfits.
      cbn [db products orders order_items session fst]. rewrite Hid.
      assert (Hgone : get_product product_id
                (filter (fun p' => negb (Product.id p' =? product_id))
                   (products (db w))) = None).
      { rewrite <- Hid. apply get_product_removed. }
      rewrite Hgone. repeat split.
      intros pid Hne. rewrite <- Hid. apply get_product_remove. now rewrite Hid.
  - split; [discriminate|]. split; reflexivity.
Qed.

Lemma product_detail_DELETE_then_read_witness :
  let r := serve (product_detail_DELETE 4) shopper in
  serve (product_detail_GET 4) (snd r) = (not_found, snd r) /\
  session (snd r) = session shopper.
Proof.
  intros r.
  destruct (proj1 (product_detail_DELETE_then_read 4 shopper) eq_refl)
    as (Hget & _ & _ & _ & _ & _ & Hsession).
  split; [exact Hget | exact Hsession].
Defined.

(** ** The cart *)

Lemma touched_idem (w : world) : touched (touched w) = touched w.
Proof.
  destruct w as [t [u [c|] m]]; reflexivity.
Qed.

Lemma stored_cart_with_cart (w : world) (cart : list (string * Z)) :
  stored_cart (session (with_cart w cart)) = cart.
Proof. reflexivity. Qed.

(** X13. Removing from the cart: afterwards the key is not in the stored
    cart and every other entry is as before; a key that was not in the
    cart leaves the cart as it was; the tables are not written; and
    repeating the request gives the same answer and changes nothing. *)
Theorem cart_DELETE_removes (product_id : option string) (w : world) :
  let key := py_str (match product_id with Some s => PStr s | None => PNone end) in
  let cart := stored_cart (session w) in
  let r := serve (cart_DELETE product_id) w in
  let cart' := stored_cart (session (snd r)) in
  dict_get key cart' = None /\
  (forall k, k <> key -> dict_get k cart' = dict_get k cart) /\
  (dict_get key cart = None -> cart' = cart) /\
  db (snd r) = db w /\
  serve (cart_DELETE product_id) (snd r) = r.
Proof.
  intros key cart r cart'. subst r cart'.
  rewrite !cart_DELETE_run. fold key. fold cart. cbn [snd]. unfold dict_mem.
  destruct (dict_get key cart) as [q|] eqn:Hget.
  - rewrite stored_cart_with_cart, dict_get_del_same.
    split; [reflexivity|]. split; [|split; [discriminate|split; reflexivity]].
    intros k Hk. now apply dict_get_del_other.
  - rewrite stored_cart_touched, db_touched, touched_idem. fold cart.
    rewrite Hget. repeat split; reflexivity.
Qed.

Lemma cart_DELETE_removes_witness :
  let r := serve (cart_DELETE (Some "4"%string)) shopper in
  dict_get "4" (stored_cart (session (snd r))) = None /\
  dict_get "1" (stored_cart (session (snd r)))
    = dict_get "1" (stored_cart (session shopper)).
Proof.
  destruct (cart_DELETE_removes (Some "4"%string) shopper) as (Hgone & Hkeep & _).
  split; [exact Hgone | apply Hkeep; discriminate].
Defined.

(** X14. Updating an entry of the cart to a quantity of zero or less does
    to the session what removing the entry does, and is answered with the
    same status. *)
Theorem update_cart_nonpositive (data : list (string * value)) (w : world)
    (quantity : Z) :
  let key := py_str (get "product_id" data) in
  py_int (dict_get_default "quantity" (PInt 1) data) = Ok quantity ->
  quantity <= 0 ->
  dict_mem key (stored_cart (session w)) = true ->
  snd (serve (update_cart data) w) = snd (serve (cart_DELETE (Some key)) w) /\
  status (fst (serve (update_cart data) w))
    = status (fst (serve (cart_DELETE (Some key)) w)) /\
  dict_get key (stored_cart (session (snd (serve (update_cart data) w)))) = None.
Proof.
  intros key Hq Hle Hmem.
  rewrite update_cart_run, cart_DELETE_run, Hq. fold key.
  change (py_str (PStr key)) with key. rewrite Hmem. cbn [negb].
  apply Z.leb_le in Hle. rewrite Hle. unfold cart_updated. cbn [fst snd].
  split; [reflexivity|]. split.
  - now destruct (cart_sum _ _ _).
  - rewrite stored_cart_with_cart. apply dict_get_del_same.
Qed.

Lemma update_cart_nonpositive_witness :
  let data := [("product_id"%string, PInt 4); ("quantity"%string, PInt 0)] in
  snd (serve (update_cart data) shopper)
    = snd (serve (cart_DELETE (Some (py_str (get "product_id" data)))) shopper) /\
  status (fst (serve (update_cart data) shopper))
    = status (fst (serve (cart_DELETE (Some (py_str (get "product_id" data))))
                    shopper)) /\
  dict_get (py_str (get "product_id" data))
    (stored_cart (session (snd (serve (update_cart data) shopper)))) = None.
Proof.
  apply (update_cart_nonpositive
           [("product_id"%string, PInt 4); ("quantity"%string, PInt 0)] shopper 0).
  - reflexivity.
  - lia.
  - reflexivity.
Defined.

(** X15. Clearing the cart is answered 200 and leaves an empty cart, the
    user and the tables as they were; the cart view then shows no items,
    a count of 0 and the integer total 0, and a checkout of a session
    that is logged in is answered 400. *)
Theorem clear_cart_empties (w : world) :
  let r := serve clear_cart w in
  fst r = Json (JDict [("message"%string, jstr "Cart cleared")]) 200 /\
  db (snd r) = db w /\
  Session.user_id (session (snd r)) = Session.user_id (session w) /\
  stored_cart (session (snd r)) = [] /\
  serve cart_GET (snd r)
    = (Json (JDict [("items"%string, JList []);
                    ("total"%string, jint 0);
                    ("item_count"%string, jint 0)]) 200, snd r) /\
  (forall fault now data u,
      Session.user_id (session w) = Some u ->
      serve (checkout fault now data) (snd r) = (error "Cart is empty" 400, snd r)).
Proof.
  cbv zeta. repeat (split; [reflexivity|]).
  intros fault now data u Hu. rewrite checkout_run.
  change (Session.user_id (session (snd (serve clear_cart w))))
    with (Session.user_id (session w)).
  now rewrite Hu.
Qed.

Lemma clear_cart_empties_witness :
  serve (checkout None 100 main_street) (snd (serve clear_cart shopper))
  = (error "Cart is empty" 400, snd (serve clear_cart shopper)).
Proof.
  destruct (clear_cart_empties shopper) as (_ & _ & _ & _ & _ & H).
  apply (H None 100 main_street 7). reflexivity.
Defined.

(** A total that is computed has a row for each of its entries. *)
Lemma cart_sum_rows ps cart :
  forall total t,
    cart_sum ps cart total = Ok t -> exists rows, cart_rows ps cart = Ok rows.
Proof.
  induction cart as [|[k q] cart IH]; intros total t H; [now exists []|].
  rewrite cart_sum_cons in H. rewrite cart_rows_cons.
  destruct (py_int (PStr k)) as [pid|]; simpl in *; [|discriminate].
  destruct (get_product pid ps) as [product|]; [|eauto].
  destruct (float_mul_int _ _) as [x|]; simpl in *; [|discriminate].
  destruct (num_add_float _ _) as [total'|]; simpl in H; [|discriminate].
  destruct (IH _ _ H) as [rows Hrows]. rewrite Hrows. simpl. eauto.
Qed.

(** The cart view of a world whose cart has the total [total]. *)
Lemma cart_view_of (w : world) (total : num) :
  cart_sum (products (db w)) (stored_cart (session w)) (NInt 0) = Ok total ->
  status (fst (serve cart_GET w)) = 200 /\
  field "total" (fst (serve cart_GET w)) = Some (jnum (py_round total)) /\
  field "item_count" (fst (serve cart_GET w))
    = Some (jint (Z.of_nat (List.length (stored_cart (session w))))).
Proof.
  intros Hsum. rewrite cart_GET_run.
  destruct (cart_sum_rows _ _ _ _ Hsum) as [rows Hrows].
  rewrite Hrows, Hsum. repeat split.
Qed.

(** The entries of a total that is computed: the key reads as an
    integer, and the quantity converts to a [float] when the product
    exists.  This does not depend on the order of the entries. *)
Lemma cart_sum_entries ps cart :
  forall total t,
    cart_sum ps cart total = Ok t ->
    Forall (fun kv => exists pid,
                py_int (PStr (fst kv)) = Ok pid /\
                (get_product pid ps = None \/
                 exists y, float_of_int (snd kv) = Ok y)) cart.
Proof.
  induction cart as [|[k q] cart IH]; intros total t H; [constructor|].
  rewrite cart_sum_cons in H.
  destruct (py_int (PStr k)) as [pid|] eqn:Hpid; simpl in H; [|discriminate].
  destruct (get_product pid ps) as [product|] eqn:Hp.
  - unfold float_mul_int in H.
    destruct (float_of_int q) as [y|] eqn:Hq; simpl in H; [|discriminate].
    destruct (num_add_float _ _) as [total'|]; simpl in H; [|discriminate].
    constructor; [|eauto]. exists pid. simpl. eauto.
  - constructor; [|eauto]. exists pid. simpl. auto.
Qed.

Lemma cart_sum_of_entries ps cart :
  forall total,
    (forall z, total = NInt z -> exists x, float_of_int z = Ok x) ->
    Forall (fun kv => exists pid,
                py_int (PStr (fst kv)) = Ok pid /\
                (get_product pid ps = None \/
                 exists y, float_of_int (snd kv) = Ok y)) cart ->
    exists t, cart_sum ps cart total = Ok t.
Proof.
  induction cart as [|[k q] cart IH]; intros total Htotal Hall; [now exists total|].
  inversion Hall as [|? ? (pid & Hpid & Hq) Hall']; subst.
  simpl in Hpid, Hq. rewrite cart_sum_cons, Hpid. simpl.
  destruct (get_product pid ps) as [product|]; [|now apply IH].
  destruct Hq as [Hq|[y Hq]]; [discriminate|].
  unfold float_mul_int. rewrite Hq. simpl.
  destruct total as [z|x]; unfold num_add_float.
  - destruct (Htotal z eq_refl) as [x Hx]. rewrite Hx. simpl.
    apply IH; [intros z' H; discriminate | exact Hall'].
  - simpl. apply IH; [intros z' H; discriminate | exact Hall'].
Qed.

(** X16. The cart view that follows a change of the cart.  When adding to
    the cart, updating it or removing from it is answered 200, the answer
    carries the total of the cart in the order of its entries; the cart
    view of the next request, which finds the cart with its keys in
    order, is answered 200, counts the entries of the cart, and carries
    the total of the cart in the order of its keys.  The two totals are
    sums of floats in two orders: they are the same when the keys of the
    cart were in order. *)
Theorem cart_view_after_change (req : request) (w : world) :
  let r := serve (route req) w in
  let cart := stored_cart (session (snd r)) in
  let view := fst (serve cart_GET (persist (snd r))) in
  changes_cart req = true ->
  status (fst r) = 200 ->
  exists total total',
    cart_sum (products (db w)) cart (NInt 0) = Ok total /\
    field "total" (fst r) = Some (jnum (py_round total)) /\
    cart_sum (products (db w)) (sort_keys cart) (NInt 0) = Ok total' /\
    status view = 200 /\
    field "total" view = Some (jnum (py_round total')) /\
    field "item_count" view = Some (jint (Z.of_nat (List.length cart))) /\
    (sort_keys cart = cart -> field "total" view = field "total" (fst r)).
Proof.
  cbv zeta. intros Hreq.
  assert (Hview : forall (w' : world) (total : num),
             db w' = db w ->
             cart_sum (products (db w)) (stored_cart (session w')) (NInt 0)
               = Ok total ->
             exists total',
               cart_sum (products (db w)) (sort_keys (stored_cart (session w')))
                 (NInt 0) = Ok total' /\
               status (fst (serve cart_GET (persist w'))) = 200 /\
               field "total" (fst (serve cart_GET (persist w')))
                 = Some (jnum (py_round total')) /\
               field "item_count" (fst (serve cart_GET (persist w')))
                 = Some (jint (Z.of_nat (List.length (stored_cart (session w'))))) /\
               (sort_keys (stored_cart (session w')) = stored_cart (session w') ->
                total' = total)).
  { intros w' total Hdb Hsum.
    destruct (cart_sum_of_entries (products (db w))
                (sort_keys (stored_cart (session w'))) (NInt 0))
      as [total' Hsum'].
    { intros z Hz. injection Hz as <-. eexists. vm_compute. reflexivity. }
    { apply sort_keys_Forall. eapply cart_sum_entries; eauto. }
    assert (Hsum2 : cart_sum (products (db (persist w')))
                      (stored_cart (session (persist w'))) (NInt 0) = Ok total').
    { now rewrite db_persist, stored_cart_persist, Hdb. }
    destruct (cart_view_of (persist w') total' Hsum2) as (H1 & H2 & H3).
    rewrite stored_cart_persist, sort_keys_length in H3.
    exists total'. repeat split; auto.
    intros Hsorted. rewrite Hsorted in Hsum'. congruence. }
  assert (Hdone : forall (w' : world) (total : num) (body : list (string * json)),
             db w' = db w ->
             cart_sum (products (db w)) (stored_cart (session w')) (NInt 0)
               = Ok total ->
             dict_get "total" body = Some (jnum (py_round total)) ->
             exists total0 total',
               cart_sum (products (db w)) (stored_cart (session w')) (NInt 0)
                 = Ok total0 /\
               dict_get "total" body = Some (jnum (py_round total0)) /\
               cart_sum (products (db w)) (sort_keys (stored_cart (session w')))
                 (NInt 0) = Ok total' /\
               status (fst (serve cart_GET (persist w'))) = 200 /\
               field "total" (fst (serve cart_GET (persist w')))
                 = Some (jnum (py_round total')) /\
               field "item_count" (fst (serve cart_GET (persist w')))
                 = Some (jint (Z.of_nat (List.length (stored_cart (session w'))))) /\
               (sort_keys (stored_cart (session w')) = stored_cart (session w') ->
                field "total" (fst (serve cart_GET (persist w')))
                = dict_get "total" body)).
  { intros w' total body Hdb Hsum Hbody.
    destruct (Hview w' total Hdb Hsum) as (total' & H1 & H2 & H3 & H4 & H5).
    exists total, total'. repeat split; auto.
    intros Hs. rewrite H3, Hbody, (H5 Hs). reflexivity. }
  destruct req; try discriminate Hreq; cbn [route].
  - rewrite cart_POST_run.
    destruct (py_int (dict_get_default _ _ _)) as [quantity|];
      [|intros H; now apply status_handle_raise in H].
    destruct (py_int (PStr _)) as [pid|];
      [|intros H; now apply status_handle_raise in H].
    destruct (in_int64 pid); [|discriminate].
    destruct (get_product pid (products (db w))) as [product|]; [|discriminate].
    destruct (Product.stock product <? quantity); [discriminate|].
    cbv zeta.
    destruct (cart_sum (products (db w)) (cart_added _ _ _) (NInt 0))
      as [total|e] eqn:Hsum;
      [|intros H; now apply status_handle_raise in H].
    intros _.
    cbn [fst snd rbind handle_exception field].
      refine (Hdone (with_cart w _) total _ eq_refl Hsum _); reflexivity.
  - rewrite cart_DELETE_run. cbv zeta.
    destruct (dict_mem _ _).
    + destruct (cart_sum (products (db w)) (dict_del _ _) (NInt 0))
        as [total|e] eqn:Hsum;
        [|intros H; now apply status_handle_raise in H].
      intros _.
      cbn [fst snd rbind handle_exception field].
      refine (Hdone (with_cart w _) total _ eq_refl Hsum _); reflexivity.
    + destruct (cart_sum (products (db w)) (stored_cart (session w)) (NInt 0))
        as [total|e] eqn:Hsum;
        [|intros H; now apply status_handle_raise in H].
      intros _. rewrite <- (stored_cart_touched w) in Hsum.
      cbn [fst snd rbind handle_exception field].
      refine (Hdone (touched w) total _ (db_touched w) Hsum _); reflexivity.
  - rewrite update_cart_run.
    destruct (py_int (dict_get_default _ _ _)) as [quantity|];
      [|intros H; now apply status_handle_raise in H].
    destruct (negb _); [discriminate|].
    assert (Hup : forall cart,
               status (fst (cart_updated w cart)) = 200 ->
               exists total0 total',
                 cart_sum (products (db w))
                   (stored_cart (session (snd (cart_updated w cart)))) (NInt 0)
                   = Ok total0 /\
                 field "total" (fst (cart_updated w cart))
                   = Some (jnum (py_round total0)) /\
                 cart_sum (products (db w))
                   (sort_keys (stored_cart (session (snd (cart_updated w cart)))))
                   (NInt 0) = Ok total' /\
                 status (fst (serve cart_GET (persist (snd (cart_updated w cart)))))
                   = 200 /\
                 field "total"
                   (fst (serve cart_GET (persist (snd (cart_updated w cart)))))
                   = Some (jnum (py_round total')) /\
                 field "item_count"
                   (fst (serve cart_GET (persist (snd (cart_updated w cart)))))
                   = Some (jint (Z.of_nat
                        (List.length
                           (stored_cart (session (snd (cart_updated w cart))))))) /\
                 (sort_keys (stored_cart (session (snd (cart_updated w cart))))
                  = stored_cart (session (snd (cart_updated w cart))) ->
                  field "total"
                    (fst (serve cart_GET (persist (snd (cart_updated w cart)))))
                  = field "total" (fst (cart_updated w cart)))).
    { intros cart. unfold cart_updated.
      destruct (cart_sum (products (db w)) cart (NInt 0)) as [total|e] eqn:Hsum;
        [|intros H; now apply status_handle_raise in H].
      intros _.
      cbn [fst snd rbind handle_exception field].
      refine (Hdone (with_cart w cart) total _ eq_refl Hsum _); reflexivity. }
    destruct (quantity <=? 0); [apply Hup|].
    destruct (py_int (PStr _)) as [pid|];
      [|intros H; now apply status_handle_raise in H].
    destruct (in_int64 pid); [|discriminate].
    destruct (get_product pid (products (db w))) as [product|]; [|discriminate].
    destruct (Product.stock product <? quantity); [discriminate|].
    apply Hup.
Qed.

Lemma cart_view_after_change_witness :
  let req := CartPOST [("product_id"%string, PInt 1); ("quantity"%string, PInt 3)] in
  let r := serve (route req) shopper in
  let cart := stored_cart (session (snd r)) in
  let view := fst (serve cart_GET (persist (snd r))) in
  exists total total',
    cart_sum (products (db shopper)) cart (NInt 0) = Ok total /\
    field "total" (fst r) = Some (jnum (py_round total)) /\
    cart_sum (products (db shopper)) (sort_keys cart) (NInt 0) = Ok total' /\
    status view = 200 /\
    field "total" view = Some (jnum (py_round total')) /\
    field "item_count" view = Some (jint (Z.of_nat (List.length cart))) /\
    (sort_keys cart = cart -> field "total" view = field "total" (fst r)).
Proof.
  exact (cart_view_after_change
           (CartPOST [("product_id"%string, PInt 1); ("quantity"%string, PInt 3)])
           shopper eq_refl eq_refl).
Defined.

(** The two totals differ on a cart whose keys are not in order: with
    the products 2, 3 and 10 at 1.305, 1.705 and 0.445, adding the third
    to a cart that holds the first two is answered with the total 3.45,
    and the cart view that follows shows 3.46. *)
Example cart_totals_differ :
  let r := serve (cart_POST [("product_id"%string, PInt 10)]) odd_prices in
  stored_cart (session (snd r))
    = [("2"%string, 1); ("3"%string, 1); ("10"%string, 1)] /\
  stored_cart (session (persist (snd r)))
    = [("10"%string, 1); ("2"%string, 1); ("3"%string, 1)] /\
  field "total" (fst r) = Some (jfloat 3.45) /\
  field "total" (fst (serve cart_GET (persist (snd r)))) = Some (jfloat 3.46).
Proof.
  cbv zeta. repeat split; vm_compute; reflexivity.
Qed.

(** ** Cart keys *)

Ltac numeral_digit IH c k :=
  destruct IH as (Hsp & Htail & _ & Hacc & Hzero);
  cbn [NilEmpty.string_of_uint list_ascii_of_string map];
  split; [constructor; [reflexivity | exact Hsp]|];
  split; [cbn [digits_tail];
          change (digit_of c) with (Some (Z.of_N (N_of_ascii c) - 48));
          cbv iota; now rewrite Htail|];
  split; [reflexivity|];
  split; [intros acc; cbn [fold_left Pos.of_uint_acc]; rewrite <- Hacc;
          f_equal; vm_compute N_of_ascii; lia|];
  cbn [fold_left Pos.of_uint]; first [exact Hzero | apply (Hacc k)].

(** The characters of a decimal numeral are digits, whose values read
    back as the number. *)
Lemma numeral_digits (d : Decimal.uint) :
  let s := chars (NilEmpty.string_of_uint d) in
  let ds := map (fun c => Z.of_N (N_of_ascii c) - 48) s in
  Forall (fun c => is_space c = false) s /\
  digits_tail s = (ds, []) /\
  (match s with
   | [] => d = Decimal.Nil
   | c :: s' => digit_of c = Some (Z.of_N (N_of_ascii c) - 48)
   end) /\
  (forall acc, fold_left (fun acc d => 10 * acc + d) ds (Z.pos acc)
               = Z.pos (Pos.of_uint_acc d acc)) /\
  fold_left (fun acc d => 10 * acc + d) ds 0 = Z.of_N (Pos.of_uint d).
Proof.
  cbv zeta. unfold chars.
  induction d as [|d IH|d IH|d IH|d IH|d IH|d IH|d IH|d IH|d IH|d IH].
  - simpl. repeat split. constructor.
  - numeral_digit IH "0"%char 1%positive.
  - numeral_digit IH "1"%char 1%positive.
  - numeral_digit IH "2"%char 2%positive.
  - numeral_digit IH "3"%char 3%positive.
  - numeral_digit IH "4"%char 4%positive.
  - numeral_digit IH "5"%char 5%positive.
  - numeral_digit IH "6"%char 6%positive.
  - numeral_digit IH "7"%char 7%positive.
  - numeral_digit IH "8"%char 8%positive.
  - numeral_digit IH "9"%char 9%positive.
Qed.

Lemma lstrip_nonspace (s : list ascii) :
  Forall (fun c => is_space c = false) s -> lstrip s = s.
Proof.
  intros H. destruct H as [|c s Hc _]; [reflexivity|]. simpl. now rewrite Hc.
Qed.

Lemma strip_nonspace (s : list ascii) :
  Forall (fun c => is_space c = false) s -> strip s = s.
Proof.
  intros H. unfold strip. rewrite (lstrip_nonspace s H).
  rewrite lstrip_nonspace by now apply Forall_rev.
  apply rev_involutive.
Qed.

(** [int] reads the numeral of a positive number. *)
Lemma int_of_numeral (p : positive) :
  let s := chars (NilEmpty.string_of_uint (Pos.to_uint p)) in
  strip s = s /\ split_sign s = (false, s) /\
  digitpart s = Some (map (fun c => Z.of_N (N_of_ascii c) - 48) s, []) /\
  Z_of_digits (map (fun c => Z.of_N (N_of_ascii c) - 48) s) = Z.pos p /\
  Forall (fun c => is_space c = false) s.
Proof.
  cbv zeta.
  destruct (numeral_digits (Pos.to_uint p)) as (Hsp & Htail & Hhead & _ & Hzero).
  cbv zeta in *.
  destruct (chars (NilEmpty.string_of_uint (Pos.to_uint p))) as [|c s] eqn:Hs.
  { exfalso. now apply (DecimalPos.Unsigned.to_uint_nonnil p). }
  split; [now apply strip_nonspace|]. split; [|split; [|split; [|exact Hsp]]].
  - unfold split_sign.
    destruct (Ascii.eqb c "-") eqn:Hminus.
    { apply Ascii.eqb_eq in Hminus. subst c. discriminate Hhead. }
    destruct (Ascii.eqb c "+") eqn:Hplus; [|reflexivity].
    apply Ascii.eqb_eq in Hplus. subst c. discriminate Hhead.
  - unfold digitpart. rewrite Hhead.
    cbn [digits_tail] in Htail. rewrite Hhead in Htail.
    destruct (digits_tail s) as [ds r]. cbn [map] in Htail.
    injection Htail as Hds Hr. now subst ds r.
  - unfold Z_of_digits. rewrite Hzero, DecimalPos.Unsigned.of_to. reflexivity.
Qed.

Lemma string_of_uint_pos (p : positive) :
  NilZero.string_of_uint (Pos.to_uint p) = NilEmpty.string_of_uint (Pos.to_uint p).
Proof.
  pose proof (DecimalPos.Unsigned.to_uint_nonnil p) as Hnil.
  now destruct (Pos.to_uint p).
Qed.

Lemma int_of_str_of_int (z : Z) : int_of_str (str_of_int z) = Some z.
Proof.
  unfold int_of_str, str_of_int. destruct z as [|p|p]; [reflexivity| |];
    cbn [Z.to_int NilZero.string_of_int]; rewrite string_of_uint_pos;
    destruct (int_of_numeral p) as (Hstrip & Hsign & Hdigits & Hvalue & Hsp);
    cbv zeta in *.
  - now rewrite Hstrip, Hsign, Hdigits, Hvalue.
  - change (chars (String "-" ?s)) with ("-"%char :: chars s).
    rewrite strip_nonspace by (constructor; [reflexivity | exact Hsp]).
    cbn [split_sign Ascii.eqb Bool.eqb]. cbv iota.
    now rewrite Hdigits, Hvalue.
Qed.

(** X17. The cart stores an integer product id under the key that [str]
    makes of it, and [int] reads that key back as the same id: the
    lookups of the cart routes and of checkout never fail on such a key,
    and two ids share an entry of the cart only when they are equal. *)
Theorem cart_key_round_trip :
  (forall n : Z, py_int (PStr (py_str (PInt n))) = Ok n) /\
  (forall n m : Z, py_str (PInt n) = py_str (PInt m) -> n = m).
Proof.
  assert (Hread : forall n : Z, py_int (PStr (py_str (PInt n))) = Ok n).
  { intros n. unfold py_int, py_str. now rewrite int_of_str_of_int. }
  split; [exact Hread|].
  intros n m Heq. pose proof (Hread n) as Hn. rewrite Heq, Hread in Hn.
  now injection Hn.
Qed.

Lemma cart_key_round_trip_witness :
  py_int (PStr (py_str (PInt (-2026)))) = Ok (-2026) /\ 2026 = 2026.
Proof.
  split.
  - apply (proj1 cart_key_round_trip).
  - apply (proj2 cart_key_round_trip). reflexivity.
Defined.

(** ** Status codes *)

Lemma expected_raise (e : exn) : expected (handle_exception (Raise e)).
Proof.
  unfold expected, status_codes. destruct e; simpl; split; auto 10; discriminate.
Qed.

Lemma expected_json (body : json) (code : Z) :
  In code [200; 201; 400; 401; 403; 404] -> expected (Json body code).
Proof.
  unfold expected, status_codes. simpl.
  intros H. split; [intuition|]. intros ->. intuition discriminate.
Qed.

Lemma expected_redirect (location : string) : expected (Redirect location).
Proof.
  unfold expected, status_codes. simpl. split; [auto 10 | discriminate].
Qed.

Lemma expected_total {A : Type} (x : result A) (f : A -> json) (code : Z) :
  In code [200; 201; 400; 401; 403; 404] ->
  expected (handle_exception (rbind x (fun a => Ok (Json (f a) code)))).
Proof.
  intros H. destruct x as [a|e]; [now apply expected_json | apply expected_raise].
Qed.

Ltac expect :=
  first
    [ apply expected_raise
    | apply expected_redirect
    | apply expected_json; simpl; tauto
    | apply expected_total; simpl; tauto ].

Lemma expected_route (req : request) (w : world) :
  expected (fst (serve (route req) w)).
Proof.
  destruct req; cbn [route].
  - destruct (products_POST_outcome now data w)
      as [[_ [H|H]]|(name & price_in & category & price & stock & product & _ & _
                     & _ & _ & _ & _ & _ & _ & H)];
      cbv zeta in H; rewrite H; [expect | apply (expected_raise OverflowError)|].
    cbn [fst]. expect.
  - rewrite product_detail_GET_run. cbn [fst].
    destruct (in_int64 _); [|apply (expected_raise OverflowError)].
    destruct (get_product _ _); [expect | apply (expected_raise NotFound)].
  - destruct (product_detail_PUT_outcome now product_id data w)
      as [[_ [H|H]]|(p & price & stock & p' & _ & _ & _ & _ & _ & _ & H)];
      cbv zeta in H; rewrite H;
      [apply (expected_raise NotFound) | apply (expected_raise OverflowError)|].
    cbn [fst]. expect.
  - rewrite product_detail_DELETE_run.
    destruct (in_int64 _); [|apply (expected_raise OverflowError)].
    destruct (get_product _ _); [|apply (expected_raise NotFound)].
    destruct (delete_product _ _); expect.
  - rewrite cart_GET_run. cbn [fst].
    destruct (cart_rows _ _); [|expect]. cbn [rbind]. expect.
  - rewrite cart_POST_run.
    destruct (py_int (dict_get_default _ _ _)); [|expect].
    destruct (py_int (PStr _)); [|expect].
    destruct (in_int64 _); [|apply (expected_raise OverflowError)].
    destruct (get_product _ _); [|apply (expected_raise NotFound)].
    destruct (Product.stock _ <? _); expect.
  - rewrite cart_DELETE_run. cbn [fst]. expect.
  - rewrite update_cart_run.
    destruct (py_int (dict_get_default _ _ _)); [|expect].
    destruct (negb _); [expect|].
    unfold cart_updated.
    destruct (_ <=? 0); [expect|].
    destruct (py_int (PStr _)); [|expect].
    destruct (in_int64 _); [|apply (expected_raise OverflowError)].
    destruct (get_product _ _); [|apply (expected_raise NotFound)].
    destruct (Product.stock _ <? _); expect.
  - expect.
  - rewrite checkout_run.
    destruct (Session.user_id _); [|expect].
    destruct (stored_cart _); [expect|].
    destruct (negb _); [expect|].
    destruct (check_stock _ _) as [[k|]|]; [expect| |expect].
    destruct (cart_sum _ _ _); [|expect].
    destruct (stored_order _); [|expect].
    destruct (write_phase _ _ _ _ _); [|expect].
    unfold order_placed. expect.
  - rewrite get_order_detail_run. cbn [fst].
    destruct (Session.user_id _); [|expect].
    destruct (in_int64 _); [|apply (expected_raise OverflowError)].
    destruct (get_order _ _); [|apply (expected_raise NotFound)].
    destruct (option_Z_eqb _ _); [|expect].
    unfold order_detail. expect.
Qed.

(** X18. The answers of the views.  A request of [site_request], which
    has a method of its route and, where the view reads one, a body that
    decodes to a JSON object or a form, is answered with one of the
    statuses 200, 201, 302, 400, 401, 403, 404 and 500, and an answer
    with status 500 is the one of the error handler: no exception that a
    view raises on such a request reaches the client in any other form.
    The answers that the framework gives before a view runs or while it
    decodes the body (405 for another method, 415 or 400 for a body that
    is not a JSON object) are not among the requests of [site_request]. *)
Theorem site_status_codes (req : site_request) (s : Site.t) :
  let r := fst (site_serve req s) in
  In (status r) status_codes /\ (status r = 500 -> r = server_error).
Proof.
  cbv zeta. change (expected (fst (site_serve req s))). destruct req.
  - expect.
  - rewrite register_POST_run. cbv zeta.
    destruct (find _ _); [expect|].
    destruct (find _ _); [expect|].
    destruct (insert_user _ _ _ _ _); expect.
  - expect.
  - rewrite login_POST_run. destruct (find _ _); expect.
  - expect.
  - rewrite site_serve_ProductsGET, products_GET_run. expect.
  - rewrite site_serve_OrdersGET, get_orders_run. cbn [fst].
    destruct (Session.user_id _); expect.
  - rewrite site_serve_Shop. apply expected_route.
  - rewrite site_serve_Home. expect.
Qed.

(** A registration without an e-mail address. *)
Lemma site_status_codes_witness :
  fst (site_serve (Register 5 [("username", "bob")]%string)
         (Site.mk [alice] None shopper)) = server_error.
Proof.
  apply (proj2 (site_status_codes (Register 5 [("username", "bob")]%string)
                  (Site.mk [alice] None shopper))).
  reflexivity.
Defined.

(** ** The sample catalog *)

(** The catalog of the scenarios is the one that [init_db] creates. *)
Example init_db_sample_products :
  init_db 0 (mk_tables [] [] []) = mk_tables sample_products [] [].
Proof. reflexivity. Qed.

(** X19. [init_db] adds the six samples to an empty products table, with
    the keys 1 to 6, a name, a category and a positive stock each, and
    leaves a table that has a product as it is; it never touches the
    orders and the line items, and running it again changes nothing. *)
Theorem init_db_seeds_once (now now' : Z) (t : tables) :
  init_db now' (init_db now t) = init_db now t /\
  orders (init_db now t) = orders t /\
  order_items (init_db now t) = order_items t /\
  match products t with
  | [] =>
      map Product.id (products (init_db now t)) = [1; 2; 3; 4; 5; 6] /\
      Forall (fun p => product_not_null p = true /\ 0 < Product.stock p /\
                       Product.created_at p = now)
             (products (init_db now t))
  | _ :: _ => init_db now t = t
  end.
Proof.
  destruct t as [ps os its]. destruct ps as [|p ps].
  - split; [reflexivity|]. split; [reflexivity|]. split; [reflexivity|].
    split; [reflexivity|]. vm_compute. repeat constructor.
  - repeat split.
Qed.

(** ** Primary keys *)

Lemma put_product_ids (p : Product.t) (ps : list Product.t) :
  map Product.id (put_product p ps) = map Product.id ps.
Proof.
  unfold put_product. induction ps as [|x ps IH]; simpl; [reflexivity|].
  rewrite IH. destruct (Product.id x =? Product.id p) eqn:E; [|reflexivity].
  apply Z.eqb_eq in E. now rewrite E.
Qed.

Lemma NoDup_map_filter {A B : Type} (f : A -> B) (g : A -> bool) (l : list A) :
  NoDup (map f l) -> NoDup (map f (filter g l)).
Proof.
  induction l as [|x l IH]; simpl; intros H; [constructor|].
  inversion H as [|? ? Hx Hl]; subst.
  destruct (g x); simpl; [|now apply IH].
  constructor; [|now apply IH].
  intros Hin. apply Hx. apply in_map_iff in Hin. destruct Hin as [y [Hy Hin]].
  apply filter_In in Hin. rewrite <- Hy. apply in_map. tauto.
Qed.

Lemma NoDup_next_id (ids : list Z) : NoDup ids -> NoDup (ids ++ [next_id ids]).
Proof.
  intros H. apply NoDup_snoc; [exact H | apply next_id_fresh].
Qed.

(** The loop of checkout gives each line item a new key and keeps the
    keys of the products. *)
Lemma place_items_keys fault now oid cart :
  forall op tx tx',
    place_items fault op now oid cart tx = Ok tx' ->
    NoDup (map OrderItem.id (order_items tx)) ->
    map Product.id (products tx') = map Product.id (products tx) /\
    NoDup (map OrderItem.id (order_items tx')).
Proof.
  induction cart as [|[k q] cart IH]; intros op tx tx' H Hnd.
  - injection H as <-. now split.
  - rewrite place_items_cons in H.
    destruct (py_int (PStr k)) as [pid|]; simpl in H; [|discriminate].
    destruct (get_product pid (products tx)) as [p|]; [|discriminate].
    destruct (fails fault op); [discriminate|].
    destruct (item_fits _ _); cbn [negb] in H; [|discriminate].
    apply IH in H.
    + cbn [products order_items] in H. now rewrite put_product_ids in H.
    + cbn [order_items]. rewrite map_app. cbn [map OrderItem.id].
      now apply NoDup_next_id.
Qed.

Lemma keys_unique_serve (req : request) (w : world) :
  keys_unique (db w) -> keys_unique (db (snd (serve (route req) w))).
Proof.
  intros Hk. destruct req; cbn [route].
  - destruct (products_POST_outcome now data w)
      as [[H _]|(name & price_in & category & price & stock & product & _ & _
                 & _ & _ & _ & Hstored & _ & _ & H)];
      cbv zeta in H; rewrite H; [exact Hk|].
    apply stored_product_fields in Hstored. destruct Hstored as (Hid & _).
    cbn [new_product Product.id] in Hid.
    destruct Hk as (Hp & Ho & Hi). unfold keys_unique.
    cbn [snd db products orders order_items].
    split; [|now split]. rewrite map_app. cbn [map]. rewrite Hid.
    now apply NoDup_next_id.
  - now rewrite product_detail_GET_run.
  - destruct (product_detail_PUT_outcome now product_id data w)
      as [[H _]|(p & price & stock & p' & _ & _ & _ & _ & _ & _ & H)];
      cbv zeta in H; rewrite H; [exact Hk|].
    destruct Hk as (Hp & Ho & Hi). unfold keys_unique.
    cbn [snd db products orders order_items].
    now rewrite put_product_ids.
  - rewrite product_detail_DELETE_run.
    destruct (in_int64 _); [|exact Hk].
    destruct (get_product _ _); [|exact Hk].
    unfold delete_product. destruct (existsb _ _); [exact Hk|].
    destruct Hk as (Hp & Ho & Hi). unfold keys_unique.
    cbn [snd db products orders order_items].
    split; [|now split]. now apply NoDup_map_filter.
  - now rewrite cart_GET_db.
  - now rewrite cart_POST_db.
  - now rewrite cart_DELETE_db.
  - now rewrite update_cart_db.
  - exact Hk.
  - destruct (checkout_outcome fault now data w)
      as [[[Hw|Hw] _]|(u & total & order & tx & _ & _ & _ & Hstored & Hw & Hr)].
    + now rewrite Hw.
    + now rewrite Hw, db_touched.
    + cbv zeta in Hr. rewrite Hr. cbn [snd with_cart db].
      destruct Hk as (Hp & Ho & Hi).
      pose proof (write_phase_ok _ _ _ _ _ _ Hw) as (Hos & _).
      pose proof (stored_order_fields _ _ Hstored) as (Hid & _).
      cbn [new_order Order.id] in Hid.
      apply write_phase_place in Hw.
      apply place_items_keys in Hw; [|exact Hi].
      cbn [products] in Hw. destruct Hw as [Hps His].
      unfold keys_unique. rewrite Hps, Hos, map_app.
      split; [exact Hp|]. split; [|exact His].
      cbn [map]. rewrite Hid. now apply NoDup_next_id.
  - now rewrite get_order_detail_run.
Qed.

Lemma keys_unique_site_serve (req : site_request) (s : Site.t) :
  keys_unique (db (Site.shop s)) ->
  keys_unique (db (Site.shop (snd (site_serve req s)))).
Proof.
  intros Hk. destruct req.
  - exact Hk.
  - rewrite register_POST_run. cbv zeta.
    destruct (find _ _); [exact Hk|].
    destruct (find _ _); [exact Hk|].
    now destruct (insert_user _ _ _ _ _).
  - exact Hk.
  - rewrite login_POST_run. now destruct (find _ _).
  - exact Hk.
  - now rewrite site_serve_ProductsGET.
  - now rewrite site_serve_OrdersGET.
  - rewrite site_serve_Shop. cbn [snd Site.shop]. now apply keys_unique_serve.
  - now rewrite site_serve_Home.
Qed.

(** X20. No primary key of the products, the orders and the line items
    occurs twice: every request keeps the keys of each table distinct,
    and so they are after any sequence of requests on the database that
    [init_db] creates.  Reading a row by its key is therefore reading the
    one row with that key. *)
Theorem keys_unique_invariant :
  (forall req s,
      keys_unique (db (Site.shop s)) ->
      keys_unique (db (Site.shop (snd (site_serve req s))))) /\
  (forall reqs now, keys_unique (db (Site.shop (site_run reqs (opening now))))).
Proof.
  split; [exact keys_unique_site_serve|].
  intros reqs now.
  assert (Hrun : forall s, keys_unique (db (Site.shop s)) ->
                           keys_unique (db (Site.shop (site_run reqs s)))).
  { induction reqs as [|req reqs IH]; intros s Hs; [exact Hs|].
    cbn [site_run]. apply IH.
    cbn [site_persist Site.shop persist db]. now apply keys_unique_site_serve. }
  apply Hrun. unfold keys_unique, opening. cbn [Site.shop db].
  split; [|split; constructor].
  vm_compute. repeat constructor; simpl; intuition discriminate.
Qed.

Lemma keys_unique_invariant_witness :
  keys_unique
    (db (Site.shop (snd (site_serve (Shop (Checkout None 100 main_street))
                           (Site.mk [alice] None shopper))))).
Proof.
  apply (proj1 keys_unique_invariant). unfold keys_unique.
  cbn [Site.shop shopper db products orders order_items map].
  split; [|split; constructor].
  vm_compute. repeat constructor; simpl; intuition discriminate.
Defined.

(** ** Products that have been ordered *)

Lemma Forall2_In_l {A B : Type} (R : A -> B -> Prop) l l' x :
  Forall2 R l l' -> In x l -> exists y, In y l' /\ R x y.
Proof.
  induction 1 as [|x' y l l' HR _ IH]; simpl; [contradiction|].
  intros [->|Hin].
  - exists y. auto.
  - destruct (IH Hin) as [y' [Hy' HR']]. exists y'. auto.
Qed.

Lemma delete_referenced (product_id : Z) (w : world) (it : OrderItem.t) :
  In it (order_items (db w)) ->
  OrderItem.product_id it = product_id ->
  serve (product_detail_DELETE product_id) w =
  (match get_product product_id (products (db w)) with
   | Some _ => server_error
   | None => if in_int64 product_id then not_found else server_error
   end, w).
Proof.
  intros Hin Hit. rewrite product_detail_DELETE_run.
  destruct (in_int64 product_id);
    [|now destruct (get_product product_id (products (db w)))].
  destruct (get_product product_id (products (db w))) as [p|] eqn:Hp;
    [|reflexivity].
  unfold delete_product.
  assert (Hex : existsb (fun it => OrderItem.product_id it =? Product.id p)
                  (order_items (db w)) = true).
  { apply existsb_exists. exists it. split; [exact Hin|].
    rewrite Hit, (get_product_id _ _ _ Hp). apply Z.eqb_refl. }
  now rewrite Hex.
Qed.

(** X21. A product that a line item refers to cannot be deleted: the
    delete request ends in the integrity error of the line items that
    would lose their product, is answered 500 and changes nothing.  In
    particular, after a checkout answered 201 this holds for the product
    of every entry of the cart that was ordered. *)
Theorem ordered_product_stays :
  (forall (product_id : Z) (w : world) (it : OrderItem.t) (p : Product.t),
      In it (order_items (db w)) ->
      OrderItem.product_id it = product_id ->
      get_product product_id (products (db w)) = Some p ->
      serve (product_detail_DELETE product_id) w = (server_error, w)) /\
  (forall (fault : option nat) (now : Z) (data : list (string * value))
          (w : world) (kv : string * Z) (pid : Z),
      let r := serve (checkout fault now data) w in
      status (fst r) = 201 ->
      In kv (stored_cart (session w)) ->
      py_int (PStr (fst kv)) = Ok pid ->
      serve (product_detail_DELETE pid) (snd r) = (server_error, snd r)).
Proof.
  split.
  - intros product_id w it p Hin Hit Hp.
    rewrite (delete_referenced product_id w it Hin Hit). now rewrite Hp.
  - intros fault now data w kv pid r H201 Hin Hpid. subst r.
    destruct (checkout_201 _ _ _ _ H201) as (total & order & tx & _ & _ & _ & _ & Hstored & Hw & Hsnd).
    rewrite Hsnd.
    pose proof (write_phase_ok _ _ _ _ _ _ Hw)
      as (_ & (items & Hitems & Hall) & Hstock & _).
    destruct (Forall2_In_l _ _ _ _ Hall Hin)
      as (it & Hit & pid' & p & Hpid' & Hp & _ & Hitp & _).
    assert (Heq : pid' = pid) by congruence. rewrite Heq in Hp, Hitp.
    specialize (Hstock pid). rewrite Hp in Hstock.
    destruct Hstock as (p' & Hp' & _).
    rewrite (delete_referenced pid _ it).
    + cbn [with_cart db]. now rewrite Hp'.
    + cbn [with_cart db]. rewrite Hitems. apply in_or_app. now right.
    + exact Hitp.
Qed.

Lemma ordered_product_stays_witness :
  let r := serve (checkout None 100 main_street) shopper in
  serve (product_detail_DELETE 4) (snd r) = (server_error, snd r).
Proof.
  apply (proj2 ordered_product_stays None 100 main_street shopper
           ("4"%string, 3) 4).
  - reflexivity.
  - right. now left.
  - reflexivity.
Defined.
